(** * sun4i-csi1: the Allwinner CSI1 capture driver, embedded and verified

    A shallow embedding of
    [drivers/media/platform/sunxi/sun4i-csi/sun4i_csi1.c]: the register
    access layer, the power sequence, the scratch ("dummy") buffer, the
    pending buffer list, the frame-done interrupt path and the
    start/stop of streaming.

    The driver is stateful C.  Every driver function is a computation in
    the monad [M] over a [world]: the driver structure [struct sun4i_csi1],
    the memory mapped registers, the buffers of the videobuf2 queue, and a
    chronological trace of the calls the driver makes into the kernel
    (spinlock, clock, reset, DMA allocator, videobuf2).  A computation
    yields [None] where the C code dereferences an invalid pointer, or
    goes on with a pointer to something that is no buffer. *)

From stdpp Require Import gmap list.
From Stdlib Require Import ZArith Lia.

Local Open Scope Z_scope.

(** ** Machine integers *)

(** [uint32_t]: register values, [__u32] fields. *)
Definition wrap32 (x : Z) : Z := x mod 2 ^ 32.
(** [uint64_t]: the frame counter. *)
Definition wrap64 (x : Z) : Z := x mod 2 ^ 64.
(** [~x] on a [uint32_t]. *)
Definition not32 (x : Z) : Z := wrap32 (Z.lnot x).

Global Arguments wrap32 : simpl never.
Global Arguments wrap64 : simpl never.
Global Arguments not32 : simpl never.

Definition EINVAL : Z := 22.
Definition ENOMEM : Z := 12.

(** ** The register map *)

Definition SUN4I_CSI1_ENABLE : Z := 0x000.
Definition SUN4I_CSI1_CONFIG : Z := 0x004.
Definition SUN4I_CSI1_CAPTURE : Z := 0x008.
Definition SUN4I_CSI1_SCALE : Z := 0x00C.
Definition SUN4I_CSI1_FIFO0_BUFFER_A : Z := 0x010.
Definition SUN4I_CSI1_FIFO0_BUFFER_B : Z := 0x014.
Definition SUN4I_CSI1_FIFO1_BUFFER_A : Z := 0x018.
Definition SUN4I_CSI1_FIFO1_BUFFER_B : Z := 0x01C.
Definition SUN4I_CSI1_FIFO2_BUFFER_A : Z := 0x020.
Definition SUN4I_CSI1_FIFO2_BUFFER_B : Z := 0x024.
Definition SUN4I_CSI1_BUFFER_CONTROL : Z := 0x028.
Definition SUN4I_CSI1_BUFFER_STATUS : Z := 0x02C.
Definition SUN4I_CSI1_INT_ENABLE : Z := 0x030.
Definition SUN4I_CSI1_INT_STATUS : Z := 0x034.
Definition SUN4I_CSI1_HSIZE : Z := 0x040.
Definition SUN4I_CSI1_VSIZE : Z := 0x044.
Definition SUN4I_CSI1_STRIDE : Z := 0x048.

(** ** Data model *)

Inductive clk := clk_bus | clk_module | clk_ram.

(** [enum vb2_buffer_state] of the videobuf2 core. *)
Inductive vb2_buffer_state :=
| VB2_BUF_STATE_DEQUEUED
| VB2_BUF_STATE_IN_REQUEST
| VB2_BUF_STATE_PREPARING
| VB2_BUF_STATE_QUEUED
| VB2_BUF_STATE_ACTIVE
| VB2_BUF_STATE_DONE
| VB2_BUF_STATE_ERROR.

Global Instance vb2_buffer_state_eq_dec : EqDecision vb2_buffer_state.
Proof. solve_decision. Defined.

(** [struct sun4i_csi1_buffer], with the fields of the embedded
    [struct vb2_v4l2_buffer] the driver touches.  A buffer is referred to
    by its index in [queue->bufs].  Its intrusive [list] node is kept
    apart from the other members: while the node is linked the index is a
    member of [buffer_list], and what the node holds while it is on no
    list is in [nodes] of the world. *)
Record sun4i_csi1_buffer := mk_buffer {
  vb2_state : vb2_buffer_state;
  v4l2_sequence : Z;
  vb2_timestamp : Z;
  dma_addr : list Z
}.

(** The [struct list_head list] of a buffer that is on no list: zeroes,
    as the videobuf2 core allocated the buffer; the node's own address,
    after [INIT_LIST_HEAD] (which [sun4i_csi1_buffer_prepare] calls) or
    [list_del_init]; or the poison pointers that [list_del] leaves. *)
Inductive list_head := LIST_ZERO | LIST_SELF | LIST_POISON.

Global Instance list_head_eq_dec : EqDecision list_head.
Proof. solve_decision. Defined.

(** [struct dummy_buffer]: a NULL [virtual] pointer is [0]. *)
Record dummy_buffer := mk_dummy {
  virtual : list Z;
  dummy_dma_addr : list Z
}.

Record v4l2_plane_pix_format := mk_plane {
  sizeimage : Z;
  bytesperline : Z
}.

(** [struct v4l2_format], with its [fmt.pix_mp] member flattened. *)
Record v4l2_format := mk_format {
  fmt_type : Z;
  pix_width : Z;
  pix_height : Z;
  pixelformat : Z;
  field : Z;
  colorspace : Z;
  plane_fmt : list v4l2_plane_pix_format;
  num_planes : Z;
  ycbcr_enc : Z;
  quantization : Z;
  xfer_func : Z
}.

(** [struct sun4i_csi1]. *)
Record sun4i_csi1 := mk_csi {
  powered : bool;
  csi_v4l2_format : v4l2_format;
  plane_count : Z;
  plane_size : Z;
  width : Z;
  height : Z;
  hdisplay_start : Z;
  vdisplay_start : Z;
  hsync_polarity : bool;
  vsync_polarity : bool;
  buffer_list : list nat;
  buffers : list (option nat);
  sequence : Z;
  dummy : dummy_buffer;
  min_buffers_needed : Z
}.

(** What the driver asks of the kernel, in the order it asks. *)
Inductive event :=
| EvSpinLock (irqsave : bool)
| EvSpinUnlock (irqrestore : bool)
| EvWritel (address value : Z)
| EvResetDeassert (ret : Z)
| EvResetAssert
| EvClkSetRate (c : clk) (rate : Z)
| EvClkPrepareEnable (c : clk) (ret : Z)
| EvClkDisableUnprepare (c : clk)
| EvDmaAllocCoherent (size virt dma : Z)
| EvDmaFreeCoherent (size virt dma : Z)
| EvKtimeGetNs (ns : Z)
| EvVb2BufferDone (index : nat) (seq timestamp : Z) (state : vb2_buffer_state)
| EvWarnOn (index : nat).

(** The kernel as the driver meets it: what the reset line, the clocks,
    the DMA allocator and the monotonic clock will answer. *)
Record platform := mk_platform {
  reset_deassert_ret : Z;
  clk_enable_ret : clk -> Z;
  dma_pool : list (Z * Z);
  ktime_ns : Z
}.

Record world := mk_world {
  csi : sun4i_csi1;
  mmio : gmap Z Z;
  bufs : list sun4i_csi1_buffer;
  trace : list event;
  kernel : platform;
  nodes : gmap nat list_head
}.

Definition with_csi (c : sun4i_csi1) (w : world) : world :=
  mk_world c (mmio w) (bufs w) (trace w) (kernel w) (nodes w).
Definition with_mmio (m : gmap Z Z) (w : world) : world :=
  mk_world (csi w) m (bufs w) (trace w) (kernel w) (nodes w).
Definition with_bufs (b : list sun4i_csi1_buffer) (w : world) : world :=
  mk_world (csi w) (mmio w) b (trace w) (kernel w) (nodes w).
Definition with_trace (t : list event) (w : world) : world :=
  mk_world (csi w) (mmio w) (bufs w) t (kernel w) (nodes w).
Definition with_kernel (k : platform) (w : world) : world :=
  mk_world (csi w) (mmio w) (bufs w) (trace w) k (nodes w).
Definition with_nodes (n : gmap nat list_head) (w : world) : world :=
  mk_world (csi w) (mmio w) (bufs w) (trace w) (kernel w) n.

Definition set_powered (b : bool) (c : sun4i_csi1) : sun4i_csi1 :=
  mk_csi b (csi_v4l2_format c) (plane_count c) (plane_size c) (width c)
    (height c) (hdisplay_start c) (vdisplay_start c) (hsync_polarity c)
    (vsync_polarity c) (buffer_list c) (buffers c) (sequence c) (dummy c)
    (min_buffers_needed c).
Definition set_buffer_list (l : list nat) (c : sun4i_csi1) : sun4i_csi1 :=
  mk_csi (powered c) (csi_v4l2_format c) (plane_count c) (plane_size c)
    (width c) (height c) (hdisplay_start c) (vdisplay_start c)
    (hsync_polarity c) (vsync_polarity c) l (buffers c) (sequence c)
    (dummy c) (min_buffers_needed c).
Definition set_buffers (b : list (option nat)) (c : sun4i_csi1) : sun4i_csi1 :=
  mk_csi (powered c) (csi_v4l2_format c) (plane_count c) (plane_size c)
    (width c) (height c) (hdisplay_start c) (vdisplay_start c)
    (hsync_polarity c) (vsync_polarity c) (buffer_list c) b (sequence c)
    (dummy c) (min_buffers_needed c).
Definition set_sequence (s : Z) (c : sun4i_csi1) : sun4i_csi1 :=
  mk_csi (powered c) (csi_v4l2_format c) (plane_count c) (plane_size c)
    (width c) (height c) (hdisplay_start c) (vdisplay_start c)
    (hsync_polarity c) (vsync_polarity c) (buffer_list c) (buffers c) s
    (dummy c) (min_buffers_needed c).
Definition set_dummy (d : dummy_buffer) (c : sun4i_csi1) : sun4i_csi1 :=
  mk_csi (powered c) (csi_v4l2_format c) (plane_count c) (plane_size c)
    (width c) (height c) (hdisplay_start c) (vdisplay_start c)
    (hsync_polarity c) (vsync_polarity c) (buffer_list c) (buffers c)
    (sequence c) d (min_buffers_needed c).

(** ** The monad of driver code *)

Definition M (A : Type) : Type := world -> option (A * world).

Global Instance M_ret : MRet M := fun A a w => Some (a, w).
Global Instance M_bind : MBind M := fun A B k m w =>
  match m w with
  | Some (a, w') => k a w'
  | None => None
  end.

Definition gets {A} (f : world -> A) : M A := fun w => Some (f w, w).
Definition modify (f : world -> world) : M unit := fun w => Some (tt, f w).
(** An invalid pointer is dereferenced. *)
Definition fault {A} : M A := fun _ => None.
Definition emit (e : event) : M unit :=
  modify (fun w => with_trace (trace w ++ [e]) w).
Definition modify_csi (f : sun4i_csi1 -> sun4i_csi1) : M unit :=
  modify (fun w => with_csi (f (csi w)) w).
(** [p[i]] for an array held as a list. *)
Definition deref {A} (o : option A) : M A :=
  match o with
  | Some a => mret a
  | None => fault
  end.

(** ** The intrusive list

    [csi->buffer_list] is kept as the sequence of the buffers linked on
    it, head first.  A node that leaves the list is left pointing at
    itself by [list_del_init] and poisoned by [list_del]. *)

Definition node (w : world) (buffer : nat) : list_head :=
  default LIST_ZERO (nodes w !! buffer).
Definition set_node (buffer : nat) (n : list_head) : M unit :=
  modify (fun w => with_nodes (<[buffer := n]> (nodes w)) w).

(** ** Register access layer *)

Definition readl (address : Z) : M Z :=
  gets (fun w => default 0 (mmio w !! address)).
Definition writel (value address : Z) : M unit :=
  modify (fun w => with_mmio (<[address := value]> (mmio w)) w) ;;
  emit (EvWritel address value).

Definition spin_lock : M unit := emit (EvSpinLock false).
Definition spin_unlock : M unit := emit (EvSpinUnlock false).
Definition spin_lock_irqsave : M unit := emit (EvSpinLock true).
Definition spin_unlock_irqrestore : M unit := emit (EvSpinUnlock true).

(** The [uint32_t] parameters convert their arguments on entry. *)
Definition sun4i_csi1_write (address value : Z) : M unit :=
  writel (wrap32 value) address.

Definition sun4i_csi1_write_spin (address value : Z) : M unit :=
  spin_lock_irqsave ;;
  writel (wrap32 value) address ;;
  spin_unlock_irqrestore.

Definition sun4i_csi1_read (address : Z) : M Z := readl address.

Definition sun4i_csi1_read_spin (address : Z) : M Z :=
  spin_lock_irqsave ;;
  ret ← readl address;
  spin_unlock_irqrestore ;;
  mret ret.

Definition sun4i_csi1_mask (address value mask : Z) : M unit :=
  let value := wrap32 value in
  let mask := wrap32 mask in
  temp ← readl address;
  let temp := Z.land temp (not32 mask) in
  let value := Z.land value mask in
  writel (Z.lor value temp) address.

Definition sun4i_csi1_mask_spin (address value mask : Z) : M unit :=
  let value := wrap32 value in
  let mask := wrap32 mask in
  spin_lock_irqsave ;;
  temp ← readl address;
  let temp := Z.land temp (not32 mask) in
  let value := Z.land value mask in
  writel (Z.lor value temp) address ;;
  spin_unlock_irqrestore.

(** [for (i = 0; i < n; i++)] over local variables [acc]. *)
Fixpoint for_fold_from {S : Type} (start : Z) (count : nat)
    (body : Z -> S -> M S) (acc : S) : M S :=
  match count with
  | O => mret acc
  | S count' => acc' ← body start acc; for_fold_from (start + 1) count' body acc'
  end.
Definition for_fold {S : Type} (n : Z) (body : Z -> S -> M S) (acc : S) : M S :=
  for_fold_from 0 (Z.to_nat n) body acc.

(** [a[i]] and [a[i] = v] on a fixed-size C array: outside the array the
    access is invalid. *)
Definition array_load {A} (a : list A) (i : Z) : option A :=
  if decide (0 <= i) then a !! Z.to_nat i else None.
Definition array_store {A} (a : list A) (i : Z) (v : A) : option (list A) :=
  if decide (0 <= i < Z.of_nat (length a)) then Some (<[Z.to_nat i := v]> a)
  else None.

(** The register dump of [sun4i_registers_print]: seventeen locked reads,
    whose values only reach the kernel log. *)
Definition sun4i_registers_print : M unit :=
  for_fold_from 0 17 (fun i _ =>
    sun4i_csi1_read_spin
      (nth (Z.to_nat i)
         [SUN4I_CSI1_ENABLE; SUN4I_CSI1_CONFIG; SUN4I_CSI1_CAPTURE;
          SUN4I_CSI1_SCALE; SUN4I_CSI1_FIFO0_BUFFER_A;
          SUN4I_CSI1_FIFO0_BUFFER_B; SUN4I_CSI1_FIFO1_BUFFER_A;
          SUN4I_CSI1_FIFO1_BUFFER_B; SUN4I_CSI1_FIFO2_BUFFER_A;
          SUN4I_CSI1_FIFO2_BUFFER_B; SUN4I_CSI1_BUFFER_CONTROL;
          SUN4I_CSI1_BUFFER_STATUS; SUN4I_CSI1_INT_ENABLE;
          SUN4I_CSI1_INT_STATUS; SUN4I_CSI1_HSIZE; SUN4I_CSI1_VSIZE;
          SUN4I_CSI1_STRIDE] 0) ;;
    mret tt) tt.

(** ** Clock and reset control *)

Definition reset_control_deassert : M Z :=
  ret ← gets (fun w => reset_deassert_ret (kernel w));
  emit (EvResetDeassert ret) ;;
  mret ret.
(** Every caller drops the return value. *)
Definition reset_control_assert : M unit := emit EvResetAssert.
Definition clk_prepare_enable (c : clk) : M Z :=
  ret ← gets (fun w => clk_enable_ret (kernel w) c);
  emit (EvClkPrepareEnable c ret) ;;
  mret ret.
Definition clk_disable_unprepare (c : clk) : M unit :=
  emit (EvClkDisableUnprepare c).
Definition clk_set_rate (c : clk) (rate : Z) : M unit :=
  emit (EvClkSetRate c rate).

(** The labels of [sun4i_csi1_poweron], each falling through to the next. *)
Definition poweron_err_reset (ret : Z) : M Z := mret ret.
Definition poweron_err_bus (ret : Z) : M Z :=
  reset_control_assert ;; poweron_err_reset ret.
Definition poweron_err_ram (ret : Z) : M Z :=
  clk_disable_unprepare clk_bus ;; poweron_err_bus ret.
Definition poweron_err_module (ret : Z) : M Z :=
  clk_disable_unprepare clk_ram ;; poweron_err_ram ret.

Definition sun4i_csi1_poweron : M Z :=
  ret ← reset_control_deassert;
  if decide (ret = 0) then
    ret ← clk_prepare_enable clk_bus;
    if decide (ret = 0) then
      ret ← clk_prepare_enable clk_ram;
      if decide (ret = 0) then
        clk_set_rate clk_module 24000000 ;;
        ret ← clk_prepare_enable clk_module;
        if decide (ret = 0) then
          (* enable module *)
          sun4i_csi1_mask_spin SUN4I_CSI1_ENABLE 0x01 0x01 ;;
          mret 0
        else poweron_err_module ret
      else poweron_err_ram ret
    else poweron_err_bus ret
  else poweron_err_reset ret.

Definition sun4i_csi1_poweroff : M Z :=
  (* reset and disable module *)
  sun4i_csi1_mask_spin SUN4I_CSI1_ENABLE 0 0x01 ;;
  clk_disable_unprepare clk_module ;;
  clk_disable_unprepare clk_ram ;;
  clk_disable_unprepare clk_bus ;;
  reset_control_assert ;;
  mret 0.

(** ** videobuf2 and the monotonic clock *)

Definition ktime_get_ns : M Z :=
  t ← gets (fun w => ktime_ns (kernel w));
  emit (EvKtimeGetNs t) ;;
  mret t.

(** [p->field] for a buffer pointer [p]: NULL and dangling pointers fault. *)
Definition buffer_at (p : option nat) : M sun4i_csi1_buffer :=
  match p with
  | Some i => b ← gets (fun w => bufs w !! i); deref b
  | None => fault
  end.
Definition buffer_update (i : nat) (f : sun4i_csi1_buffer -> sun4i_csi1_buffer) : M unit :=
  b ← buffer_at (Some i);
  modify (fun w => with_bufs (<[i := f b]> (bufs w)) w).

Definition set_vb2_state (s : vb2_buffer_state) (b : sun4i_csi1_buffer) :=
  mk_buffer s (v4l2_sequence b) (vb2_timestamp b) (dma_addr b).
Definition set_v4l2_sequence (s : Z) (b : sun4i_csi1_buffer) :=
  mk_buffer (vb2_state b) s (vb2_timestamp b) (dma_addr b).
Definition set_vb2_timestamp (t : Z) (b : sun4i_csi1_buffer) :=
  mk_buffer (vb2_state b) (v4l2_sequence b) t (dma_addr b).

(** Modelled from the spec: the consumer notification
    [on_buffer_complete(buffer, sequence, timestamp, status)], which is
    [vb2_buffer_done] of the videobuf2 core (not under src/).  As the
    comment in [sun4i_csi1_buffers_mark_done] recalls, a buffer that is not
    active only raises a WARN_ON and stays as it is. *)
Definition vb2_buffer_done (i : nat) (state : vb2_buffer_state) : M unit :=
  b ← buffer_at (Some i);
  if decide (vb2_state b = VB2_BUF_STATE_ACTIVE) then
    buffer_update i (set_vb2_state state) ;;
    emit (EvVb2BufferDone i (v4l2_sequence b) (vb2_timestamp b) state)
  else emit (EvWarnOn i).

(** ** The interrupt path *)

Definition program_slot (index : Z) (a0 a1 a2 : Z) : M unit :=
  if decide (index = 0) then
    sun4i_csi1_write SUN4I_CSI1_FIFO0_BUFFER_A a0 ;;
    sun4i_csi1_write SUN4I_CSI1_FIFO1_BUFFER_A a1 ;;
    sun4i_csi1_write SUN4I_CSI1_FIFO2_BUFFER_A a2
  else
    sun4i_csi1_write SUN4I_CSI1_FIFO0_BUFFER_B a0 ;;
    sun4i_csi1_write SUN4I_CSI1_FIFO1_BUFFER_B a1 ;;
    sun4i_csi1_write SUN4I_CSI1_FIFO2_BUFFER_B a2.

Definition sun4i_csi1_frame_done : M unit :=
  spin_lock ;;
  sequence ← gets (fun w => sequence (csi w));
  modify_csi (set_sequence (wrap64 (sequence + 1))) ;;
  let index := Z.land sequence 0x01 in
  old ← (slots ← gets (fun w => buffers (csi w)); deref (array_load slots index));
  pending ← gets (fun w => buffer_list (csi w));
  '(dma_addr, disabled) ←
    match pending with
    | [] =>
        (* disable module *)
        sun4i_csi1_mask SUN4I_CSI1_ENABLE 0 0x01 ;;
        d ← gets (fun w => dummy_dma_addr (dummy (csi w)));
        slots ← gets (fun w => buffers (csi w));
        slots' ← deref (array_store slots index None);
        modify_csi (set_buffers slots') ;;
        mret (d, true)
    | new :: rest =>
        (* list_first_entry(), list_del_init() *)
        modify_csi (set_buffer_list rest) ;;
        set_node new LIST_SELF ;;
        b ← buffer_at (Some new);
        slots ← gets (fun w => buffers (csi w));
        slots' ← deref (array_store slots index (Some new));
        modify_csi (set_buffers slots') ;;
        mret (dma_addr b, false)
    end;
  a0 ← deref (array_load dma_addr 0);
  a1 ← deref (array_load dma_addr 1);
  a2 ← deref (array_load dma_addr 2);
  program_slot index a0 a1 a2 ;;
  spin_unlock ;;
  match old with
  | None => fault
  | Some o =>
      t ← ktime_get_ns;
      buffer_update o (set_vb2_timestamp t) ;;
      (* [__u32 sequence] of [struct vb2_v4l2_buffer] *)
      buffer_update o (set_v4l2_sequence (wrap32 sequence)) ;;
      vb2_buffer_done o VB2_BUF_STATE_DONE
  end.

Definition sun4i_csi1_isr : M unit :=
  spin_lock ;;
  value ← sun4i_csi1_read SUN4I_CSI1_INT_STATUS;
  (* ack. *)
  sun4i_csi1_write SUN4I_CSI1_INT_STATUS value ;;
  spin_unlock ;;
  if decide (Z.land value 0x02 = 0) then mret tt
  else sun4i_csi1_frame_done.

(** ** The pending list *)

(** The [while (1)] of [sun4i_csi1_buffer_list_clear].  Each turn takes
    the head off the list with [list_del], so one turn more than the list
    is long ends the loop; [fuel] counts the turns. *)
Fixpoint buffer_list_clear_loop (fuel : nat) : M unit :=
  match fuel with
  | O => fault
  | S fuel' =>
      spin_lock_irqsave ;;
      pending ← gets (fun w => buffer_list (csi w));
      let buffer := head pending in
      match buffer with
      | Some b =>
          modify_csi (set_buffer_list (tail pending)) ;;
          set_node b LIST_POISON
      | None => mret tt
      end ;;
      spin_unlock_irqrestore ;;
      match buffer with
      | None => mret tt
      | Some b =>
          vb2_buffer_done b VB2_BUF_STATE_ERROR ;;
          buffer_list_clear_loop fuel'
      end
  end.

Definition sun4i_csi1_buffer_list_clear : M unit :=
  pending ← gets (fun w => buffer_list (csi w));
  buffer_list_clear_loop (S (length pending)).

(** [list_add_tail] writes the node without reading it: whatever the
    node held, it is linked at the tail. *)
Definition sun4i_csi1_buffer_queue (buffer : nat) : M unit :=
  spin_lock_irqsave ;;
  modify_csi (fun c => set_buffer_list (buffer_list c ++ [buffer]) c) ;;
  spin_unlock_irqrestore.

(** [list_del(&buffer->list)] on any buffer of the queue.  The node is
    unlinked through its own [next] and [prev]: a node on the list leaves
    it; a node pointing at itself is its own neighbour, and the list stays
    as it is; a node holding zeroes or poison makes [list_del] dereference
    an invalid pointer.  The node is poisoned afterwards. *)
Definition list_del (buffer : nat) : M unit :=
  pending ← gets (fun w => buffer_list (csi w));
  n ← gets (fun w => node w buffer);
  (if decide (buffer ∈ pending) then
     modify_csi (set_buffer_list (filter (fun b => b ≠ buffer) pending))
   else
     match n with
     | LIST_SELF => mret tt
     | LIST_ZERO | LIST_POISON => fault
     end) ;;
  set_node buffer LIST_POISON.

(** ** The dummy buffer *)

(** [dma_alloc_coherent(dev, size, &handle, GFP_KERNEL)]: the next answer
    of the allocator, NULL when it has none; only a successful call writes
    the handle.  With [GFP_KERNEL] the call may sleep. *)
Definition dma_alloc_coherent (size : Z) : M (option (Z * Z)) :=
  pool ← gets (fun w => dma_pool (kernel w));
  match pool with
  | (virt, dma) :: rest =>
      modify (fun w =>
        with_kernel (mk_platform (reset_deassert_ret (kernel w))
                       (clk_enable_ret (kernel w)) rest (ktime_ns (kernel w))) w) ;;
      if decide (virt = 0) then
        emit (EvDmaAllocCoherent size 0 0) ;; mret None
      else
        emit (EvDmaAllocCoherent size virt dma) ;; mret (Some (virt, dma))
  | [] => emit (EvDmaAllocCoherent size 0 0) ;; mret None
  end.

Definition dma_free_coherent (size virt dma : Z) : M unit :=
  emit (EvDmaFreeCoherent size virt dma).

Definition sun4i_csi1_dummy_buffer_free : M Z :=
  let virtual_addr := [0; 0; 0] in
  let dma_addr := [0; 0; 0] in
  spin_lock_irqsave ;;
  n ← gets (fun w => plane_count (csi w));
  '(virtual_addr, dma_addr) ←
    for_fold n (fun i '(virtual_addr, dma_addr) =>
      d ← gets (fun w => dummy (csi w));
      v ← deref (array_load (virtual d) i);
      if decide (v = 0) then mret (virtual_addr, dma_addr)
      else
        a ← deref (array_load (dummy_dma_addr d) i);
        virtual_addr' ← deref (array_store virtual_addr i v);
        dma_addr' ← deref (array_store dma_addr i a);
        virtual' ← deref (array_store (virtual d) i 0);
        dummy_dma_addr' ← deref (array_store (dummy_dma_addr d) i 0);
        modify_csi (set_dummy (mk_dummy virtual' dummy_dma_addr')) ;;
        mret (virtual_addr', dma_addr')) (virtual_addr, dma_addr);
  spin_unlock_irqrestore ;;
  (* dma_free_coherent() must be called with interrupts enabled. *)
  size ← gets (fun w => plane_size (csi w));
  for_fold n (fun i _ =>
    v ← deref (array_load virtual_addr i);
    if decide (v = 0) then mret tt
    else
      a ← deref (array_load dma_addr i);
      dma_free_coherent size v a) tt ;;
  mret 0.

(** The allocation loop of [sun4i_csi1_dummy_buffer_alloc] with its
    [break]; the result is [i] as the loop leaves it. *)
Fixpoint dummy_buffer_alloc_loop (i : Z) (count : nat) : M Z :=
  match count with
  | O => mret i
  | S count' =>
      size ← gets (fun w => plane_size (csi w));
      r ← dma_alloc_coherent size;
      d ← gets (fun w => dummy (csi w));
      match r with
      | Some (virt, dma) =>
          virtual' ← deref (array_store (virtual d) i virt);
          dummy_dma_addr' ← deref (array_store (dummy_dma_addr d) i dma);
          modify_csi (set_dummy (mk_dummy virtual' dummy_dma_addr')) ;;
          dummy_buffer_alloc_loop (i + 1) count'
      | None =>
          virtual' ← deref (array_store (virtual d) i 0);
          modify_csi (set_dummy (mk_dummy virtual' (dummy_dma_addr d))) ;;
          mret i
      end
  end.

Definition sun4i_csi1_dummy_buffer_alloc : M Z :=
  sun4i_csi1_dummy_buffer_free ;;
  spin_lock_irqsave ;;
  n ← gets (fun w => plane_count (csi w));
  i ← dummy_buffer_alloc_loop 0 (Z.to_nat n);
  if decide (i = n) then
    spin_unlock_irqrestore ;;
    mret 0
  else
    spin_unlock_irqrestore ;;
    sun4i_csi1_dummy_buffer_free ;;
    mret (- ENOMEM).

(** [sun4i_csi1_queue_setup]: the return value, [*planes_count] and
    [sizes[]]. *)
Definition sun4i_csi1_queue_setup : M (Z * Z * list Z) :=
  n ← gets (fun w => plane_count (csi w));
  size ← gets (fun w => plane_size (csi w));
  let sizes := replicate (Z.to_nat n) size in
  sun4i_csi1_buffer_list_clear ;;
  ret ← sun4i_csi1_dummy_buffer_alloc;
  mret (ret, n, sizes).

(** ** Starting and stopping the engine *)

(** [list_first_entry] followed by [list_del_init] of that entry.  On an
    empty list [list_first_entry] does not trap: it yields the address of
    the list head less the offset of [list], which lies inside
    [struct sun4i_csi1] and is no buffer; the driver goes on to store it
    in a slot and to read plane addresses through it.  That pointer has no
    counterpart among the buffers of the queue, so the run ends there. *)
Definition list_pop_first : M nat :=
  pending ← gets (fun w => buffer_list (csi w));
  match pending with
  | first :: rest =>
      modify_csi (set_buffer_list rest) ;;
      set_node first LIST_SELF ;;
      mret first
  | [] => fault
  end.

Definition sun4i_csi1_engine_start : M unit :=
  spin_lock_irqsave ;;
  modify_csi (set_sequence 0) ;;
  b0 ← list_pop_first;
  slots ← gets (fun w => buffers (csi w));
  slots' ← deref (array_store slots 0 (Some b0));
  modify_csi (set_buffers slots') ;;
  b1 ← list_pop_first;
  slots ← gets (fun w => buffers (csi w));
  slots' ← deref (array_store slots 1 (Some b1));
  modify_csi (set_buffers slots') ;;
  c ← gets csi;
  (* set input format: yuv444 *)
  sun4i_csi1_mask SUN4I_CSI1_CONFIG 0x00400000 0x00700000 ;;
  (* set output format: field planar yuv444 *)
  sun4i_csi1_mask SUN4I_CSI1_CONFIG 0x000C0000 0x000F0000 ;;
  (if vsync_polarity c
   then sun4i_csi1_mask SUN4I_CSI1_CONFIG 0x04 0x04
   else sun4i_csi1_mask SUN4I_CSI1_CONFIG 0 0x04) ;;
  (if hsync_polarity c
   then sun4i_csi1_mask SUN4I_CSI1_CONFIG 0x02 0x02
   else sun4i_csi1_mask SUN4I_CSI1_CONFIG 0 0x02) ;;
  (* PCLK is low *)
  sun4i_csi1_mask SUN4I_CSI1_CONFIG 0 0x01 ;;
  (* set buffer addresses *)
  first ← buffer_at (Some b0);
  a0 ← deref (array_load (dma_addr first) 0);
  a1 ← deref (array_load (dma_addr first) 1);
  a2 ← deref (array_load (dma_addr first) 2);
  sun4i_csi1_write SUN4I_CSI1_FIFO0_BUFFER_A a0 ;;
  sun4i_csi1_write SUN4I_CSI1_FIFO1_BUFFER_A a1 ;;
  sun4i_csi1_write SUN4I_CSI1_FIFO2_BUFFER_A a2 ;;
  second ← buffer_at (Some b1);
  a0 ← deref (array_load (dma_addr second) 0);
  a1 ← deref (array_load (dma_addr second) 1);
  a2 ← deref (array_load (dma_addr second) 2);
  sun4i_csi1_write SUN4I_CSI1_FIFO0_BUFFER_B a0 ;;
  sun4i_csi1_write SUN4I_CSI1_FIFO1_BUFFER_B a1 ;;
  sun4i_csi1_write SUN4I_CSI1_FIFO2_BUFFER_B a2 ;;
  (* enable double buffering, and select buffer A first *)
  sun4i_csi1_write SUN4I_CSI1_BUFFER_CONTROL 0x01 ;;
  (* enable interrupts: frame done *)
  sun4i_csi1_mask SUN4I_CSI1_INT_ENABLE 0x02 0x02 ;;
  sun4i_csi1_mask SUN4I_CSI1_HSIZE (Z.shiftl (width c) 16) 0x1FFF0000 ;;
  sun4i_csi1_mask SUN4I_CSI1_HSIZE (hdisplay_start c) 0x1FFF ;;
  sun4i_csi1_mask SUN4I_CSI1_VSIZE (Z.shiftl (height c) 16) 0x1FFF0000 ;;
  sun4i_csi1_mask SUN4I_CSI1_VSIZE (vdisplay_start c) 0x1FFF ;;
  sun4i_csi1_mask SUN4I_CSI1_STRIDE (width c) 0x1FFF ;;
  (* start. *)
  sun4i_csi1_mask SUN4I_CSI1_CAPTURE 0x02 0x02 ;;
  spin_unlock_irqrestore.

Definition sun4i_csi1_engine_stop : M unit :=
  sun4i_csi1_write_spin SUN4I_CSI1_CAPTURE 0.

Definition sun4i_csi1_streaming_start : M Z :=
  ret ← sun4i_csi1_poweron;
  if decide (ret = 0) then
    modify_csi (set_powered true) ;;
    sun4i_registers_print ;;
    sun4i_csi1_engine_start ;;
    sun4i_registers_print ;;
    mret 0
  else mret ret.

(** One turn of the loop of [sun4i_csi1_buffers_mark_done], on
    [queue->bufs[i]]. *)
Definition buffers_mark_done_turn (i : Z) (_ : unit) : M unit :=
  let buffer := Z.to_nat i in
  spin_lock_irqsave ;;
  list_del buffer ;;
  spin_unlock_irqrestore ;;
  vb2_buffer ← buffer_at (Some buffer);
  (* only disable active buffers, otherwise we get a WARN_ON() *)
  if decide (vb2_state vb2_buffer = VB2_BUF_STATE_ACTIVE)
  then vb2_buffer_done buffer VB2_BUF_STATE_ERROR
  else mret tt.

(** [queue->num_buffers] is the length of [queue->bufs]. *)
Definition sun4i_csi1_buffers_mark_done : M unit :=
  num_buffers ← gets (fun w => Z.of_nat (length (bufs w)));
  for_fold num_buffers buffers_mark_done_turn tt.

Definition sun4i_csi1_streaming_stop : M unit :=
  sun4i_csi1_engine_stop ;;
  sun4i_registers_print ;;
  sun4i_csi1_buffers_mark_done ;;
  sun4i_csi1_buffer_list_clear ;;
  sun4i_csi1_poweroff ;;
  modify_csi (set_powered false).

(** The fields [sun4i_csi1_vb2_queue_initialize] gives the driver its
    behaviour by: the minimum queue depth and the empty pending list. *)
Definition sun4i_csi1_vb2_queue_initialize (c : sun4i_csi1) : sun4i_csi1 :=
  mk_csi (powered c) (csi_v4l2_format c) (plane_count c) (plane_size c)
    (width c) (height c) (hdisplay_start c) (vdisplay_start c)
    (hsync_polarity c) (vsync_polarity c) [] (buffers c) (sequence c)
    (dummy c) 3.

(** [sun4i_csi1_vb2_queue_free], after the core released the queue. *)
Definition sun4i_csi1_vb2_queue_free : M unit :=
  sun4i_csi1_dummy_buffer_free ;; mret tt.

Inductive start_error :=
| InsufficientBuffers
| StartFailed (ret : Z).

(** Modelled from the spec: [start_streaming()] "requires queue depth ≥ 3
    [...] fails with InsufficientBuffers if not met, state remains
    Stopped".  The check itself is made by the videobuf2 core (not under
    src/) against the [min_buffers_needed] the driver declares; past it
    the core calls the driver's [sun4i_csi1_streaming_start]. *)
Definition start_streaming : M (option start_error) :=
  c ← gets csi;
  if decide (Z.of_nat (length (buffer_list c)) < min_buffers_needed c)
  then mret (Some InsufficientBuffers)
  else
    ret ← sun4i_csi1_streaming_start;
    if decide (ret = 0) then mret None else mret (Some (StartFailed ret)).

(** ** Format negotiation *)

(** Values of [include/uapi/linux/videodev2.h]. *)
Definition V4L2_BUF_TYPE_VIDEO_CAPTURE_MPLANE : Z := 9.
Definition V4L2_PIX_FMT_YUV444M : Z := 0x34324D59.
Definition V4L2_FIELD_NONE : Z := 1.
Definition V4L2_COLORSPACE_RAW : Z := 11.
Definition V4L2_YCBCR_ENC_DEFAULT : Z := 0.
Definition V4L2_QUANTIZATION_DEFAULT : Z := 0.
Definition V4L2_XFER_FUNC_NONE : Z := 5.
Definition VIDEO_MAX_PLANES : Z := 8.

(** [sun4i_csi1_format_initialize].  [plane_size] is a [size_t], 32 bits
    wide on the sun4i and sun7i; the [__u32] members of the format convert
    what is stored into them; the [memset] leaves the planes past
    [plane_count] zero. *)
Definition sun4i_csi1_format_initialize (width height : Z)
    (hsync_polarity vsync_polarity : bool) (c : sun4i_csi1) : sun4i_csi1 :=
  let plane_count := 3 in
  let plane_size := wrap32 (width * height) in
  let plane := mk_plane (wrap32 plane_size) (wrap32 width) in
  let pixel :=
    mk_format V4L2_BUF_TYPE_VIDEO_CAPTURE_MPLANE (wrap32 width) (wrap32 height)
      V4L2_PIX_FMT_YUV444M V4L2_FIELD_NONE V4L2_COLORSPACE_RAW
      (replicate (Z.to_nat plane_count) plane
       ++ replicate (Z.to_nat (VIDEO_MAX_PLANES - plane_count)) (mk_plane 0 0))
      plane_count V4L2_YCBCR_ENC_DEFAULT V4L2_QUANTIZATION_DEFAULT
      V4L2_XFER_FUNC_NONE in
  mk_csi (powered c) pixel plane_count plane_size width height
    (hdisplay_start c) (vdisplay_start c) hsync_polarity vsync_polarity
    (buffer_list c) (buffers c) (sequence c) (dummy c) (min_buffers_needed c).

(** The plane loop of [sun4i_csi1_format_test]: [Some false] is its
    [return -EINVAL], [Some true] its normal end. *)
Fixpoint format_test_planes (c : sun4i_csi1) (new : v4l2_format)
    (i : Z) (count : nat) : option bool :=
  match count with
  | O => Some true
  | S count' =>
      plane ← array_load (plane_fmt new) i;
      if decide (wrap32 (width c) ≠ bytesperline plane
                 ∨ plane_size c ≠ sizeimage plane)
      then Some false
      else format_test_planes c new (i + 1) count'
  end.

Definition sun4i_csi1_format_test (format_new : v4l2_format) : M Z :=
  c ← gets csi;
  let old := csi_v4l2_format c in
  let new := format_new in
  if decide (fmt_type (csi_v4l2_format c) ≠ fmt_type format_new)
  then mret (- EINVAL)
  else if decide (wrap32 (width c) ≠ pix_width new
                  ∨ wrap32 (height c) ≠ pix_height new
                  ∨ plane_count c ≠ num_planes new)
  then mret (- EINVAL)
  else
    planes_ok ← deref (format_test_planes c new 0 (Z.to_nat (plane_count c)));
    if negb planes_ok then mret (- EINVAL)
    else if decide (pixelformat old ≠ pixelformat new
                    ∨ field old ≠ field new
                    ∨ colorspace old ≠ colorspace new
                    ∨ quantization old ≠ quantization new
                    ∨ xfer_func old ≠ xfer_func new)
    then mret (- EINVAL)
    else mret 0.

Definition sun4i_csi1_ioctl_format_set (format : v4l2_format) : M Z :=
  sun4i_csi1_format_test format.

Definition sun4i_csi1_ioctl_format_try (format : v4l2_format) : M Z :=
  sun4i_csi1_format_test format.

(** [sun4i_csi1_v4l2_initialize] on the zeroed structure of
    [sun4i_csi1_probe]: the format, the two controls, the queue. *)
Definition csi_zero : sun4i_csi1 :=
  mk_csi false (mk_format 0 0 0 0 0 0 (replicate 8 (mk_plane 0 0)) 0 0 0 0)
    0 0 0 0 0 0 false false [] [None; None] 0
    (mk_dummy [0; 0; 0] [0; 0; 0]) 0.

Definition sun4i_csi1_ctrl_handler_initialize (hdisplay_start vdisplay_start : Z)
    (c : sun4i_csi1) : sun4i_csi1 :=
  mk_csi (powered c) (csi_v4l2_format c) (plane_count c) (plane_size c)
    (width c) (height c) hdisplay_start vdisplay_start
    (hsync_polarity c) (vsync_polarity c) (buffer_list c) (buffers c)
    (sequence c) (dummy c) (min_buffers_needed c).

Definition sun4i_csi1_v4l2_initialize (c : sun4i_csi1) : sun4i_csi1 :=
  sun4i_csi1_vb2_queue_initialize
    (sun4i_csi1_ctrl_handler_initialize 148 36
       (sun4i_csi1_format_initialize 1920 1080 false false c)).

Definition csi_probed : sun4i_csi1 := sun4i_csi1_v4l2_initialize csi_zero.


(** * Specification vocabulary *)

(** The value a world reads at a register address. *)
Definition reg (w : world) (address : Z) : Z := default 0 (mmio w !! address).

(** Well-formed worlds: the fixed-size arrays have their C sizes, the
    driver has at most three planes, and every buffer pointer the driver
    holds points into [queue->bufs]. *)
Definition wf (w : world) : Prop :=
  length (buffers (csi w)) = 2%nat /\
  0 <= plane_count (csi w) <= 3 /\
  length (virtual (dummy (csi w))) = 3%nat /\
  length (dummy_dma_addr (dummy (csi w))) = 3%nat /\
  Forall (fun b => (b < length (bufs w))%nat) (buffer_list (csi w)) /\
  Forall (fun s => forall b, s = Some b -> (b < length (bufs w))%nat)
    (buffers (csi w)) /\
  Forall (fun b => length (dma_addr b) = 3%nat) (bufs w).

(** [wf] as a check that computes. *)
Definition wfb (w : world) : bool :=
  Nat.eqb (length (buffers (csi w))) 2
  && (0 <=? plane_count (csi w)) && (plane_count (csi w) <=? 3)
  && Nat.eqb (length (virtual (dummy (csi w)))) 3
  && Nat.eqb (length (dummy_dma_addr (dummy (csi w)))) 3
  && forallb (fun b => Nat.ltb b (length (bufs w))) (buffer_list (csi w))
  && forallb (fun s => match s with
                       | Some b => Nat.ltb b (length (bufs w))
                       | None => true
                       end) (buffers (csi w))
  && forallb (fun b => Nat.eqb (length (dma_addr b)) 3) (bufs w).

Definition wf_dummy (c : sun4i_csi1) : Prop :=
  0 <= plane_count c <= 3 /\
  length (virtual (dummy c)) = 3%nat /\
  length (dummy_dma_addr (dummy c)) = 3%nat.

(** The three buffer-pointer registers of hardware slot A (index 0) and
    of slot B (index 1). *)
Definition slot_registers (index : Z) : list Z :=
  if decide (index = 0)
  then [SUN4I_CSI1_FIFO0_BUFFER_A; SUN4I_CSI1_FIFO1_BUFFER_A;
        SUN4I_CSI1_FIFO2_BUFFER_A]
  else [SUN4I_CSI1_FIFO0_BUFFER_B; SUN4I_CSI1_FIFO1_BUFFER_B;
        SUN4I_CSI1_FIFO2_BUFFER_B].

Definition buffer_pointer_registers : list Z :=
  slot_registers 0 ++ slot_registers 1.

(** What a masked write of [0] under mask [0x01] leaves in a register
    that held [old]. *)
Definition module_disabled (old : Z) : Z :=
  Z.lor (Z.land (wrap32 0) (wrap32 1)) (Z.land old (not32 (wrap32 1))).

(** Writing plane addresses into registers, first register first. *)
Definition program_registers (rs addrs : list Z) (m : gmap Z Z) : gmap Z Z :=
  foldl (fun m ra => <[ra.1 := wrap32 ra.2]> m) m (zip rs addrs).
Definition program_events (rs addrs : list Z) : list event :=
  zip_with (fun r a => EvWritel r (wrap32 a)) rs addrs.

(** The writes a trace makes to buffer-pointer registers, in order. *)
Definition buffer_pointer_writes (tr : list event) : list (Z * Z) :=
  omap (fun e =>
          match e with
          | EvWritel a v =>
              if decide (a ∈ buffer_pointer_registers) then Some (a, v) else None
          | _ => None
          end) tr.

(** The planes of the dummy buffer that hold memory, as (virtual, dma)
    pairs, and the dummy buffer once they are given up. *)
Definition held_planes (c : sun4i_csi1) : list (Z * Z) :=
  filter (fun p => p.1 ≠ 0)
    (take (Z.to_nat (plane_count c))
       (zip (virtual (dummy c)) (dummy_dma_addr (dummy c)))).

Definition released (c : sun4i_csi1) : dummy_buffer :=
  let n := Z.to_nat (plane_count c) in
  let d := dummy c in
  mk_dummy
    (replicate (length (take n (virtual d))) 0 ++ drop n (virtual d))
    (zip_with (fun v a => if decide (v = 0) then a else 0)
       (take n (virtual d)) (take n (dummy_dma_addr d))
     ++ drop n (dummy_dma_addr d)).

Definition free_events (size : Z) (planes : list (Z * Z)) : list event :=
  map (fun p => EvDmaFreeCoherent size p.1 p.2) planes.

(** The calls to the DMA allocator in a trace. *)
Definition dma_frees (tr : list event) : list event :=
  List.filter
    (fun e => match e with EvDmaFreeCoherent _ _ _ => true | _ => false end) tr.
Definition dma_allocs (tr : list event) : list event :=
  List.filter
    (fun e => match e with EvDmaAllocCoherent _ _ _ => true | _ => false end) tr.

(** Is [buffer_lock] held after a trace that began with it [held]? *)
Fixpoint lock_held (held : bool) (tr : list event) : bool :=
  match tr with
  | [] => held
  | EvSpinLock _ :: tr' => lock_held true tr'
  | EvSpinUnlock _ :: tr' => lock_held false tr'
  | _ :: tr' => lock_held held tr'
  end.

(** Calls that may sleep or call back into the consumer. *)
Definition may_sleep (e : event) : bool :=
  match e with
  | EvDmaAllocCoherent _ _ _ | EvDmaFreeCoherent _ _ _
  | EvVb2BufferDone _ _ _ _ => true
  | _ => false
  end.

(** Does a trace make such a call with [buffer_lock] held? *)
Fixpoint sleeps_in_atomic (held : bool) (tr : list event) : bool :=
  match tr with
  | [] => false
  | e :: tr' =>
      (held && may_sleep e) || sleeps_in_atomic (lock_held held [e]) tr'
  end.

(** The power sequence, step by step. *)
Inductive power_step := StepReset | StepBus | StepRam | StepModule.

Definition power_sequence : list power_step :=
  [StepReset; StepBus; StepRam; StepModule].

Definition step_ret (k : platform) (s : power_step) : Z :=
  match s with
  | StepReset => reset_deassert_ret k
  | StepBus => clk_enable_ret k clk_bus
  | StepRam => clk_enable_ret k clk_ram
  | StepModule => clk_enable_ret k clk_module
  end.

Definition step_events (k : platform) (s : power_step) : list event :=
  match s with
  | StepReset => [EvResetDeassert (step_ret k s)]
  | StepBus => [EvClkPrepareEnable clk_bus (step_ret k s)]
  | StepRam => [EvClkPrepareEnable clk_ram (step_ret k s)]
  | StepModule => [EvClkSetRate clk_module 24000000;
                   EvClkPrepareEnable clk_module (step_ret k s)]
  end.

Definition step_undo (s : power_step) : event :=
  match s with
  | StepReset => EvResetAssert
  | StepBus => EvClkDisableUnprepare clk_bus
  | StepRam => EvClkDisableUnprepare clk_ram
  | StepModule => EvClkDisableUnprepare clk_module
  end.

(** The trace of one register dump. *)
Definition print_events : list event :=
  concat (replicate 17 [EvSpinLock true; EvSpinUnlock true]).

(** The buffers the driver owns: pending ones, then those in the slots. *)
Definition owned (c : sun4i_csi1) : list nat :=
  buffer_list c ++ omap id (buffers c).

Definition active (w : world) (b : nat) : Prop :=
  exists vb, bufs w !! b = Some vb /\ vb2_state vb = VB2_BUF_STATE_ACTIVE.

(** The videobuf2 contract while the driver runs: it owns each buffer at
    most once, and the buffers it owns are the active ones it was given. *)
Definition session_inv (w : world) : Prop :=
  wf w /\ NoDup (owned (csi w)) /\ Forall (active w) (owned (csi w)).

(** The contract before the engine starts, when the slots are stale. *)
Definition start_inv (w : world) : Prop :=
  wf w /\ NoDup (buffer_list (csi w)) /\ Forall (active w) (buffer_list (csi w)).

(** [start_inv] as a check that computes. *)
Definition activeb (w : world) (b : nat) : bool :=
  match bufs w !! b with
  | Some vb => bool_decide (vb2_state vb = VB2_BUF_STATE_ACTIVE)
  | None => false
  end.
Definition start_invb (w : world) : bool :=
  wfb w && bool_decide (NoDup (buffer_list (csi w)))
  && forallb (activeb w) (buffer_list (csi w)).

(** Modelled from the spec: [enqueue(buffer)] as the consumer reaches it.
    The videobuf2 core (not under src/) takes only a buffer the consumer
    holds, marks it active and hands it to [sun4i_csi1_buffer_queue]; any
    other buffer is refused. *)
Definition vb2_core_qbuf (b : nat) : M Z :=
  vb ← gets (fun w => bufs w !! b);
  match vb with
  | Some vb =>
      if decide (vb2_state vb = VB2_BUF_STATE_DEQUEUED) then
        buffer_update b (set_vb2_state VB2_BUF_STATE_ACTIVE) ;;
        sun4i_csi1_buffer_queue b ;;
        mret 0
      else mret (- EINVAL)
  | None => mret (- EINVAL)
  end.

(** Modelled from the spec: the consumer taking back a buffer that was
    delivered to it, through the videobuf2 core (not under src/). *)
Definition vb2_core_dqbuf (b : nat) : M Z :=
  vb ← gets (fun w => bufs w !! b);
  match vb with
  | Some vb =>
      if decide (vb2_state vb = VB2_BUF_STATE_DONE
                 ∨ vb2_state vb = VB2_BUF_STATE_ERROR) then
        buffer_update b (set_vb2_state VB2_BUF_STATE_DEQUEUED) ;;
        mret 0
      else mret (- EINVAL)
  | None => mret (- EINVAL)
  end.

(** What happens during a streaming session. *)
Inductive session_event :=
| Enqueue (b : nat)
| Dequeue (b : nat)
| FrameComplete.

Fixpoint session (evs : list session_event) : M unit :=
  match evs with
  | [] => mret tt
  | Enqueue b :: evs' => vb2_core_qbuf b ;; session evs'
  | Dequeue b :: evs' => vb2_core_dqbuf b ;; session evs'
  | FrameComplete :: evs' => sun4i_csi1_frame_done ;; session evs'
  end.

(** A consumer that keeps up with the engine on a queue of three
    buffers: after every frame it takes back the buffer that was delivered
    and queues it again.  [a] is the buffer in the slot the next frame
    retires, [b] the one in the other slot, [c] the one pending. *)
Fixpoint keeping_up (n : nat) (a b c : nat) : list session_event :=
  match n with
  | O => []
  | S n' => [FrameComplete; Dequeue a; Enqueue a] ++ keeping_up n' b c a
  end.

Definition frames (evs : list session_event) : nat :=
  length (List.filter
            (fun e => match e with FrameComplete => true | _ => false end) evs).

(** The sequence numbers of the buffers a trace delivers as done. *)
Definition delivered_sequences (tr : list event) : list Z :=
  omap (fun e =>
          match e with
          | EvVb2BufferDone _ s _ VB2_BUF_STATE_DONE => Some s
          | _ => None
          end) tr.

(** The buffers a trace completes with an error. *)
Definition failed_buffers (tr : list event) : list nat :=
  omap (fun e =>
          match e with
          | EvVb2BufferDone b _ _ VB2_BUF_STATE_ERROR => Some b
          | _ => None
          end) tr.

(** What stopping does to one buffer of the queue: an active buffer is
    completed with an error, any other is left alone; and the events of
    that turn, for the buffer at index [i]. *)
Definition mark_done (b : sun4i_csi1_buffer) : sun4i_csi1_buffer :=
  if decide (vb2_state b = VB2_BUF_STATE_ACTIVE)
  then set_vb2_state VB2_BUF_STATE_ERROR b else b.

Definition mark_done_events (i : nat) (b : sun4i_csi1_buffer) : list event :=
  [EvSpinLock true; EvSpinUnlock true]
  ++ (if decide (vb2_state b = VB2_BUF_STATE_ACTIVE)
      then [EvVb2BufferDone i (v4l2_sequence b) (vb2_timestamp b)
              VB2_BUF_STATE_ERROR]
      else []).

Fixpoint mark_done_trace (i : nat) (queue : list sun4i_csi1_buffer)
    : list event :=
  match queue with
  | [] => []
  | b :: queue' => mark_done_events i b ++ mark_done_trace (S i) queue'
  end.

(** [list_del] can unlink the node of buffer [b]: the buffer is on the
    pending list, or its node points at itself, as [INIT_LIST_HEAD] and
    [list_del_init] leave it. *)
Definition unlinkable (w : world) (b : nat) : Prop :=
  b ∈ buffer_list (csi w) \/ node w b = LIST_SELF.

(** Every buffer of the queue can be unlinked: none was left untouched
    since the core allocated it, or since an earlier [list_del]. *)
Definition queue_unlinkable (w : world) : Prop :=
  forall b, (b < length (bufs w))%nat -> unlinkable w b.

(** [queue_unlinkable] as a check that computes. *)
Definition unlinkableb (w : world) (b : nat) : bool :=
  bool_decide (b ∈ buffer_list (csi w)) || bool_decide (node w b = LIST_SELF).
Definition queue_unlinkableb (w : world) : bool :=
  forallb (unlinkableb w) (seq 0 (length (bufs w))).

(** The nodes after [list_del] went over [count] buffers of the queue,
    from the one at index [i] on. *)
Fixpoint poison_from (i : nat) (count : nat) (nd : gmap nat list_head)
    : gmap nat list_head :=
  match count with
  | O => nd
  | S count' => poison_from (S i) count' (<[i := LIST_POISON]> nd)
  end.

(** The clock and reset calls of a trace. *)
Definition power_events (tr : list event) : list event :=
  List.filter
    (fun e =>
       match e with
       | EvResetDeassert _ | EvResetAssert | EvClkSetRate _ _
       | EvClkPrepareEnable _ _ | EvClkDisableUnprepare _ => true
       | _ => false
       end) tr.

(** The scratch buffer sits in a hardware slot: the slot table holds no
    consumer buffer there and the slot's registers hold the dummy planes. *)
Definition scratch_installed (w : world) (index : Z) : Prop :=
  array_load (buffers (csi w)) index = Some None /\
  map (reg w) (slot_registers index)
  = map wrap32 (dummy_dma_addr (dummy (csi w))).

(** The stored format and what the driver tracks beside it agree. *)
Definition format_consistent (c : sun4i_csi1) : Prop :=
  let f := csi_v4l2_format c in
  length (plane_fmt f) = Z.to_nat VIDEO_MAX_PLANES /\
  pix_width f = wrap32 (width c) /\
  pix_height f = wrap32 (height c) /\
  num_planes f = plane_count c /\
  0 <= plane_count c <= VIDEO_MAX_PLANES /\
  forall i p, 0 <= i < plane_count c ->
    plane_fmt f !! Z.to_nat i = Some p ->
    bytesperline p = wrap32 (width c) /\ sizeimage p = plane_size c.

(** A requested format departs from the stored one in a field the
    negotiation looks at. *)
Definition format_differs (old new : v4l2_format) : Prop :=
  fmt_type old ≠ fmt_type new
  \/ pix_width old ≠ pix_width new
  \/ pix_height old ≠ pix_height new
  \/ num_planes old ≠ num_planes new
  \/ (exists i p q, 0 <= i < num_planes old
        /\ plane_fmt old !! Z.to_nat i = Some p
        /\ plane_fmt new !! Z.to_nat i = Some q
        /\ (bytesperline p ≠ bytesperline q \/ sizeimage p ≠ sizeimage q))
  \/ pixelformat old ≠ pixelformat new
  \/ field old ≠ field new
  \/ colorspace old ≠ colorspace new
  \/ quantization old ≠ quantization new
  \/ xfer_func old ≠ xfer_func new.

(** ** Concrete worlds *)

(** The world a computation leaves, with the trace cleared. *)
Definition world_after {A} (m : M A) (w : world) : world :=
  match m w with
  | Some (_, w') => with_trace [] w'
  | None => w
  end.

(** The driver as [sun4i_csi1_probe] leaves it, on a kernel whose clocks
    and reset line work and whose allocator has three planes to give. *)
Definition world_probed : world :=
  mk_world csi_probed ∅ [] []
    (mk_platform 0 (fun _ => 0)
       [(0xC0000000, 0x50000000); (0xC0200000, 0x50200000);
        (0xC0400000, 0x50400000)] 1000) ∅.

(** A consumer buffer of a 1920x1080 three-plane queue. *)
Definition buffer_at_address (a : Z) : sun4i_csi1_buffer :=
  mk_buffer VB2_BUF_STATE_DEQUEUED 0 0 [a; a + 0x200000; a + 0x400000].

(** After [sun4i_csi1_queue_setup]: the dummy buffer is allocated and the
    core has created three buffers B1, B2, B3. *)
Definition world_setup : world :=
  with_bufs [buffer_at_address 0x40000000; buffer_at_address 0x41000000;
             buffer_at_address 0x42000000]
    (world_after sun4i_csi1_queue_setup world_probed).

(** B1, B2, B3 queued in that order. *)
Definition world_queued : world :=
  world_after (vb2_core_qbuf 0 ;; vb2_core_qbuf 1 ;; vb2_core_qbuf 2)
    world_setup.

(** [world_queued] on a kernel whose module clock fails to start. *)
Definition world_module_clock_broken : world :=
  with_kernel
    (mk_platform 0 (fun c => match c with clk_module => -5 | _ => 0 end) [] 0)
    world_queued.

(** Streaming from [world_queued]: B1 in slot A, B2 in slot B, B3
    pending. *)
Definition world_streaming : world :=
  world_after start_streaming world_queued.

(** One frame later: B1 delivered, B3 in slot A, nothing pending. *)
Definition world_one_frame : world :=
  world_after sun4i_csi1_frame_done world_streaming.

(** * Further driver code *)

From stdpp Require Import strings.
Local Open Scope Z_scope.

(** ** Runtime power management *)

Definition sun4i_csi1_resume : M Z :=
  active_now ← gets (fun w => powered (csi w));
  if negb active_now then mret 0 else sun4i_csi1_poweron.

Definition sun4i_csi1_suspend : M Z :=
  active_now ← gets (fun w => powered (csi w));
  if negb active_now then mret 0 else sun4i_csi1_poweroff.

(** ** Controls *)

(** [V4L2_CID_USER_BASE] of [include/uapi/linux/v4l2-controls.h]. *)
Definition V4L2_CID_USER_BASE : Z := 0x00980900.
Definition SUN4I_CSI1_HDISPLAY_START : Z := V4L2_CID_USER_BASE + 0xC000 + 1.
Definition SUN4I_CSI1_VDISPLAY_START : Z := V4L2_CID_USER_BASE + 0xC000 + 2.

Definition set_hdisplay_start (v : Z) (c : sun4i_csi1) : sun4i_csi1 :=
  mk_csi (powered c) (csi_v4l2_format c) (plane_count c) (plane_size c)
    (width c) (height c) v (vdisplay_start c) (hsync_polarity c)
    (vsync_polarity c) (buffer_list c) (buffers c) (sequence c) (dummy c)
    (min_buffers_needed c).
Definition set_vdisplay_start (v : Z) (c : sun4i_csi1) : sun4i_csi1 :=
  mk_csi (powered c) (csi_v4l2_format c) (plane_count c) (plane_size c)
    (width c) (height c) (hdisplay_start c) v (hsync_polarity c)
    (vsync_polarity c) (buffer_list c) (buffers c) (sequence c) (dummy c)
    (min_buffers_needed c).

(** [sun4i_csi1_ctrl_set], on [ctrl->id] and [ctrl->val]. *)
Definition sun4i_csi1_ctrl_set (id val : Z) : M Z :=
  if decide (id = SUN4I_CSI1_HDISPLAY_START) then
    modify_csi (set_hdisplay_start val) ;;
    active_now ← gets (fun w => powered (csi w));
    (if (active_now : bool) then sun4i_csi1_mask SUN4I_CSI1_HSIZE val 0x1FFF
     else (mret tt : M unit)) ;;
    mret 0
  else if decide (id = SUN4I_CSI1_VDISPLAY_START) then
    modify_csi (set_vdisplay_start val) ;;
    active_now ← gets (fun w => powered (csi w));
    (if (active_now : bool) then sun4i_csi1_mask SUN4I_CSI1_VSIZE val 0x1FFF
     else (mret tt : M unit)) ;;
    mret 0
  else mret (- EINVAL).

(** ** Format and input ioctls *)

Definition V4L2_PIX_FMT_RGB24 : Z := 0x33424752.
Definition V4L2_INPUT_TYPE_CAMERA : Z := 2.

(** The members of [struct v4l2_fmtdesc] and of [struct v4l2_input] the
    driver reads or writes; it leaves the others as the caller set them. *)
Record v4l2_fmtdesc := mk_fmtdesc {
  desc_index : Z;
  desc_pixelformat : Z
}.

Record v4l2_input := mk_input {
  input_index : Z;
  input_name : string;
  input_type : Z
}.

(** Each ioctl gives its return value and the structure as it leaves it. *)
Definition sun4i_csi1_ioctl_format_enumerate (descriptor : v4l2_fmtdesc)
    : M (Z * v4l2_fmtdesc) :=
  if decide (desc_index descriptor > 0) then mret (- EINVAL, descriptor)
  else mret (0, mk_fmtdesc (desc_index descriptor) V4L2_PIX_FMT_RGB24).

Definition sun4i_csi1_ioctl_format_get (format : v4l2_format)
    : M (Z * v4l2_format) :=
  stored ← gets (fun w => csi_v4l2_format (csi w));
  mret (0, stored).

Definition sun4i_csi1_ioctl_input_enumerate (input : v4l2_input)
    : M (Z * v4l2_input) :=
  if decide (input_index input ≠ 0) then mret (- EINVAL, input)
  else mret (0, mk_input (input_index input) "direct" V4L2_INPUT_TYPE_CAMERA).

Definition sun4i_csi1_ioctl_input_set (input : Z) : M Z :=
  if decide (input ≠ 0) then mret (- EINVAL) else mret 0.

Definition sun4i_csi1_ioctl_input_get (input : Z) : M (Z * Z) :=
  mret (0, 0).

(** * Further vocabulary *)

(** The buffers a trace delivers as done, in order. *)
Definition completed_buffers (tr : list event) : list nat :=
  omap (fun e =>
          match e with
          | EvVb2BufferDone b _ _ VB2_BUF_STATE_DONE => Some b
          | _ => None
          end) tr.

(** The buffers the engine will fill, in the order it will retire them if
    nothing more is queued: the slot the next interrupt retires, then the
    other slot, then the pending list.  A slot that holds no buffer ends
    the order. *)
Definition capture_order (c : sun4i_csi1) : list nat :=
  let index := Z.land (sequence c) 1 in
  match array_load (buffers c) index with
  | Some (Some a) =>
      a :: match array_load (buffers c) (1 - index) with
           | Some (Some b) => b :: buffer_list c
           | _ => []
           end
  | _ => []
  end.

(** [n] frame-done interrupts in a row. *)
Definition frames_done (n : nat) : M unit :=
  session (replicate n FrameComplete).

(** The planes a trace obtains from the DMA allocator and the planes it
    gives back, as (virtual, dma) pairs in order. *)
Definition allocated_planes (tr : list event) : list (Z * Z) :=
  omap (fun e =>
          match e with
          | EvDmaAllocCoherent _ v d =>
              if decide (v = 0) then None else Some (v, d)
          | _ => None
          end) tr.
Definition freed_planes (tr : list event) : list (Z * Z) :=
  omap (fun e =>
          match e with
          | EvDmaFreeCoherent _ v d => Some (v, d)
          | _ => None
          end) tr.

(** The register writes a trace makes while [buffer_lock] is not held,
    for a trace that began with it [held]. *)
Fixpoint unlocked_writes (held : bool) (tr : list event) : list (Z * Z) :=
  match tr with
  | [] => []
  | EvWritel a v :: tr' =>
      (if held then [] else [(a, v)]) ++ unlocked_writes held tr'
  | e :: tr' => unlocked_writes (lock_held held [e]) tr'
  end.

(** The events a computation adds to the trace of [w]. *)
Definition events_of {A} (m : M A) (w : world) : list event :=
  match m w with
  | Some (_, w') => drop (length (trace w)) (trace w')
  | None => []
  end.

(** [session_inv] as a check that computes. *)
Definition session_invb (w : world) : bool :=
  wfb w && bool_decide (NoDup (owned (csi w)))
  && forallb (activeb w) (owned (csi w)).

(** The list nodes after [list_del] took the buffers [pending] off the
    list, one after the other. *)
Definition unlinked (nd : gmap nat list_head) (pending : list nat)
    : gmap nat list_head :=
  foldl (fun nd b => <[b := LIST_POISON]> nd) nd pending.

(** Completing the buffers [pending] with an error, one after the other:
    the queue it leaves, and the events, for the loop of
    [sun4i_csi1_buffer_list_clear], which takes and releases the lock once
    per buffer and once more to find the list empty. *)
Fixpoint cleared (bs : list sun4i_csi1_buffer) (pending : list nat)
    : list sun4i_csi1_buffer :=
  match pending with
  | [] => bs
  | b :: rest =>
      cleared (match bs !! b with
               | Some vb => <[b := mark_done vb]> bs
               | None => bs
               end) rest
  end.

Fixpoint clear_events (bs : list sun4i_csi1_buffer) (pending : list nat)
    : list event :=
  match pending with
  | [] => [EvSpinLock true; EvSpinUnlock true]
  | b :: rest =>
      match bs !! b with
      | Some vb =>
          [EvSpinLock true; EvSpinUnlock true;
           if decide (vb2_state vb = VB2_BUF_STATE_ACTIVE)
           then EvVb2BufferDone b (v4l2_sequence vb) (vb2_timestamp vb)
                  VB2_BUF_STATE_ERROR
           else EvWarnOn b]
          ++ clear_events (<[b := mark_done vb]> bs) rest
      | None => []
      end
  end.

(** The planes [n] calls to the allocator obtain from [pool] before the
    first refusal. *)
Fixpoint granted (n : nat) (pool : list (Z * Z)) : list (Z * Z) :=
  match n, pool with
  | S n', (v, d) :: rest =>
      if decide (v = 0) then [] else (v, d) :: granted n' rest
  | _, _ => []
  end.

(** What a masked write of [value] under [mask] stores in a register
    that held [old]. *)
Definition masked (old value mask : Z) : Z :=
  Z.lor (Z.land (wrap32 value) (wrap32 mask))
    (Z.land old (not32 (wrap32 mask))).

(** The registers [sun4i_csi1_engine_start] writes, in the order it writes
    them. *)
Definition engine_start_writes : list Z :=
  [SUN4I_CSI1_CONFIG; SUN4I_CSI1_CONFIG; SUN4I_CSI1_CONFIG;
   SUN4I_CSI1_CONFIG; SUN4I_CSI1_CONFIG;
   SUN4I_CSI1_FIFO0_BUFFER_A; SUN4I_CSI1_FIFO1_BUFFER_A;
   SUN4I_CSI1_FIFO2_BUFFER_A;
   SUN4I_CSI1_FIFO0_BUFFER_B; SUN4I_CSI1_FIFO1_BUFFER_B;
   SUN4I_CSI1_FIFO2_BUFFER_B;
   SUN4I_CSI1_BUFFER_CONTROL; SUN4I_CSI1_INT_ENABLE;
   SUN4I_CSI1_HSIZE; SUN4I_CSI1_HSIZE; SUN4I_CSI1_VSIZE; SUN4I_CSI1_VSIZE;
   SUN4I_CSI1_STRIDE; SUN4I_CSI1_CAPTURE].

(** The register writes of a trace, in order. *)
Definition register_writes (tr : list event) : list (Z * Z) :=
  omap (fun e => match e with EvWritel a v => Some (a, v) | _ => None end) tr.

(** The tests of [sun4i_csi1_format_test] on a requested format, as the
    code makes them: against the tracked sizes and plane count, and
    against the stored format for the other fields. *)
Definition format_accepted (c : sun4i_csi1) (new : v4l2_format) : Prop :=
  let old := csi_v4l2_format c in
  fmt_type old = fmt_type new
  /\ wrap32 (width c) = pix_width new
  /\ wrap32 (height c) = pix_height new
  /\ plane_count c = num_planes new
  /\ (forall i q, 0 <= i < plane_count c ->
        plane_fmt new !! Z.to_nat i = Some q ->
        wrap32 (width c) = bytesperline q /\ plane_size c = sizeimage q)
  /\ pixelformat old = pixelformat new
  /\ field old = field new
  /\ colorspace old = colorspace new
  /\ quantization old = quantization new
  /\ xfer_func old = xfer_func new.

(** A request with other values in the members the tests do not read. *)
Definition with_unread (enc : Z) (extra : list v4l2_plane_pix_format)
    (n : nat) (f : v4l2_format) : v4l2_format :=
  mk_format (fmt_type f) (pix_width f) (pix_height f) (pixelformat f)
    (field f) (colorspace f) (take n (plane_fmt f) ++ extra) (num_planes f)
    enc (quantization f) (xfer_func f).

Definition with_pixelformat (p : Z) (f : v4l2_format) : v4l2_format :=
  mk_format (fmt_type f) (pix_width f) (pix_height f) p
    (field f) (colorspace f) (plane_fmt f) (num_planes f)
    (ycbcr_enc f) (quantization f) (xfer_func f).

Section Run.
Context {A B : Type}.
Implicit Types (w : world) (k : A -> M B).

Lemma run_bind_ret (a : A) k w : (mret a ≫= k) w = k a w.
Proof. reflexivity. Qed.
Lemma run_bind_gets (f : world -> A) k w : (gets f ≫= k) w = k (f w) w.
Proof. reflexivity. Qed.
Lemma run_bind_deref (a : A) k w : (deref (Some a) ≫= k) w = k a w.
Proof. reflexivity. Qed.
Lemma run_bind_deref_None k w : (deref None ≫= k) w = None.
Proof. reflexivity. Qed.
Lemma run_bind_fault k w : (fault ≫= k) w = None.
Proof. reflexivity. Qed.
Lemma run_bind_eq (m : M A) k w a w' :
  m w = Some (a, w') -> (m ≫= k) w = k a w'.
Proof. intros H. unfold mbind, M_bind. rewrite H. reflexivity. Qed.
Lemma run_bind_None (m : M A) k w : m w = None -> (m ≫= k) w = None.
Proof. intros H. unfold mbind, M_bind. rewrite H. reflexivity. Qed.
End Run.

Section RunUnit.
Context {B : Type}.
Implicit Types (w : world) (k : unit -> M B).

Lemma run_bind_modify (f : world -> world) k w : (modify f ≫= k) w = k tt (f w).
Proof. reflexivity. Qed.
Lemma run_bind_emit (e : event) k w :
  (emit e ≫= k) w = k tt (with_trace (trace w ++ [e]) w).
Proof. reflexivity. Qed.
Lemma run_bind_modify_csi (f : sun4i_csi1 -> sun4i_csi1) k w :
  (modify_csi f ≫= k) w = k tt (with_csi (f (csi w)) w).
Proof. reflexivity. Qed.
End RunUnit.

Lemma run_bind_assoc {A B C} (m : M A) (f : A -> M B) (g : B -> M C) w :
  ((m ≫= f) ≫= g) w = (m ≫= (fun a => f a ≫= g)) w.
Proof. unfold mbind, M_bind. destruct (m w) as [[a w']|]; reflexivity. Qed.

Lemma run_ret {A} (a : A) w : (mret a : M A) w = Some (a, w).
Proof. reflexivity. Qed.
Lemma run_gets {A} (f : world -> A) w : gets f w = Some (f w, w).
Proof. reflexivity. Qed.
Lemma run_modify f w : modify f w = Some (tt, f w).
Proof. reflexivity. Qed.
Lemma run_emit e w : emit e w = Some (tt, with_trace (trace w ++ [e]) w).
Proof. reflexivity. Qed.
Lemma run_modify_csi f w : modify_csi f w = Some (tt, with_csi (f (csi w)) w).
Proof. reflexivity. Qed.
Lemma run_deref {A} (a : A) w : deref (Some a) w = Some (a, w).
Proof. reflexivity. Qed.

Lemma array_load_0 {A} (a : A) l : array_load (a :: l) 0 = Some a.
Proof. reflexivity. Qed.
Lemma array_load_1 {A} (a b : A) l : array_load (a :: b :: l) 1 = Some b.
Proof. reflexivity. Qed.
Lemma array_load_2 {A} (a b c : A) l : array_load (a :: b :: c :: l) 2 = Some c.
Proof. reflexivity. Qed.
Lemma array_store3_0 {A} (a b c v : A) : array_store [a; b; c] 0 v = Some [v; b; c].
Proof. reflexivity. Qed.
Lemma array_store3_1 {A} (a b c v : A) : array_store [a; b; c] 1 v = Some [a; v; c].
Proof. reflexivity. Qed.
Lemma array_store3_2 {A} (a b c v : A) : array_store [a; b; c] 2 v = Some [a; b; v].
Proof. reflexivity. Qed.
Lemma array_store2_0 {A} (a b v : A) : array_store [a; b] 0 v = Some [v; b].
Proof. reflexivity. Qed.
Lemma array_store2_1 {A} (a b v : A) : array_store [a; b] 1 v = Some [a; v].
Proof. reflexivity. Qed.

Ltac arr :=
  rewrite ?array_load_0, ?array_load_1, ?array_load_2,
    ?array_store3_0, ?array_store3_1, ?array_store3_2,
    ?array_store2_0, ?array_store2_1.

Lemma for_fold_0 {S} (body : Z -> S -> M S) acc : for_fold 0 body acc = mret acc.
Proof. reflexivity. Qed.
Lemma for_fold_1 {S} (body : Z -> S -> M S) acc :
  for_fold 1 body acc = (a ← body 0 acc; mret a).
Proof. reflexivity. Qed.
Lemma for_fold_2 {S} (body : Z -> S -> M S) acc :
  for_fold 2 body acc = (a ← body 0 acc; b ← body 1 a; mret b).
Proof. reflexivity. Qed.
Lemma for_fold_3 {S} (body : Z -> S -> M S) acc :
  for_fold 3 body acc = (a ← body 0 acc; b ← body 1 a; c ← body 2 b; mret c).
Proof. reflexivity. Qed.

Lemma length_3 {A} (l : list A) : length l = 3%nat -> exists a b c, l = [a; b; c].
Proof. destruct l as [|a [|b [|c [|]]]]; try discriminate. eauto. Qed.
Lemma length_2 {A} (l : list A) : length l = 2%nat -> exists a b, l = [a; b].
Proof. destruct l as [|a [|b [|]]]; try discriminate. eauto. Qed.

Lemma if_mask (b : bool) (address v1 v2 mask : Z) :
  (if b then sun4i_csi1_mask address v1 mask
   else sun4i_csi1_mask address v2 mask)
  = sun4i_csi1_mask address (if b then v1 else v2) mask.
Proof. destruct b; reflexivity. Qed.

Ltac wred x :=
  eval cbv beta iota delta
    [csi mmio bufs trace kernel nodes
     with_csi with_mmio with_bufs with_trace with_kernel with_nodes
     set_powered set_buffer_list set_buffers set_sequence set_dummy
     powered csi_v4l2_format plane_count plane_size width height
     hdisplay_start vdisplay_start hsync_polarity vsync_polarity
     buffer_list buffers sequence dummy min_buffers_needed
     virtual dummy_dma_addr
     reset_deassert_ret clk_enable_ret dma_pool ktime_ns
     vb2_state v4l2_sequence vb2_timestamp dma_addr
     set_vb2_state set_v4l2_sequence set_vb2_timestamp] in x.

Ltac wnorm :=
  cbv beta iota delta
    [csi mmio bufs trace kernel nodes
     with_csi with_mmio with_bufs with_trace with_kernel with_nodes
     set_powered set_buffer_list set_buffers set_sequence set_dummy
     powered csi_v4l2_format plane_count plane_size width height
     hdisplay_start vdisplay_start hsync_polarity vsync_polarity
     buffer_list buffers sequence dummy min_buffers_needed
     virtual dummy_dma_addr
     reset_deassert_ret clk_enable_ret dma_pool ktime_ns
     vb2_state v4l2_sequence vb2_timestamp dma_addr
     set_vb2_state set_v4l2_sequence set_vb2_timestamp].

Ltac run_deref_load :=
  first [ rewrite array_load_0 | rewrite array_load_1 | rewrite array_load_2
        | rewrite array_store3_0 | rewrite array_store3_1
        | rewrite array_store3_2 | rewrite array_store2_0
        | rewrite array_store2_1 ].

Ltac run_decide P :=
  first [ rewrite (decide_True (P := P)) by (reflexivity || assumption || lia)
        | rewrite (decide_False (P := P)) by (assumption || lia || discriminate) ].

Ltac head_step :=
  lazymatch goal with
  | |- @mbind M _ _ _ ?k ?m ?w = _ =>
      lazymatch m with
      | mbind _ _ => rewrite (run_bind_assoc _ _ k w)
      | mret ?a => change (@mbind M _ _ _ k m w) with (k a w)
      | gets ?f =>
          let v := wred (f w) in
          change (@mbind M _ _ _ k m w) with (k v w);
          lazymatch f with
          | context [mmio] =>
              repeat first [ rewrite lookup_insert_eq
                           | rewrite lookup_insert_ne by lia ]
          | _ => idtac
          end
      | modify ?f =>
          let w' := wred (f w) in
          change (@mbind M _ _ _ k m w) with (k tt w')
      | emit ?e =>
          let w' := wred (with_trace (trace w ++ [e]) w) in
          change (@mbind M _ _ _ k m w) with (k tt w')
      | modify_csi ?f =>
          let w' := wred (with_csi (f (csi w)) w) in
          change (@mbind M _ _ _ k m w) with (k tt w')
      | sun4i_csi1_mask ?a ?v ?mk =>
          let old := wred (default 0 (mmio w !! a)) in
          let w' :=
            wred (with_trace
                    (trace w
                     ++ [EvWritel a
                           (Z.lor (Z.land (wrap32 v) (wrap32 mk))
                              (Z.land old (not32 (wrap32 mk))))])
                    (with_mmio
                       (<[a := Z.lor (Z.land (wrap32 v) (wrap32 mk))
                                 (Z.land old (not32 (wrap32 mk)))]> (mmio w))
                       w)) in
          change (@mbind M _ _ _ k m w) with (k tt w');
          repeat first [ rewrite lookup_insert_eq
                       | rewrite lookup_insert_ne by lia ]
      | (if ?b then sun4i_csi1_mask _ _ _ else sun4i_csi1_mask _ _ _) =>
          rewrite (if_mask b)
      | deref (Some ?a) => change (@mbind M _ _ _ k m w) with (k a w)
      | deref None => change (@mbind M _ _ _ k m w) with (@None (_ * world))
      | fault => change (@mbind M _ _ _ k m w) with (@None (_ * world))
      | deref ?x =>
          first [ run_deref_load
                | match goal with H : x = _ |- _ => rewrite H end
                | rewrite list_lookup_insert_eq
                    by (rewrite ?length_insert; assumption) ]
      | for_fold 0 _ _ => rewrite for_fold_0
      | for_fold 1 _ _ => rewrite for_fold_1
      | for_fold 2 _ _ => rewrite for_fold_2
      | for_fold 3 _ _ => rewrite for_fold_3
      | (if decide ?P then _ else _) => run_decide P
      end
  | |- @mret M _ _ ?a ?w = _ => change (@mret M _ _ a w) with (Some (a, w))
  | |- gets ?f ?w = _ =>
      let v := wred (f w) in change (gets f w) with (Some (v, w))
  | |- modify ?f ?w = _ =>
      let w' := wred (f w) in change (modify f w) with (Some (tt, w'))
  | |- emit ?e ?w = _ =>
      let w' := wred (with_trace (trace w ++ [e]) w) in
      change (emit e w) with (Some (tt, w'))
  | |- modify_csi ?f ?w = _ =>
      let w' := wred (with_csi (f (csi w)) w) in
      change (modify_csi f w) with (Some (tt, w'))
  | |- deref (Some ?a) ?w = _ => change (deref (Some a) w) with (Some (a, w))
  | |- (if decide ?P then _ else _) _ = _ => run_decide P
  end.

Ltac prims :=
  unfold sun4i_csi1_write_spin, sun4i_csi1_read_spin,
    sun4i_csi1_mask_spin, program_slot, vb2_buffer_done, buffer_update;
  unfold sun4i_csi1_write, sun4i_csi1_read, buffer_at,
    list_del, list_pop_first, set_node, node;
  unfold spin_lock, spin_unlock, spin_lock_irqsave, spin_unlock_irqrestore,
    writel, readl, dma_free_coherent, dma_alloc_coherent,
    reset_control_deassert,
    reset_control_assert, clk_prepare_enable, clk_disable_unprepare,
    clk_set_rate, ktime_get_ns;
  unfold SUN4I_CSI1_ENABLE, SUN4I_CSI1_CONFIG, SUN4I_CSI1_CAPTURE,
    SUN4I_CSI1_SCALE, SUN4I_CSI1_FIFO0_BUFFER_A, SUN4I_CSI1_FIFO0_BUFFER_B,
    SUN4I_CSI1_FIFO1_BUFFER_A, SUN4I_CSI1_FIFO1_BUFFER_B,
    SUN4I_CSI1_FIFO2_BUFFER_A, SUN4I_CSI1_FIFO2_BUFFER_B,
    SUN4I_CSI1_BUFFER_CONTROL, SUN4I_CSI1_BUFFER_STATUS,
    SUN4I_CSI1_INT_ENABLE, SUN4I_CSI1_INT_STATUS, SUN4I_CSI1_HSIZE,
    SUN4I_CSI1_VSIZE, SUN4I_CSI1_STRIDE.

Ltac proj :=
  cbn beta iota zeta delta
    [csi mmio bufs trace kernel nodes
     powered csi_v4l2_format plane_count plane_size width height
     hdisplay_start vdisplay_start hsync_polarity vsync_polarity
     buffer_list buffers sequence dummy min_buffers_needed
     virtual dummy_dma_addr
     reset_deassert_ret clk_enable_ret dma_pool ktime_ns
     vb2_state v4l2_sequence vb2_timestamp dma_addr
     from_option id].

Ltac steps_with tac := prims; proj; repeat (first [ head_step | tac ]; proj).
Ltac steps := steps_with fail.

(** Evaluate the computation on the left of [H : m w = r]. *)
Ltac eval_in_with H tac :=
  lazymatch type of H with
  | ?lhs = _ =>
      let E := fresh "E" in
      eassert (E : lhs = _) by (steps_with tac; reflexivity);
      rewrite E in H; clear E
  end.
Ltac eval_in H := eval_in_with H fail.

Lemma world_eq c1 m1 b1 t1 k1 n1 c2 m2 b2 t2 k2 n2 :
  c1 = c2 -> m1 = m2 -> b1 = b2 -> t1 = t2 -> k1 = k2 -> n1 = n2 ->
  mk_world c1 m1 b1 t1 k1 n1 = mk_world c2 m2 b2 t2 k2 n2.
Proof. congruence. Qed.

Lemma land_1_mod (x : Z) : Z.land x 1 = x mod 2.
Proof. change 1 with (Z.ones 1) at 1. rewrite Z.land_ones by lia. reflexivity. Qed.

Lemma land_1_cases (x : Z) : Z.land x 1 = 0 \/ Z.land x 1 = 1.
Proof.
  rewrite land_1_mod. pose proof (Z.mod_pos_bound x 2 ltac:(lia)). lia.
Qed.


(** * Register access layer *)

Lemma wrap32_id (x : Z) : 0 <= x < 2 ^ 32 -> wrap32 x = x.
Proof. intros H. unfold wrap32. apply Z.mod_small. exact H. Qed.

Lemma wrap32_range (x : Z) : 0 <= wrap32 x < 2 ^ 32.
Proof. unfold wrap32. apply Z.mod_pos_bound. lia. Qed.

Lemma land_not32 (old m : Z) :
  0 <= old < 2 ^ 32 -> Z.land old (not32 m) = Z.land old (Z.lnot m).
Proof.
  intros H. unfold not32, wrap32.
  rewrite <- Z.land_ones by lia.
  rewrite (Z.land_comm (Z.lnot m)), Z.land_assoc.
  rewrite Z.land_ones by lia. rewrite Z.mod_small by exact H. reflexivity.
Qed.

Lemma mask_value (old value mask : Z) :
  0 <= old < 2 ^ 32 -> 0 <= value < 2 ^ 32 -> 0 <= mask < 2 ^ 32 ->
  Z.lor (Z.land (wrap32 value) (wrap32 mask)) (Z.land old (not32 (wrap32 mask)))
  = Z.lor (Z.land old (Z.lnot mask)) (Z.land value mask).
Proof.
  intros Ho Hv Hm. rewrite !wrap32_id by assumption.
  rewrite land_not32 by assumption. apply Z.lor_comm.
Qed.

Lemma mask_value_bits (old value mask i : Z) :
  0 <= i ->
  Z.testbit (Z.lor (Z.land old (Z.lnot mask)) (Z.land value mask)) i
  = if Z.testbit mask i then Z.testbit value i else Z.testbit old i.
Proof.
  intros Hi. rewrite Z.lor_spec, !Z.land_spec, Z.lnot_spec by exact Hi.
  destruct (Z.testbit mask i), (Z.testbit value i), (Z.testbit old i);
    reflexivity.
Qed.

Lemma reg_insert_eq (w : world) (m : gmap Z Z) (a v : Z) :
  reg (with_mmio (<[a := v]> m) w) a = v.
Proof. unfold reg. cbn. rewrite lookup_insert_eq. reflexivity. Qed.

Lemma reg_insert_ne (w : world) (m : gmap Z Z) (a a' v : Z) :
  a ≠ a' -> reg (with_mmio (<[a := v]> m) w) a' = default 0 (m !! a').
Proof. intros H. unfold reg. cbn. rewrite lookup_insert_ne by exact H. reflexivity. Qed.

(** The effect of a masked write, whatever the arguments. *)
Lemma sun4i_csi1_mask_eq (w : world) (address value mask : Z) :
  sun4i_csi1_mask address value mask w
  = Some (tt,
          let stored := Z.lor (Z.land (wrap32 value) (wrap32 mask))
                          (Z.land (reg w address) (not32 (wrap32 mask))) in
          with_trace (trace w ++ [EvWritel address stored])
            (with_mmio (<[address := stored]> (mmio w)) w)).
Proof. reflexivity. Qed.

Lemma sun4i_csi1_mask_spin_eq (w : world) (address value mask : Z) :
  sun4i_csi1_mask_spin address value mask w
  = Some (tt,
          let stored := Z.lor (Z.land (wrap32 value) (wrap32 mask))
                          (Z.land (reg w address) (not32 (wrap32 mask))) in
          with_trace (trace w ++ [EvSpinLock true; EvWritel address stored;
                                  EvSpinUnlock true])
            (with_mmio (<[address := stored]> (mmio w)) w)).
Proof.
  destruct w as [c m b t k nd]. unfold sun4i_csi1_mask_spin. steps.
  unfold reg. wnorm. rewrite <- !app_assoc. reflexivity.
Qed.

(** C10.  A masked write of [value] under [mask] to a register holding
    [old] stores [(old AND NOT mask) OR (value AND mask)]: the bits
    outside the mask are those of [old], the bits inside are those of
    [value]; no other register changes.  The locked variant stores the
    same value between taking and releasing the buffer lock. *)
Theorem sun4i_csi1_mask_stores (w : world) (address value mask : Z) :
  0 <= reg w address < 2 ^ 32 ->
  0 <= value < 2 ^ 32 ->
  0 <= mask < 2 ^ 32 ->
  let old := reg w address in
  let stored := Z.lor (Z.land old (Z.lnot mask)) (Z.land value mask) in
  (forall i, 0 <= i ->
     Z.testbit stored i
     = if Z.testbit mask i then Z.testbit value i else Z.testbit old i)
  /\ (exists w',
        sun4i_csi1_mask address value mask w = Some (tt, w')
        /\ reg w' address = stored
        /\ (forall a, a ≠ address -> reg w' a = reg w a)
        /\ csi w' = csi w /\ bufs w' = bufs w
        /\ trace w' = trace w ++ [EvWritel address stored])
  /\ (exists w',
        sun4i_csi1_mask_spin address value mask w = Some (tt, w')
        /\ reg w' address = stored
        /\ (forall a, a ≠ address -> reg w' a = reg w a)
        /\ csi w' = csi w /\ bufs w' = bufs w
        /\ trace w' = trace w ++ [EvSpinLock true; EvWritel address stored;
                                  EvSpinUnlock true]).
Proof.
  intros Ho Hv Hm old stored. split; [|split].
  - intros i Hi. apply mask_value_bits, Hi.
  - eexists. split; [apply sun4i_csi1_mask_eq|].
    cbv zeta. rewrite mask_value by assumption. fold old stored.
    repeat split.
    + cbn [trace with_trace]. apply reg_insert_eq.
    + intros a Ha. cbn [trace with_trace]. apply reg_insert_ne. congruence.
  - eexists. split; [apply sun4i_csi1_mask_spin_eq|].
    cbv zeta. rewrite mask_value by assumption. fold old stored.
    repeat split.
    + apply reg_insert_eq.
    + intros a Ha. apply reg_insert_ne. congruence.
Qed.

Lemma sun4i_csi1_mask_stores_witness :
  exists w',
    sun4i_csi1_mask SUN4I_CSI1_CONFIG 0x00400000 0x00700000
      (with_mmio (<[SUN4I_CSI1_CONFIG := 0x00300005]> ∅) world_probed)
    = Some (tt, w')
    /\ reg w' SUN4I_CSI1_CONFIG = 0x00400005.
Proof.
  destruct (sun4i_csi1_mask_stores
              (with_mmio (<[SUN4I_CSI1_CONFIG := 0x00300005]> ∅) world_probed)
              SUN4I_CSI1_CONFIG 0x00400000 0x00700000)
    as (_ & (w' & Hrun & Hreg & _) & _).
  - vm_compute. split; [discriminate | reflexivity].
  - lia.
  - lia.
  - exists w'. split; [exact Hrun | exact Hreg].
Defined.


(** * The power sequence *)

Lemma sun4i_csi1_poweroff_eq (w : world) :
  sun4i_csi1_poweroff w
  = Some (0,
          let stored := module_disabled (reg w SUN4I_CSI1_ENABLE) in
          with_trace (trace w ++ [EvSpinLock true;
                                  EvWritel SUN4I_CSI1_ENABLE stored;
                                  EvSpinUnlock true;
                                  EvClkDisableUnprepare clk_module;
                                  EvClkDisableUnprepare clk_ram;
                                  EvClkDisableUnprepare clk_bus;
                                  EvResetAssert])
            (with_mmio (<[SUN4I_CSI1_ENABLE := stored]> (mmio w)) w)).
Proof.
  destruct w as [c m b t k nd]. unfold sun4i_csi1_poweroff. steps.
  unfold reg, module_disabled. wnorm. rewrite <- !app_assoc. reflexivity.
Qed.

Lemma sun4i_csi1_poweron_ok (w : world) :
  (forall s, s ∈ power_sequence -> step_ret (kernel w) s = 0) ->
  sun4i_csi1_poweron w
  = Some (0,
          let stored :=
            Z.lor (Z.land (wrap32 1) (wrap32 1))
              (Z.land (reg w SUN4I_CSI1_ENABLE) (not32 (wrap32 1))) in
          with_trace (trace w
                      ++ concat (map (step_events (kernel w)) power_sequence)
                      ++ [EvSpinLock true; EvWritel SUN4I_CSI1_ENABLE stored;
                          EvSpinUnlock true])
            (with_mmio (<[SUN4I_CSI1_ENABLE := stored]> (mmio w)) w)).
Proof.
  intros Hok. destruct w as [c m b t k nd]. destruct k as [rd ce pool kt].
  assert (H0 : rd = 0) by (apply (Hok StepReset); set_solver).
  assert (H1 : ce clk_bus = 0) by (apply (Hok StepBus); set_solver).
  assert (H2 : ce clk_ram = 0) by (apply (Hok StepRam); set_solver).
  assert (H3 : ce clk_module = 0) by (apply (Hok StepModule); set_solver).
  unfold sun4i_csi1_poweron. steps.
  unfold reg. wnorm. cbn [power_sequence map concat step_events step_ret app].
  wnorm. rewrite <- !app_assoc. reflexivity.
Qed.

Lemma sun4i_csi1_poweron_unwind (w : world) (n : nat) (s : power_step) :
  power_sequence !! n = Some s ->
  (forall s', s' ∈ take n power_sequence -> step_ret (kernel w) s' = 0) ->
  step_ret (kernel w) s ≠ 0 ->
  sun4i_csi1_poweron w
  = Some (step_ret (kernel w) s,
          with_trace (trace w
                      ++ concat (map (step_events (kernel w))
                                   (take (S n) power_sequence))
                      ++ map step_undo (reverse (take n power_sequence))) w).
Proof.
  intros Hs Hok Hfail. destruct w as [c m b t k nd]. destruct k as [rd ce pool kt].
  unfold poweron_err_module, poweron_err_ram, poweron_err_bus,
    poweron_err_reset in *.
  destruct n as [|[|[|[|n]]]]; cbn in Hs; try discriminate;
    injection Hs as <-; cbn [step_ret kernel reset_deassert_ret clk_enable_ret] in *.
  - unfold sun4i_csi1_poweron, poweron_err_reset. steps.
    wnorm. rewrite <- ?app_assoc. reflexivity.
  - assert (H0 : rd = 0) by (apply (Hok StepReset); set_solver).
    unfold sun4i_csi1_poweron, poweron_err_bus, poweron_err_reset. steps.
    wnorm. rewrite <- ?app_assoc. reflexivity.
  - assert (H0 : rd = 0) by (apply (Hok StepReset); set_solver).
    assert (H1 : ce clk_bus = 0) by (apply (Hok StepBus); set_solver).
    unfold sun4i_csi1_poweron, poweron_err_ram, poweron_err_bus,
      poweron_err_reset. steps.
    wnorm. rewrite <- ?app_assoc. reflexivity.
  - assert (H0 : rd = 0) by (apply (Hok StepReset); set_solver).
    assert (H1 : ce clk_bus = 0) by (apply (Hok StepBus); set_solver).
    assert (H2 : ce clk_ram = 0) by (apply (Hok StepRam); set_solver).
    unfold sun4i_csi1_poweron, poweron_err_module, poweron_err_ram,
      poweron_err_bus, poweron_err_reset. steps.
    wnorm. rewrite <- ?app_assoc. reflexivity.
Qed.

Lemma streaming_start_power_failure (w w1 : world) (ret : Z) :
  sun4i_csi1_poweron w = Some (ret, w1) ->
  ret ≠ 0 ->
  sun4i_csi1_streaming_start w = Some (ret, w1).
Proof.
  intros Hon Hret. unfold sun4i_csi1_streaming_start.
  rewrite (run_bind_eq _ _ _ _ _ Hon).
  rewrite decide_False by exact Hret. reflexivity.
Qed.

(** C4.  Powering up deasserts reset, enables the bus clock, enables the
    RAM clock, then sets and enables the module clock, in that order.
    When step [n] of the four fails, the trace is the steps up to and
    including the failed one followed by the undo of the [n] completed
    steps in reverse order, the error of the failed step is returned, and
    nothing of the driver state changes: [start_streaming] returns the
    same error with [powered] as it was.  In particular a module clock
    failure disables the RAM clock, then the bus clock, then asserts
    reset. *)
Theorem sun4i_csi1_poweron_sequence (w : world) :
  let k := kernel w in
  ((forall s, s ∈ power_sequence -> step_ret k s = 0) ->
   exists w' stored,
     sun4i_csi1_poweron w = Some (0, w')
     /\ trace w' = trace w
                   ++ [EvResetDeassert 0; EvClkPrepareEnable clk_bus 0;
                       EvClkPrepareEnable clk_ram 0;
                       EvClkSetRate clk_module 24000000;
                       EvClkPrepareEnable clk_module 0]
                   ++ [EvSpinLock true; EvWritel SUN4I_CSI1_ENABLE stored;
                       EvSpinUnlock true]
     /\ Z.testbit stored 0 = true)
  /\ (forall n s,
        power_sequence !! n = Some s ->
        (forall s', s' ∈ take n power_sequence -> step_ret k s' = 0) ->
        step_ret k s ≠ 0 ->
        let w' :=
          with_trace (trace w
                      ++ concat (map (step_events k) (take (S n) power_sequence))
                      ++ map step_undo (reverse (take n power_sequence))) w in
        sun4i_csi1_poweron w = Some (step_ret k s, w')
        /\ sun4i_csi1_streaming_start w = Some (step_ret k s, w')
        /\ csi w' = csi w /\ mmio w' = mmio w)
  /\ (reset_deassert_ret k = 0 ->
      clk_enable_ret k clk_bus = 0 ->
      clk_enable_ret k clk_ram = 0 ->
      clk_enable_ret k clk_module ≠ 0 ->
      exists w',
        sun4i_csi1_streaming_start w = Some (clk_enable_ret k clk_module, w')
        /\ trace w' = trace w
                      ++ [EvResetDeassert 0; EvClkPrepareEnable clk_bus 0;
                          EvClkPrepareEnable clk_ram 0;
                          EvClkSetRate clk_module 24000000;
                          EvClkPrepareEnable clk_module
                            (clk_enable_ret k clk_module);
                          EvClkDisableUnprepare clk_ram;
                          EvClkDisableUnprepare clk_bus;
                          EvResetAssert]
        /\ powered (csi w') = powered (csi w)).
Proof.
  intros k. subst k. split; [|split].
  - intros Hok. eexists _, _. split; [apply sun4i_csi1_poweron_ok, Hok|].
    pose proof (Hok StepReset ltac:(set_solver)) as H0.
    pose proof (Hok StepBus ltac:(set_solver)) as H1.
    pose proof (Hok StepRam ltac:(set_solver)) as H2.
    pose proof (Hok StepModule ltac:(set_solver)) as H3.
    cbn [step_ret] in H0, H1, H2, H3.
    split.
    + cbn [trace with_trace power_sequence map concat app step_events step_ret].
      rewrite H0, H1, H2, H3. reflexivity.
    + rewrite Z.lor_spec, Z.land_spec. reflexivity.
  - intros n s Hs Hok Hfail w'.
    pose proof (sun4i_csi1_poweron_unwind w n s Hs Hok Hfail) as Hon.
    split; [exact Hon|]. split; [|split; reflexivity].
    apply streaming_start_power_failure; assumption.
  - intros H0 H1 H2 H3.
    assert (Hok : forall s', s' ∈ take 3 power_sequence ->
                        step_ret (kernel w) s' = 0).
    { intros s' Hin. cbn in Hin.
      apply elem_of_cons in Hin as [->|Hin]; [exact H0|].
      apply elem_of_cons in Hin as [->|Hin]; [exact H1|].
      apply elem_of_cons in Hin as [->|Hin]; [exact H2|].
      apply elem_of_nil in Hin as []. }
    pose proof (sun4i_csi1_poweron_unwind w 3 StepModule eq_refl Hok H3) as Hon.
    eexists. split; [apply streaming_start_power_failure; [exact Hon|exact H3]|].
    split; [|reflexivity].
    cbn [trace with_trace power_sequence take map concat app step_events
         step_undo reverse rev_append step_ret].
    rewrite H0, H1, H2. reflexivity.
Qed.

Lemma sun4i_csi1_poweron_sequence_witness :
  exists w',
    sun4i_csi1_streaming_start world_module_clock_broken = Some (-5, w')
    /\ powered (csi w') = false
    /\ power_events (trace w')
       = [EvResetDeassert 0; EvClkPrepareEnable clk_bus 0;
          EvClkPrepareEnable clk_ram 0; EvClkSetRate clk_module 24000000;
          EvClkPrepareEnable clk_module (-5);
          EvClkDisableUnprepare clk_ram; EvClkDisableUnprepare clk_bus;
          EvResetAssert].
Proof.
  destruct (sun4i_csi1_poweron_sequence world_module_clock_broken)
    as (_ & _ & Hmod).
  destruct Hmod as (w' & Hrun & Htr & Hpow); try reflexivity.
  - discriminate.
  - exists w'. split; [exact Hrun|]. split; [exact Hpow|].
    rewrite Htr. reflexivity.
Defined.


(** * The dummy buffer *)

Lemma wf_wf_dummy (w : world) : wf w -> wf_dummy (csi w).
Proof. intros (_ & Hn & Hv & Hd & _). repeat split; tauto || lia. Qed.

Ltac split_null v :=
  let H := fresh "Hnull" in
  destruct (decide (v = 0)) as [H|H]; [subst v|].

Ltac to_nat_consts :=
  change (Z.to_nat 0) with 0%nat; change (Z.to_nat 1) with 1%nat;
  change (Z.to_nat 2) with 2%nat; change (Z.to_nat 3) with 3%nat.

Ltac list_consts :=
  cbn [take zip zip_with length replicate drop app map fst snd].

Ltac decide_consts :=
  repeat first [ rewrite decide_True by (cbn; congruence)
               | rewrite decide_False by (cbn; congruence) ].

(** Giving up the dummy buffer: under the lock the held planes are taken
    out of the structure, after the unlock each is freed. *)
Lemma dummy_buffer_free_eq (w : world) :
  wf_dummy (csi w) ->
  sun4i_csi1_dummy_buffer_free w
  = Some (0, with_trace
               (trace w ++ [EvSpinLock true; EvSpinUnlock true]
                ++ free_events (plane_size (csi w)) (held_planes (csi w)))
               (with_csi (set_dummy (released (csi w)) (csi w)) w)).
Proof.
  intros (Hn & Hv & Hd).
  unfold sun4i_csi1_dummy_buffer_free, held_planes, released, free_events.
  destruct w as [c m b t k nd].
  destruct c as [pw fm pc ps wd ht hs vs hp vp bl sl sq [vv dd] mb].
  cbn [csi dummy virtual dummy_dma_addr plane_count plane_size] in *.
  apply length_3 in Hv as (v0 & v1 & v2 & ->).
  apply length_3 in Hd as (d0 & d1 & d2 & ->).
  assert (pc = 0 \/ pc = 1 \/ pc = 2 \/ pc = 3)
    as [-> | [-> | [-> | ->]]] by lia.
  all: split_null v0; split_null v1; split_null v2.
  all: steps; wnorm; to_nat_consts; list_consts.
  all: rewrite ?filter_cons, ?filter_nil; decide_consts; list_consts.
  all: rewrite <- ?app_assoc; reflexivity.
Qed.

Lemma released_wf_dummy (c : sun4i_csi1) :
  wf_dummy c -> wf_dummy (set_dummy (released c) c).
Proof.
  intros (Hn & Hv & Hd). unfold wf_dummy, released.
  destruct c as [pw fm pc ps wd ht hs vs hp vp bl sl sq [vv dd] mb].
  cbn [dummy virtual dummy_dma_addr plane_count set_dummy] in *.
  apply length_3 in Hv as (v0 & v1 & v2 & ->).
  apply length_3 in Hd as (d0 & d1 & d2 & ->).
  assert (pc = 0 \/ pc = 1 \/ pc = 2 \/ pc = 3)
    as [-> | [-> | [-> | ->]]] by lia;
    to_nat_consts; list_consts; repeat split; lia.
Qed.

(** Once given up, nothing is held. *)
Lemma released_holds_nothing (c : sun4i_csi1) :
  wf_dummy c -> held_planes (set_dummy (released c) c) = [].
Proof.
  intros (Hn & Hv & Hd). unfold held_planes, released.
  destruct c as [pw fm pc ps wd ht hs vs hp vp bl sl sq [vv dd] mb].
  cbn [dummy virtual dummy_dma_addr plane_count set_dummy] in *.
  apply length_3 in Hv as (v0 & v1 & v2 & ->).
  apply length_3 in Hd as (d0 & d1 & d2 & ->).
  assert (pc = 0 \/ pc = 1 \/ pc = 2 \/ pc = 3)
    as [-> | [-> | [-> | ->]]] by lia;
    to_nat_consts; list_consts;
    rewrite ?filter_cons, ?filter_nil; decide_consts; reflexivity.
Qed.

(** Where nothing is held, giving up changes nothing. *)
Lemma released_nothing_held (c : sun4i_csi1) :
  wf_dummy c -> held_planes c = [] -> released c = dummy c.
Proof.
  intros (Hn & Hv & Hd). unfold held_planes, released.
  destruct c as [pw fm pc ps wd ht hs vs hp vp bl sl sq [vv dd] mb].
  cbn [dummy virtual dummy_dma_addr plane_count set_dummy] in *.
  apply length_3 in Hv as (v0 & v1 & v2 & ->).
  apply length_3 in Hd as (d0 & d1 & d2 & ->).
  assert (pc = 0 \/ pc = 1 \/ pc = 2 \/ pc = 3)
    as [-> | [-> | [-> | ->]]] by lia;
    to_nat_consts; list_consts;
    split_null v0; split_null v1; split_null v2;
    rewrite ?filter_cons, ?filter_nil; decide_consts; list_consts;
    try discriminate; reflexivity.
Qed.

Lemma set_dummy_same (c : sun4i_csi1) : set_dummy (dummy c) c = c.
Proof. destruct c. reflexivity. Qed.

Lemma dma_frees_free_events (size : Z) (planes : list (Z * Z)) :
  dma_frees (free_events size planes) = free_events size planes.
Proof.
  induction planes as [|p planes IH]; [reflexivity|].
  cbn. unfold dma_frees, free_events in IH. rewrite IH. reflexivity.
Qed.


Ltac wf_dummy_solve :=
  unfold wf_dummy; cbn [plane_count dummy virtual dummy_dma_addr csi
                        with_csi with_trace with_kernel set_dummy];
  repeat split; first [ lia | reflexivity ].

Ltac index_consts :=
  progress (change (0 + 1) with 1; change (1 + 1) with 2;
            change (2 + 1) with 3).

Ltac call_free :=
  erewrite run_bind_eq by (apply dummy_buffer_free_eq; wf_dummy_solve).

(** Allocating the dummy buffer: the previous one is given up first, then
    the lock is taken and the allocator is called. *)
Lemma dummy_buffer_alloc_shape (w : world) :
  wf_dummy (csi w) ->
  exists r w' rest,
    sun4i_csi1_dummy_buffer_alloc w = Some (r, w')
    /\ trace w' = trace w
                  ++ [EvSpinLock true; EvSpinUnlock true]
                  ++ free_events (plane_size (csi w)) (held_planes (csi w))
                  ++ EvSpinLock true :: rest
    /\ (1 <= plane_count (csi w) ->
        exists v d rest',
          rest = EvDmaAllocCoherent (plane_size (csi w)) v d :: rest')
    /\ (r = 0 \/ r = - ENOMEM).
Proof.
  intros Hwf. pose proof Hwf as (Hn & Hv & Hd).
  unfold sun4i_csi1_dummy_buffer_alloc.
  destruct w as [c m b t k nd].
  destruct c as [pw fm pc ps wd ht hs vs hp vp bl sl sq [vv dd] mb].
  destruct k as [rd ce pool kt].
  cbn [csi dummy virtual dummy_dma_addr plane_count plane_size trace] in *.
  apply length_3 in Hv as (v0 & v1 & v2 & ->).
  apply length_3 in Hd as (d0 & d1 & d2 & ->).
  assert (pc = 0 \/ pc = 1 \/ pc = 2 \/ pc = 3)
    as [-> | [-> | [-> | ->]]] by lia.
  all: destruct pool as [|[a0 e0] [|[a1 e1] [|[a2 e2] pool]]].
  all: try split_null a0; try split_null a1; try split_null a2.
  all: eexists _, _, _; split;
    [ call_free; unfold released; wnorm; to_nat_consts; list_consts;
      steps_with ltac:(first [ index_consts | call_free
                             | progress (to_nat_consts;
                                         cbn [dummy_buffer_alloc_loop]; prims) ]);
      reflexivity | ].
  all: split; [wnorm; rewrite <- ?app_assoc; reflexivity|].
  all: split; [intros ?; try lia; eexists _, _, _; reflexivity|].
  all: first [left; reflexivity | right; reflexivity].
Qed.

Lemma lock_held_app (held : bool) (a b : list event) :
  lock_held held (a ++ b) = lock_held (lock_held held a) b.
Proof.
  revert held. induction a as [|e a IH]; intros held; [reflexivity|].
  destruct e; cbn; apply IH.
Qed.

Lemma sleeps_in_atomic_app (held : bool) (a b : list event) :
  sleeps_in_atomic held (a ++ b)
  = sleeps_in_atomic held a || sleeps_in_atomic (lock_held held a) b.
Proof.
  revert held. induction a as [|e a IH]; intros held; [reflexivity|].
  cbn [app sleeps_in_atomic]. rewrite IH, orb_assoc.
  replace (lock_held (lock_held held [e]) a) with (lock_held held (e :: a))
    by (destruct e; reflexivity).
  reflexivity.
Qed.

Lemma lock_held_free_events (held : bool) (size : Z) (planes : list (Z * Z)) :
  lock_held held (free_events size planes) = held.
Proof. induction planes as [|p planes IH]; [reflexivity|exact IH]. Qed.

Lemma sleeps_in_atomic_free_events (size : Z) (planes : list (Z * Z)) :
  sleeps_in_atomic false (free_events size planes) = false.
Proof. induction planes as [|p planes IH]; [reflexivity|exact IH]. Qed.

Lemma wfb_wf (w : world) : wfb w = true -> wf w.
Proof.
  unfold wfb, wf. rewrite !andb_true_iff.
  intros (((((((H1 & H2) & H3) & H4) & H5) & H6) & H7) & H8).
  apply Nat.eqb_eq in H1, H4, H5. apply Z.leb_le in H2, H3.
  rewrite forallb_forall in H6, H7, H8.
  repeat split; try assumption.
  - apply Forall_forall. intros b Hb. apply Nat.ltb_lt, H6, list_elem_of_In, Hb.
  - apply Forall_forall. intros s Hs b ->.
    apply Nat.ltb_lt. apply (H7 (Some b)), list_elem_of_In, Hs.
  - apply Forall_forall. intros b Hb. apply Nat.eqb_eq, H8, list_elem_of_In, Hb.
Qed.

Ltac wf_solve := apply wfb_wf; vm_compute; reflexivity.

(** C7.  Giving up the dummy buffer is idempotent.  The first call frees
    each held plane once, after releasing the lock, and leaves nothing
    held; where nothing was held it changes nothing and frees nothing; a
    second call in a row frees nothing and changes nothing, and neither
    call fails.  Allocation first runs the whole of the free operation,
    so whatever an earlier allocation left is freed before the allocator
    is called again. *)
Theorem sun4i_csi1_dummy_buffer_free_idempotent (w : world) :
  wf w ->
  exists w1 w2 tr1 tr2,
    sun4i_csi1_dummy_buffer_free w = Some (0, w1)
    /\ sun4i_csi1_dummy_buffer_free w1 = Some (0, w2)
    /\ trace w1 = trace w ++ tr1
    /\ trace w2 = trace w1 ++ tr2
    /\ dma_frees tr1 = free_events (plane_size (csi w)) (held_planes (csi w))
    /\ sleeps_in_atomic false tr1 = false
    /\ held_planes (csi w1) = []
    /\ (held_planes (csi w) = [] -> csi w1 = csi w /\ dma_frees tr1 = [])
    /\ dma_frees tr2 = []
    /\ csi w2 = csi w1
    /\ exists r w3 rest,
         sun4i_csi1_dummy_buffer_alloc w = Some (r, w3)
         /\ trace w3 = trace w1 ++ EvSpinLock true :: rest.
Proof.
  intros Hwf. apply wf_wf_dummy in Hwf.
  pose proof (dummy_buffer_free_eq w Hwf) as H1.
  pose proof (released_wf_dummy _ Hwf) as Hwf1.
  pose proof (released_holds_nothing _ Hwf) as Hheld1.
  eexists _, _, _, _. split; [exact H1|].
  split.
  { rewrite dummy_buffer_free_eq by exact Hwf1.
    cbn [csi trace with_trace with_csi plane_size set_dummy].
    rewrite Hheld1.
    rewrite (released_nothing_held _ Hwf1 Hheld1). reflexivity. }
  split; [reflexivity|]. split; [cbn [trace with_trace]; reflexivity|].
  split; [apply (dma_frees_free_events _ _)|].
  split.
  { change (sleeps_in_atomic false
              ([EvSpinLock true; EvSpinUnlock true]
               ++ free_events (plane_size (csi w)) (held_planes (csi w)))
            = false).
    rewrite sleeps_in_atomic_app. apply sleeps_in_atomic_free_events. }
  split; [exact Hheld1|].
  split.
  { intros Hnone. cbn [csi with_trace with_csi]. rewrite Hnone.
    rewrite (released_nothing_held _ Hwf Hnone), set_dummy_same.
    split; reflexivity. }
  split; [reflexivity|].
  split.
  { cbn [csi with_trace with_csi set_dummy dummy]. destruct (csi w); reflexivity. }
  destruct (dummy_buffer_alloc_shape w Hwf) as (r & w3 & rest & Hrun & Htr & _).
  exists r, w3, rest. split; [exact Hrun|].
  rewrite Htr. cbn [trace with_trace]. rewrite <- !app_assoc. reflexivity.
Qed.

Lemma world_setup_wf : wf world_setup.
Proof. wf_solve. Qed.

Lemma sun4i_csi1_dummy_buffer_free_idempotent_witness :
  exists w1 w2,
    sun4i_csi1_dummy_buffer_free world_setup = Some (0, w1)
    /\ sun4i_csi1_dummy_buffer_free w1 = Some (0, w2)
    /\ dma_frees (trace w2)
       = [EvDmaFreeCoherent 2073600 0xC0000000 0x50000000;
          EvDmaFreeCoherent 2073600 0xC0200000 0x50200000;
          EvDmaFreeCoherent 2073600 0xC0400000 0x50400000].
Proof.
  destruct (sun4i_csi1_dummy_buffer_free_idempotent world_setup world_setup_wf)
    as (w1 & w2 & tr1 & tr2 & H1 & H2 & _).
  exists w1, w2. split; [exact H1|]. split; [exact H2|].
  vm_compute in H1. injection H1 as <-.
  vm_compute in H2. injection H2 as <-.
  reflexivity.
Defined.

(** C2.  Allocation of the dummy buffer calls the DMA allocator, which
    may sleep, while the buffer lock is held: with at least one plane the
    trace of [sun4i_csi1_dummy_buffer_alloc] has an allocator call that a
    lock precedes and no unlock separates from it. *)
Theorem sun4i_csi1_dummy_buffer_alloc_sleeps_under_lock (w : world) :
  wf w ->
  1 <= plane_count (csi w) ->
  exists r w' before v d after,
    sun4i_csi1_dummy_buffer_alloc w = Some (r, w')
    /\ trace w' = trace w ++ before
                  ++ EvDmaAllocCoherent (plane_size (csi w)) v d :: after
    /\ lock_held false before = true
    /\ sleeps_in_atomic false
         (before ++ EvDmaAllocCoherent (plane_size (csi w)) v d :: after)
       = true.
Proof.
  intros Hwf Hplanes. apply wf_wf_dummy in Hwf.
  destruct (dummy_buffer_alloc_shape w Hwf)
    as (r & w' & rest & Hrun & Htr & Hfirst & _).
  destruct (Hfirst Hplanes) as (v & d & after & ->).
  set (before := [EvSpinLock true; EvSpinUnlock true]
                 ++ free_events (plane_size (csi w)) (held_planes (csi w))
                 ++ [EvSpinLock true]).
  assert (Hheld : lock_held false before = true).
  { unfold before. rewrite !lock_held_app. reflexivity. }
  exists r, w', before, v, d, after. split; [exact Hrun|].
  split; [|split; [exact Hheld|]].
  - rewrite Htr. unfold before. rewrite <- !app_assoc. reflexivity.
  - rewrite sleeps_in_atomic_app, Hheld. cbn. apply orb_true_r.
Qed.

Lemma sun4i_csi1_dummy_buffer_alloc_sleeps_under_lock_witness :
  exists w',
    sun4i_csi1_dummy_buffer_alloc world_probed = Some (0, w')
    /\ trace w'
       = [EvSpinLock true; EvSpinUnlock true; EvSpinLock true;
          EvDmaAllocCoherent 2073600 0xC0000000 0x50000000;
          EvDmaAllocCoherent 2073600 0xC0200000 0x50200000;
          EvDmaAllocCoherent 2073600 0xC0400000 0x50400000;
          EvSpinUnlock true]
    /\ sleeps_in_atomic false (trace w') = true.
Proof.
  assert (Hwf : wf world_probed) by wf_solve.
  destruct (sun4i_csi1_dummy_buffer_alloc_sleeps_under_lock world_probed Hwf)
    as (r & w' & before & v & d & after & Hrun & _).
  - vm_compute. discriminate.
  - vm_compute in Hrun. injection Hrun as <- <-.
    eexists. split; [vm_compute; reflexivity|]. split; reflexivity.
Defined.


(** * The frame-done interrupt *)

Lemma wf_pending_head (w : world) :
  wf w ->
  match buffer_list (csi w) with
  | [] => True
  | new :: _ =>
      exists st sq ts a0 a1 a2,
        bufs w !! new = Some (mk_buffer st sq ts [a0; a1; a2])
  end.
Proof.
  intros (_ & _ & _ & _ & Hp & _ & Hb).
  destruct (buffer_list (csi w)) as [|new rest]; [exact I|].
  apply Forall_cons in Hp as [Hp _].
  apply lookup_lt_is_Some_2 in Hp as [[st sq' ts da] Hl].
  pose proof (Forall_lookup_1 _ _ _ _ Hb Hl) as Hlen. cbn in Hlen.
  apply length_3 in Hlen as (a0 & a1 & a2 & ->). eauto 10.
Qed.

Lemma wf_slot_buffer (w : world) (old : nat) :
  wf w ->
  Some old ∈ buffers (csi w) ->
  exists b, bufs w !! old = Some b /\ (old < length (bufs w))%nat.
Proof.
  intros (_ & _ & _ & _ & _ & Hsl & _) Hin.
  pose proof (proj1 (Forall_forall _ _) Hsl _ Hin old eq_refl) as Ho.
  destruct (lookup_lt_is_Some_2 _ _ Ho) as [b Hl]. eauto.
Qed.

(** One case of [frame_done_effect]: the slot index is known ([Hi]) and
    the slot holds [old]. *)
Ltac frame_done_case H Hi Hnew Hl old st0 sq0 ts0 da0 d0 d1 d2 :=
  let st := fresh "st" in let sq' := fresh "sq'" in let ts := fresh "ts" in
  let a0 := fresh "a0" in let a1 := fresh "a1" in let a2 := fresh "a2" in
  let Hln := fresh "Hln" in let Ha := fresh "Ha" in
  lazymatch type of Hnew with
  | match ?pl with _ => _ end =>
      destruct pl as [|new rest];
      [|destruct Hnew as (st & sq' & ts & a0 & a1 & a2 & Hln)];
      destruct (decide (st0 = VB2_BUF_STATE_ACTIVE)) as [Ha|Ha];
      eval_in_with H ltac:(rewrite Hi);
      injection H as <-;
      [ exists old, (mk_buffer st0 sq0 ts0 da0), [d0; d1; d2]
      | exists old, (mk_buffer st0 sq0 ts0 da0), [d0; d1; d2]
      | exists old, (mk_buffer st0 sq0 ts0 da0), [a0; a1; a2]
      | exists old, (mk_buffer st0 sq0 ts0 da0), [a0; a1; a2] ];
      wnorm; rewrite ?list_insert_insert_eq;
      repeat first [ rewrite decide_True by assumption
                   | rewrite decide_False by assumption ];
      rewrite ?Hi;
      repeat match goal with |- _ /\ _ => split end;
      try reflexivity; try exact Hl;
      try (eexists; split; reflexivity);
      try (rewrite <- ?app_assoc; reflexivity);
      try (eexists; split; [exact Hln | reflexivity])
  end.

(** What one frame-done interrupt does.  The slot [sequence & 1] must
    hold a buffer [old]; the counter goes up by one; the head of the
    pending list, or nothing, takes the slot; the slot's registers get the
    planes of that head, or those of the dummy buffer after the module
    enable bit is cleared; after the unlock the time is read and [old] is
    completed with the sequence number from before the increment. *)
Lemma frame_done_effect (w w' : world) :
  wf w ->
  sun4i_csi1_frame_done w = Some (tt, w') ->
  let seq := sequence (csi w) in
  let index := Z.land seq 1 in
  let now := ktime_ns (kernel w) in
  exists old b addrs,
    array_load (buffers (csi w)) index = Some (Some old)
    /\ bufs w !! old = Some b
    /\ length addrs = 3%nat
    /\ kernel w' = kernel w
    /\ (exists slots',
          array_store (buffers (csi w)) index
            (head (buffer_list (csi w))) = Some slots'
          /\ csi w' = set_buffers slots'
                        (set_buffer_list (tail (buffer_list (csi w)))
                           (set_sequence (wrap64 (seq + 1)) (csi w))))
    /\ match buffer_list (csi w) with
       | [] =>
           addrs = dummy_dma_addr (dummy (csi w))
           /\ mmio w' = program_registers (slot_registers index) addrs
                          (<[SUN4I_CSI1_ENABLE :=
                               module_disabled (reg w SUN4I_CSI1_ENABLE)]>
                             (mmio w))
       | new :: _ =>
           (exists bn, bufs w !! new = Some bn /\ addrs = dma_addr bn)
           /\ mmio w' = program_registers (slot_registers index) addrs (mmio w)
       end
    /\ trace w'
       = trace w
         ++ [EvSpinLock false]
         ++ match buffer_list (csi w) with
            | [] => [EvWritel SUN4I_CSI1_ENABLE
                       (module_disabled (reg w SUN4I_CSI1_ENABLE))]
            | _ :: _ => []
            end
         ++ program_events (slot_registers index) addrs
         ++ [EvSpinUnlock false; EvKtimeGetNs now;
             if decide (vb2_state b = VB2_BUF_STATE_ACTIVE)
             then EvVb2BufferDone old (wrap32 seq) now VB2_BUF_STATE_DONE
             else EvWarnOn old]
    /\ bufs w'
       = <[old := mk_buffer
                    (if decide (vb2_state b = VB2_BUF_STATE_ACTIVE)
                     then VB2_BUF_STATE_DONE else vb2_state b)
                    (wrap32 seq) now (dma_addr b)]> (bufs w).
Proof.
  intros Hwf H.
  pose proof (wf_pending_head w Hwf) as Hnew.
  pose proof (wf_slot_buffer w) as Hold. specialize (fun o => Hold o Hwf).
  destruct Hwf as (Hs & Hn & Hv & Hd & Hp & Hsl & Hb).
  destruct w as [c m bl t k nd].
  destruct c as [pw fm pc ps wd ht hs vs hp vp pl sl sq [vv dd] mb].
  destruct k as [rd ce pool kt].
  cbn [csi bufs kernel buffers buffer_list sequence dummy virtual
       dummy_dma_addr ktime_ns plane_count trace mmio] in *.
  apply length_2 in Hs as (s0 & s1 & ->).
  apply length_3 in Hd as (d0 & d1 & d2 & ->).
  unfold sun4i_csi1_frame_done in H.
  destruct (land_1_cases sq) as [Hi|Hi]; rewrite Hi.
  - destruct s0 as [old|].
    2: { destruct pl as [|new rest];
         [|destruct Hnew as (st & sq' & ts & a0 & a1 & a2 & Hl)];
         eval_in_with H ltac:(rewrite Hi); discriminate. }
    destruct (Hold old) as ([st0 sq0 ts0 da0] & Hl & Hlt); [set_solver|].
    frame_done_case H Hi Hnew Hl old st0 sq0 ts0 da0 d0 d1 d2.
  - destruct s1 as [old|].
    2: { destruct pl as [|new rest];
         [|destruct Hnew as (st & sq' & ts & a0 & a1 & a2 & Hl)];
         eval_in_with H ltac:(rewrite Hi); discriminate. }
    destruct (Hold old) as ([st0 sq0 ts0 da0] & Hl & Hlt); [set_solver|].
    frame_done_case H Hi Hnew Hl old st0 sq0 ts0 da0 d0 d1 d2.
Qed.

Lemma frame_done_total (w : world) (old : nat) :
  wf w ->
  array_load (buffers (csi w)) (Z.land (sequence (csi w)) 1) = Some (Some old) ->
  exists w', sun4i_csi1_frame_done w = Some (tt, w').
Proof.
  intros Hwf Hslot.
  pose proof (wf_pending_head w Hwf) as Hnew.
  pose proof (wf_slot_buffer w) as Hold. specialize (fun o => Hold o Hwf).
  destruct Hwf as (Hs & Hn & Hv & Hd & Hp & Hsl & Hb).
  destruct w as [c m bl t k nd].
  destruct c as [pw fm pc ps wd ht hs vs hp vp pl sl sq [vv dd] mb].
  destruct k as [rd ce pool kt].
  cbn [csi bufs kernel buffers buffer_list sequence dummy virtual
       dummy_dma_addr ktime_ns plane_count trace mmio] in *.
  apply length_2 in Hs as (s0 & s1 & ->).
  apply length_3 in Hd as (d0 & d1 & d2 & ->).
  unfold sun4i_csi1_frame_done.
  destruct (land_1_cases sq) as [Hi|Hi]; rewrite Hi in Hslot;
    cbn in Hslot; injection Hslot as ->;
    (destruct (Hold old) as ([st0 sq0 ts0 da0] & Hl & Hlt); [set_solver|]);
    (destruct pl as [|new rest];
     [|destruct Hnew as (st & sq' & ts & a0 & a1 & a2 & Hln)]);
    destruct (decide (st0 = VB2_BUF_STATE_ACTIVE)) as [Ha|Ha];
    eexists; steps_with ltac:(rewrite Hi); reflexivity.
Qed.

Lemma array_load_store_eq {A} (l l' : list A) (i : Z) (v : A) :
  array_store l i v = Some l' -> array_load l' i = Some v.
Proof.
  unfold array_store, array_load. intros H.
  destruct (decide (0 <= i < Z.of_nat (length l))) as [Hi|]; [|discriminate].
  injection H as <-. rewrite decide_True by lia.
  apply list_lookup_insert_eq. lia.
Qed.

Lemma array_load_store_ne {A} (l l' : list A) (i j : Z) (v : A) :
  array_store l i v = Some l' -> j ≠ i -> array_load l' j = array_load l j.
Proof.
  unfold array_store, array_load. intros H Hne.
  destruct (decide (0 <= i < Z.of_nat (length l))) as [Hi|]; [|discriminate].
  injection H as <-. destruct (decide (0 <= j)) as [Hj|]; [|reflexivity].
  apply list_lookup_insert_ne. lia.
Qed.

Lemma module_disabled_bit (old : Z) : Z.testbit (module_disabled old) 0 = false.
Proof.
  unfold module_disabled. rewrite Z.lor_spec, !Z.land_spec.
  change (Z.testbit (wrap32 0) 0) with false.
  change (Z.testbit (not32 (wrap32 1)) 0) with false.
  rewrite andb_false_r. reflexivity.
Qed.

Ltac unfold_registers :=
  unfold SUN4I_CSI1_ENABLE, SUN4I_CSI1_CONFIG, SUN4I_CSI1_CAPTURE,
    SUN4I_CSI1_SCALE, SUN4I_CSI1_FIFO0_BUFFER_A, SUN4I_CSI1_FIFO0_BUFFER_B,
    SUN4I_CSI1_FIFO1_BUFFER_A, SUN4I_CSI1_FIFO1_BUFFER_B,
    SUN4I_CSI1_FIFO2_BUFFER_A, SUN4I_CSI1_FIFO2_BUFFER_B,
    SUN4I_CSI1_BUFFER_CONTROL, SUN4I_CSI1_BUFFER_STATUS,
    SUN4I_CSI1_INT_ENABLE, SUN4I_CSI1_INT_STATUS, SUN4I_CSI1_HSIZE,
    SUN4I_CSI1_VSIZE, SUN4I_CSI1_STRIDE in *.

Ltac lookups :=
  repeat first [ rewrite lookup_insert_eq
               | rewrite lookup_insert_ne by (clear; lia) ].

(** Programming a slot leaves the three addresses in its registers and
    touches no other register. *)
Lemma program_registers_read (index a0 a1 a2 : Z) (m : gmap Z Z) :
  let m' := program_registers (slot_registers index) [a0; a1; a2] m in
  map (fun r => default 0 (m' !! r)) (slot_registers index)
  = [wrap32 a0; wrap32 a1; wrap32 a2]
  /\ forall r, r ∉ slot_registers index -> m' !! r = m !! r.
Proof.
  unfold slot_registers. destruct (decide (index = 0)) as [_|_];
    cbn [program_registers foldl zip zip_with fst snd map].
  all: split;
    [ unfold_registers; lookups; reflexivity
    | intros r Hr; rewrite !lookup_insert_ne by set_solver; reflexivity ].
Qed.

Lemma enable_not_slot_register (index : Z) :
  SUN4I_CSI1_ENABLE ∉ slot_registers index.
Proof.
  unfold slot_registers. destruct (decide (index = 0));
    unfold_registers; set_solver.
Qed.

Lemma slot_registers_disjoint (index r : Z) :
  index = 0 \/ index = 1 ->
  r ∈ slot_registers (1 - index) -> r ∉ slot_registers index.
Proof.
  unfold slot_registers. intros [-> | ->]; cbn [decide]; intros Hin.
  - rewrite decide_False in Hin by lia. rewrite decide_True by lia.
    unfold_registers. set_solver.
  - rewrite decide_True in Hin by lia. rewrite decide_False by lia.
    unfold_registers. set_solver.
Qed.


(** C1.  At a frame-done interrupt the scratch buffer takes the retired
    slot exactly when the pending list is empty.  In that case the
    slot's three registers hold the planes of the dummy buffer and bit 0
    of the ENABLE register, the module (capture) enable, is cleared inside
    the same locked section.  Otherwise the head of the pending list
    takes the slot, its planes are programmed, and the ENABLE register is
    left alone.  The interrupt handler returns whenever the retired slot
    holds a buffer. *)
Theorem frame_done_scratch_iff_starved (w : world) :
  wf w ->
  let index := Z.land (sequence (csi w)) 1 in
  (forall old,
     array_load (buffers (csi w)) index = Some (Some old) ->
     exists w', sun4i_csi1_frame_done w = Some (tt, w'))
  /\ forall w',
  sun4i_csi1_frame_done w = Some (tt, w') ->
  (scratch_installed w' index <-> buffer_list (csi w) = [])
  /\ (buffer_list (csi w) = [] ->
      array_load (buffers (csi w')) index = Some None
      /\ map (reg w') (slot_registers index)
         = map wrap32 (dummy_dma_addr (dummy (csi w)))
      /\ Z.testbit (reg w' SUN4I_CSI1_ENABLE) 0 = false
      /\ exists before after,
           trace w' = trace w ++ EvSpinLock false :: before
                      ++ EvSpinUnlock false :: after
           /\ EvWritel SUN4I_CSI1_ENABLE (reg w' SUN4I_CSI1_ENABLE) ∈ before)
  /\ (forall new rest,
        buffer_list (csi w) = new :: rest ->
        array_load (buffers (csi w')) index = Some (Some new)
        /\ buffer_list (csi w') = rest
        /\ reg w' SUN4I_CSI1_ENABLE = reg w SUN4I_CSI1_ENABLE
        /\ exists bn, bufs w !! new = Some bn
                      /\ map (reg w') (slot_registers index)
                         = map wrap32 (dma_addr bn)).
Proof.
  intros Hwf index.
  split; [intros old Hold; exact (frame_done_total w old Hwf Hold)|].
  intros w' Hrun.
  destruct (frame_done_effect w w' Hwf Hrun)
    as (old & b & addrs & Hslot & Hb & Hlen & Hk & (slots' & Hst & Hcsi)
        & Hregs & Htr & Hbufs).
  fold index in Hslot, Hst, Hregs, Htr.
  apply length_3 in Hlen as (a0 & a1 & a2 & ->).
  pose proof (array_load_store_eq _ _ _ _ Hst) as Hnew.
  assert (Hslots : buffers (csi w') = slots') by (rewrite Hcsi; reflexivity).
  assert (Hdummy : dummy (csi w') = dummy (csi w)) by (rewrite Hcsi; reflexivity).
  assert (Hpend : buffer_list (csi w') = tail (buffer_list (csi w)))
    by (rewrite Hcsi; reflexivity).
  destruct (buffer_list (csi w)) as [|new rest] eqn:Hpl.
  - destruct Hregs as [Haddrs Hmmio].
    destruct (program_registers_read index a0 a1 a2
                (<[SUN4I_CSI1_ENABLE :=
                     module_disabled (reg w SUN4I_CSI1_ENABLE)]> (mmio w)))
      as [Hread Hother].
    assert (Hprog : map (reg w') (slot_registers index)
                    = map wrap32 (dummy_dma_addr (dummy (csi w)))).
    { unfold reg. rewrite Hmmio, Hread, <- Haddrs. reflexivity. }
    assert (Hen : reg w' SUN4I_CSI1_ENABLE
                  = module_disabled (reg w SUN4I_CSI1_ENABLE)).
    { unfold reg at 1. rewrite Hmmio.
      rewrite Hother by apply enable_not_slot_register.
      rewrite lookup_insert_eq. reflexivity. }
    split; [|split].
    + split; [reflexivity|]. intros _. split.
      * rewrite Hslots. exact Hnew.
      * rewrite Hdummy. exact Hprog.
    + intros _. split; [rewrite Hslots; exact Hnew|].
      split; [exact Hprog|]. split.
      * rewrite Hen. apply module_disabled_bit.
      * exists ([EvWritel SUN4I_CSI1_ENABLE
                   (module_disabled (reg w SUN4I_CSI1_ENABLE))]
                ++ program_events (slot_registers index) [a0; a1; a2]).
        eexists. split.
        { rewrite Htr. cbn [app]. rewrite <- ?app_assoc. reflexivity. }
        rewrite Hen. set_solver.
    + intros new rest [=].
  - destruct Hregs as [(bn & Hbn & Haddrs) Hmmio].
    destruct (program_registers_read index a0 a1 a2 (mmio w)) as [Hread Hother].
    split; [|split].
    + split; [|discriminate]. intros [Hnone _].
      rewrite Hslots, Hnew in Hnone. discriminate.
    + discriminate.
    + intros new' rest' [= <- <-].
      split; [rewrite Hslots; exact Hnew|].
      split; [exact Hpend|]. split.
      * unfold reg. rewrite Hmmio.
        rewrite Hother by apply enable_not_slot_register. reflexivity.
      * exists bn. split; [exact Hbn|].
        unfold reg. rewrite Hmmio, Hread, <- Haddrs. reflexivity.
Qed.

Lemma world_streaming_wf : wf world_streaming.
Proof. wf_solve. Qed.

Lemma world_one_frame_wf : wf world_one_frame.
Proof. wf_solve. Qed.

Lemma frame_done_scratch_iff_starved_witness :
  exists w',
    sun4i_csi1_frame_done world_one_frame = Some (tt, w')
    /\ scratch_installed w' 1
    /\ Z.testbit (reg w' SUN4I_CSI1_ENABLE) 0 = false.
Proof.
  destruct (frame_done_scratch_iff_starved world_one_frame world_one_frame_wf)
    as [Htotal Hspec].
  destruct (Htotal 1%nat ltac:(vm_compute; reflexivity)) as [w' Hrun].
  exists w'. split; [exact Hrun|].
  destruct (Hspec w' Hrun) as (Hiff & Hstarved & _).
  split.
  - apply Hiff. vm_compute. reflexivity.
  - apply Hstarved. vm_compute. reflexivity.
Defined.

Lemma buffer_pointer_writes_app (a b : list event) :
  buffer_pointer_writes (a ++ b)
  = buffer_pointer_writes a ++ buffer_pointer_writes b.
Proof. apply omap_app. Qed.

Lemma buffer_pointer_writes_program (index a0 a1 a2 : Z) :
  map fst (buffer_pointer_writes
             (program_events (slot_registers index) [a0; a1; a2]))
  = slot_registers index.
Proof.
  unfold slot_registers. destruct (decide (index = 0)); reflexivity.
Qed.

(** C6.  The slot a frame-done interrupt retires and reprograms is slot
    [sequence mod 2]: the buffer it completes is the one that slot held,
    only that entry of the slot table changes, the buffer-pointer
    registers written are the three of slot A when the index is 0 and the
    three of slot B when it is 1, in plane order, and the registers of the
    other slot keep their values.  The interrupt handler returns whenever
    that slot holds a buffer. *)
Theorem frame_done_slot_parity (w : world) :
  wf w ->
  let seq := sequence (csi w) in
  let index := Z.land seq 1 in
  (forall old,
     array_load (buffers (csi w)) index = Some (Some old) ->
     exists w', sun4i_csi1_frame_done w = Some (tt, w'))
  /\ forall w',
  sun4i_csi1_frame_done w = Some (tt, w') ->
  index = seq mod 2
  /\ (exists old vb,
        array_load (buffers (csi w)) index = Some (Some old)
        /\ bufs w' !! old = Some vb
        /\ v4l2_sequence vb = wrap32 seq)
  /\ array_load (buffers (csi w')) index = Some (head (buffer_list (csi w)))
  /\ (forall j, j ≠ index ->
        array_load (buffers (csi w')) j = array_load (buffers (csi w)) j)
  /\ (exists tr,
        trace w' = trace w ++ tr
        /\ map fst (buffer_pointer_writes tr)
           = if decide (index = 0)
             then [SUN4I_CSI1_FIFO0_BUFFER_A; SUN4I_CSI1_FIFO1_BUFFER_A;
                   SUN4I_CSI1_FIFO2_BUFFER_A]
             else [SUN4I_CSI1_FIFO0_BUFFER_B; SUN4I_CSI1_FIFO1_BUFFER_B;
                   SUN4I_CSI1_FIFO2_BUFFER_B])
  /\ (forall r, r ∈ slot_registers (1 - index) -> reg w' r = reg w r).
Proof.
  intros Hwf seq index.
  split; [intros old Hold; exact (frame_done_total w old Hwf Hold)|].
  intros w' Hrun.
  destruct (frame_done_effect w w' Hwf Hrun)
    as (old & b & addrs & Hslot & Hb & Hlen & Hk & (slots' & Hst & Hcsi)
        & Hregs & Htr & Hbufs).
  fold seq index in Hslot, Hst, Hregs, Htr, Hbufs.
  apply length_3 in Hlen as (a0 & a1 & a2 & ->).
  assert (Hslots : buffers (csi w') = slots') by (rewrite Hcsi; reflexivity).
  split; [apply land_1_mod|].
  split.
  { eexists old, _. split; [exact Hslot|].
    assert (Hlt : (old < length (bufs w))%nat)
      by (apply lookup_lt_is_Some_1; eauto).
    split; [rewrite Hbufs; apply (list_lookup_insert_eq _ _ _ Hlt) | reflexivity]. }
  split; [rewrite Hslots; apply (array_load_store_eq _ _ _ _ Hst)|].
  split.
  { intros j Hj. rewrite Hslots. apply (array_load_store_ne _ _ _ _ _ Hst Hj). }
  split.
  { eexists. split; [exact Htr|].
    rewrite !buffer_pointer_writes_app, !map_app.
    rewrite buffer_pointer_writes_program.
    replace (buffer_pointer_writes
               match buffer_list (csi w) with
               | [] => [EvWritel SUN4I_CSI1_ENABLE
                          (module_disabled (reg w SUN4I_CSI1_ENABLE))]
               | _ :: _ => []
               end) with (@nil (Z * Z))
      by (destruct (buffer_list (csi w)); reflexivity).
    replace (buffer_pointer_writes
               [EvSpinUnlock false; EvKtimeGetNs (ktime_ns (kernel w));
                if decide (vb2_state b = VB2_BUF_STATE_ACTIVE)
                then EvVb2BufferDone old (wrap32 seq)
                       (ktime_ns (kernel w)) VB2_BUF_STATE_DONE
                else EvWarnOn old]) with (@nil (Z * Z))
      by (destruct (decide (vb2_state b = VB2_BUF_STATE_ACTIVE)); reflexivity).
    cbn [buffer_pointer_writes omap map app]. rewrite app_nil_r.
    reflexivity. }
  intros r Hr.
  assert (Hnot : r ∉ slot_registers index)
    by (apply slot_registers_disjoint; [apply land_1_cases|exact Hr]).
  assert (Hne : r ≠ SUN4I_CSI1_ENABLE).
  { intros ->. revert Hr. apply enable_not_slot_register. }
  unfold reg. destruct (buffer_list (csi w)) as [|new rest].
  - destruct Hregs as [_ ->].
    rewrite (proj2 (program_registers_read index a0 a1 a2 _)) by exact Hnot.
    rewrite lookup_insert_ne by congruence. reflexivity.
  - destruct Hregs as [_ ->].
    rewrite (proj2 (program_registers_read index a0 a1 a2 _)) by exact Hnot.
    reflexivity.
Qed.

Lemma frame_done_slot_parity_witness :
  exists w' tr,
    sun4i_csi1_frame_done world_streaming = Some (tt, w')
    /\ trace w' = tr
    /\ map fst (buffer_pointer_writes tr)
       = [SUN4I_CSI1_FIFO0_BUFFER_A; SUN4I_CSI1_FIFO1_BUFFER_A;
          SUN4I_CSI1_FIFO2_BUFFER_A]
    /\ array_load (buffers (csi w')) 0 = Some (Some 2%nat).
Proof.
  destruct (frame_done_slot_parity world_streaming world_streaming_wf)
    as [Htotal Hspec].
  destruct (Htotal 0%nat ltac:(vm_compute; reflexivity)) as [w' Hrun].
  destruct (Hspec w' Hrun) as (_ & _ & Hslot & _ & (tr & Htr & Hwrites) & _).
  exists w', tr. split; [exact Hrun|]. split; [exact Htr|].
  split; [exact Hwrites | exact Hslot].
Defined.


(** * Starting the engine *)

Lemma wf_pending_two (w : world) (b0 b1 : nat) (rest : list nat) :
  wf w ->
  buffer_list (csi w) = b0 :: b1 :: rest ->
  exists st0 sq0 ts0 a0 a1 a2 st1 sq1 ts1 c0 c1 c2,
    bufs w !! b0 = Some (mk_buffer st0 sq0 ts0 [a0; a1; a2])
    /\ bufs w !! b1 = Some (mk_buffer st1 sq1 ts1 [c0; c1; c2]).
Proof.
  intros (_ & _ & _ & _ & Hp & _ & Hb) Hpl. rewrite Hpl in Hp.
  apply Forall_cons in Hp as [H0 Hp]. apply Forall_cons in Hp as [H1 _].
  apply lookup_lt_is_Some_2 in H0 as [[st0 sq0 ts0 da0] Hl0].
  apply lookup_lt_is_Some_2 in H1 as [[st1 sq1 ts1 da1] Hl1].
  pose proof (Forall_lookup_1 _ _ _ _ Hb Hl0) as Hlen0.
  pose proof (Forall_lookup_1 _ _ _ _ Hb Hl1) as Hlen1.
  cbn in Hlen0, Hlen1.
  apply length_3 in Hlen0 as (a0 & a1 & a2 & ->).
  apply length_3 in Hlen1 as (c0 & c1 & c2 & ->).
  eauto 20.
Qed.

(** Starting the engine: the counter is reset, the first two pending
    buffers go to slots A and B in that order and their planes into the
    registers of those slots, and the capture bit is set last, all inside
    one locked section. *)
Lemma engine_start_effect (w w' : world) :
  wf w ->
  sun4i_csi1_engine_start w = Some (tt, w') ->
  exists b0 b1 rest vb0 vb1,
    buffer_list (csi w) = b0 :: b1 :: rest
    /\ bufs w !! b0 = Some vb0
    /\ bufs w !! b1 = Some vb1
    /\ csi w' = set_buffers [Some b0; Some b1]
                  (set_buffer_list rest (set_sequence 0 (csi w)))
    /\ bufs w' = bufs w
    /\ kernel w' = kernel w
    /\ map (reg w') (slot_registers 0) = map wrap32 (dma_addr vb0)
    /\ map (reg w') (slot_registers 1) = map wrap32 (dma_addr vb1)
    /\ Z.testbit (reg w' SUN4I_CSI1_CAPTURE) 1 = true
    /\ reg w' SUN4I_CSI1_ENABLE = reg w SUN4I_CSI1_ENABLE
    /\ nodes w' = <[b1 := LIST_SELF]> (<[b0 := LIST_SELF]> (nodes w))
    /\ exists tr,
         trace w' = trace w ++ tr
         /\ Forall (fun e => match e with
                            | EvSpinLock _ | EvSpinUnlock _ | EvWritel _ _ => True
                            | _ => False
                            end) tr.
Proof.
  intros Hwf H.
  pose proof (wf_pending_two w) as Htwo. specialize (fun a b c => Htwo a b c Hwf).
  destruct Hwf as (Hs & Hn & Hv & Hd & Hp & Hsl & Hb).
  destruct w as [c m bl t k nd].
  destruct c as [pw fm pc ps wd ht hs vs hp vp pl sl sq dm mb].
  cbn [csi bufs kernel buffers buffer_list sequence dummy trace mmio] in *.
  apply length_2 in Hs as (s0 & s1 & ->).
  unfold sun4i_csi1_engine_start in H.
  destruct pl as [|b0 [|b1 rest]].
  1,2: eval_in H; discriminate.
  destruct (Htwo b0 b1 rest eq_refl)
    as (st0 & sq0 & ts0 & a0 & a1 & a2 & st1 & sq1 & ts1 & c0 & c1 & c2
        & Hl0 & Hl1).
  eval_in H.
  injection H as <-.
  eexists b0, b1, rest, _, _.
  split; [reflexivity|]; split; [exact Hl0|]; split; [exact Hl1|].
  split; [reflexivity|]; split; [reflexivity|]; split; [reflexivity|].
  unfold reg, slot_registers; cbn [decide mmio map dma_addr].
  rewrite ?decide_True by reflexivity; rewrite ?decide_False by discriminate.
  cbn [map].
  split; [unfold_registers; lookups; reflexivity|].
  split; [unfold_registers; lookups; reflexivity|].
  split;
    [ unfold_registers; lookups; cbn [default from_option id];
      rewrite Z.lor_spec, Z.land_spec; reflexivity |].
  split; [unfold_registers; lookups; reflexivity|].
  split; [reflexivity|].
  eexists; split; [cbn [trace]; rewrite <- ?app_assoc; reflexivity|].
  cbn [app]. repeat (apply Forall_cons_2; [exact I|]).
  apply Forall_nil_2.
Qed.

Lemma engine_start_total (w : world) (b0 b1 : nat) (rest : list nat) :
  wf w ->
  buffer_list (csi w) = b0 :: b1 :: rest ->
  exists w', sun4i_csi1_engine_start w = Some (tt, w').
Proof.
  intros Hwf Hpl.
  destruct (wf_pending_two w b0 b1 rest Hwf Hpl)
    as (st0 & sq0 & ts0 & a0 & a1 & a2 & st1 & sq1 & ts1 & c0 & c1 & c2
        & Hl0 & Hl1).
  destruct Hwf as (Hs & _).
  destruct w as [c m bl t k nd].
  destruct c as [pw fm pc ps wd ht hs vs hp vp pl sl sq dm mb].
  cbn [csi bufs kernel buffers buffer_list sequence dummy trace mmio] in *.
  apply length_2 in Hs as (s0 & s1 & ->). subst pl.
  unfold sun4i_csi1_engine_start. eexists. steps. reflexivity.
Qed.


(** * A streaming session *)

Lemma active_insert_ne (w w' : world) (old x : nat) (vb : sun4i_csi1_buffer) :
  bufs w' = <[old := vb]> (bufs w) -> x ≠ old -> active w x -> active w' x.
Proof.
  intros Hb Hne (v & Hl & Hs). exists v. split; [|exact Hs].
  rewrite Hb, list_lookup_insert_ne by congruence. exact Hl.
Qed.

Lemma wf_length_bufs (w w' : world) (i : nat) (vb vb' : sun4i_csi1_buffer) :
  bufs w' = <[i := vb']> (bufs w) ->
  bufs w !! i = Some vb ->
  dma_addr vb' = dma_addr vb ->
  length (bufs w') = length (bufs w)
  /\ (Forall (fun b => length (dma_addr b) = 3%nat) (bufs w) ->
      Forall (fun b => length (dma_addr b) = 3%nat) (bufs w')).
Proof.
  intros -> Hl Hd. split; [apply length_insert|].
  intros HF. apply Forall_insert; [exact HF|].
  rewrite Hd. apply (Forall_lookup_1 _ _ _ _ HF Hl).
Qed.

Lemma delivered_sequences_app (a b : list event) :
  delivered_sequences (a ++ b) = delivered_sequences a ++ delivered_sequences b.
Proof. apply omap_app. Qed.

Lemma delivered_sequences_program (rs addrs : list Z) :
  delivered_sequences (program_events rs addrs) = [].
Proof.
  revert addrs. induction rs as [|r rs IH]; intros [|a addrs]; try reflexivity.
  apply IH.
Qed.

Lemma lock_held_program (held : bool) (rs addrs : list Z) :
  lock_held held (program_events rs addrs) = held.
Proof.
  revert addrs. induction rs as [|r rs IH]; intros [|a addrs]; try reflexivity.
  apply IH.
Qed.

Ltac nodup :=
  repeat match goal with
         | H : NoDup (_ ++ _) |- _ => apply NoDup_app in H as (? & ? & ?)
         | H : NoDup (_ :: _) |- _ => apply NoDup_cons in H as [? ?]
         | |- NoDup (_ ++ _) => apply NoDup_app; repeat split
         | |- NoDup (_ :: _) => apply NoDup_cons; split
         | |- NoDup [] => apply NoDup_nil_2
         | |- _ /\ _ => split
         end;
  try assumption.

(** Retiring [old] from a slot and refilling the slot from the head of
    the pending list leaves the driver owning what it owned, less [old]. *)
Lemma owned_after_swap (pl : list nat) (s0 s1 : option nat) (index : Z)
    (old : nat) (slots' : list (option nat)) :
  index = 0 \/ index = 1 ->
  array_load [s0; s1] index = Some (Some old) ->
  array_store [s0; s1] index (head pl) = Some slots' ->
  NoDup (pl ++ omap id [s0; s1]) ->
  NoDup (tail pl ++ omap id slots')
  /\ forall x, x ∈ tail pl ++ omap id slots' ->
               x ∈ pl ++ omap id [s0; s1] /\ x ≠ old.
Proof.
  intros [-> | ->] Hslot Hst Hnd; cbn in Hslot, Hst;
    injection Hslot as Hslot; injection Hst as <-;
    destruct pl as [|new rest], s0, s1; cbn in *; try discriminate;
    repeat match goal with
           | H : Some _ = Some _ |- _ => injection H as H
           end; subst.
  all: nodup.
  all: try (intros x; rewrite ?elem_of_app, ?elem_of_cons, ?elem_of_nil).
  all: set_solver.
Qed.

(** A frame-done interrupt keeps the videobuf2 contract and delivers one
    buffer, numbered by the counter as it stood. *)
Lemma frame_done_inv (w w' : world) :
  session_inv w ->
  sun4i_csi1_frame_done w = Some (tt, w') ->
  session_inv w'
  /\ sequence (csi w') = wrap64 (sequence (csi w) + 1)
  /\ exists old before,
       trace w' = trace w ++ before
                  ++ [EvSpinUnlock false; EvKtimeGetNs (ktime_ns (kernel w));
                      EvVb2BufferDone old (wrap32 (sequence (csi w)))
                        (ktime_ns (kernel w)) VB2_BUF_STATE_DONE]
       /\ delivered_sequences before = []
       /\ lock_held false before = true
       /\ array_load (buffers (csi w)) (Z.land (sequence (csi w)) 1)
          = Some (Some old).
Proof.
  intros (Hwf & Hnd & Hact) Hrun.
  destruct (frame_done_effect w w' Hwf Hrun)
    as (old & b & addrs & Hslot & Hb & Hlen & Hk & (slots' & Hst & Hcsi)
        & Hregs & Htr & Hbufs).
  set (index := Z.land (sequence (csi w)) 1) in *.
  assert (Hsl : exists s0 s1, buffers (csi w) = [s0; s1])
    by (apply length_2; destruct Hwf as (Hs & _); exact Hs).
  destruct Hsl as (s0 & s1 & Hsl).
  assert (Hin : old ∈ owned (csi w)).
  { unfold owned. rewrite Hsl. rewrite Hsl in Hslot.
    destruct (land_1_cases (sequence (csi w))) as [Hi|Hi]; fold index in Hi;
      rewrite Hi in Hslot; cbn in Hslot; injection Hslot as Hslot;
      destruct s0, s1; cbn; try discriminate; set_solver. }
  assert (Hstate : vb2_state b = VB2_BUF_STATE_ACTIVE).
  { destruct (proj1 (Forall_forall _ _) Hact old Hin) as (vb & Hl & Hs).
    congruence. }
  rewrite decide_True in Htr by exact Hstate.
  rewrite decide_True in Hbufs by exact Hstate.
  destruct (wf_length_bufs w w' old b _ Hbufs Hb eq_refl) as [Hlenb Hdma].
  assert (Hseq : sequence (csi w') = wrap64 (sequence (csi w) + 1))
    by (rewrite Hcsi; reflexivity).
  assert (Howned : NoDup (owned (csi w'))
                   /\ forall x, x ∈ owned (csi w') -> x ∈ owned (csi w) /\ x ≠ old).
  { unfold owned in *. rewrite Hcsi.
    cbn [buffer_list buffers set_buffers set_buffer_list set_sequence].
    rewrite Hsl in *.
    apply (owned_after_swap _ s0 s1 index old slots');
      [apply land_1_cases | exact Hslot | exact Hst | exact Hnd]. }
  destruct Howned as [Hnd' Hsub].
  split; [|split; [exact Hseq|]].
  - split; [|split; [exact Hnd'|]].
    + destruct Hwf as (Hs & Hn & Hv & Hd & Hp & Hslots & Hbd).
      unfold wf. rewrite Hlenb, Hcsi.
      cbn [buffer_list buffers plane_count dummy set_buffers set_buffer_list
           set_sequence].
      assert (Hl2 : length slots' = 2%nat).
      { unfold array_store in Hst.
        destruct (decide _); [|discriminate]. injection Hst as <-.
        rewrite length_insert. exact Hs. }
      repeat split; try assumption; try lia.
      * apply Forall_tail, Hp.
      * unfold array_store in Hst.
        destruct (decide _); [|discriminate]. injection Hst as <-.
        apply Forall_insert; [exact Hslots|].
        intros x Hx. destruct (buffer_list (csi w)) as [|new rest];
          [discriminate|]. injection Hx as ->.
        apply Forall_cons in Hp as [Hp _]. exact Hp.
      * apply Hdma, Hbd.
    + apply Forall_forall. intros x Hx. destruct (Hsub x Hx) as [Hx' Hne].
      apply (active_insert_ne w w' old x _ Hbufs Hne).
      apply (proj1 (Forall_forall _ _) Hact x Hx').
  - exists old,
      ([EvSpinLock false]
       ++ match buffer_list (csi w) with
          | [] => [EvWritel SUN4I_CSI1_ENABLE
                     (module_disabled (reg w SUN4I_CSI1_ENABLE))]
          | _ :: _ => []
          end
       ++ program_events (slot_registers index) addrs).
    split; [|split; [|split]].
    + rewrite Htr. rewrite <- !app_assoc. reflexivity.
    + rewrite !delivered_sequences_app, delivered_sequences_program.
      destruct (buffer_list (csi w)); reflexivity.
    + rewrite !lock_held_app, lock_held_program.
      destruct (buffer_list (csi w)); reflexivity.
    + exact Hslot.
Qed.

Lemma vb2_core_qbuf_effect (b : nat) (w w' : world) (r : Z) :
  vb2_core_qbuf b w = Some (r, w') ->
  w' = w
  \/ exists vb,
       bufs w !! b = Some vb
       /\ vb2_state vb = VB2_BUF_STATE_DEQUEUED
       /\ csi w' = set_buffer_list (buffer_list (csi w) ++ [b]) (csi w)
       /\ bufs w' = <[b := set_vb2_state VB2_BUF_STATE_ACTIVE vb]> (bufs w)
       /\ trace w' = trace w ++ [EvSpinLock true; EvSpinUnlock true]
       /\ mmio w' = mmio w /\ kernel w' = kernel w.
Proof.
  intros H. destruct w as [c m bl t k nd].
  destruct c as [pw fm pc ps wd ht hs vs hp vp pl sl sq dm mb].
  unfold vb2_core_qbuf, sun4i_csi1_buffer_queue in H.
  destruct (bl !! b) as [vb|] eqn:Hl.
  - destruct (decide (vb2_state vb = VB2_BUF_STATE_DEQUEUED)) as [Hs|Hs].
    + right. exists vb.
      eval_in_with H ltac:(rewrite Hl). injection H as _ <-.
      repeat split; try assumption; try reflexivity.
      cbn [trace]. rewrite <- app_assoc. reflexivity.
    + left. eval_in_with H ltac:(rewrite Hl). injection H as _ <-. reflexivity.
  - left. eval_in_with H ltac:(rewrite Hl). injection H as _ <-. reflexivity.
Qed.

Lemma vb2_core_dqbuf_effect (b : nat) (w w' : world) (r : Z) :
  vb2_core_dqbuf b w = Some (r, w') ->
  w' = w
  \/ exists vb,
       bufs w !! b = Some vb
       /\ vb2_state vb ≠ VB2_BUF_STATE_ACTIVE
       /\ csi w' = csi w
       /\ bufs w' = <[b := set_vb2_state VB2_BUF_STATE_DEQUEUED vb]> (bufs w)
       /\ trace w' = trace w
       /\ mmio w' = mmio w /\ kernel w' = kernel w.
Proof.
  intros H. destruct w as [c m bl t k nd].
  unfold vb2_core_dqbuf in H.
  destruct (bl !! b) as [vb|] eqn:Hl.
  - destruct (decide (vb2_state vb = VB2_BUF_STATE_DONE
                      ∨ vb2_state vb = VB2_BUF_STATE_ERROR)) as [Hs|Hs].
    + right. exists vb.
      eval_in_with H ltac:(rewrite Hl). injection H as _ <-.
      repeat split; try assumption; try reflexivity.
      destruct Hs as [-> | ->]; discriminate.
    + left. eval_in_with H ltac:(rewrite Hl). injection H as _ <-. reflexivity.
  - left. eval_in_with H ltac:(rewrite Hl). injection H as _ <-. reflexivity.
Qed.

Lemma wf_same_shape (w w' : world) :
  wf w ->
  length (bufs w') = length (bufs w) ->
  Forall (fun b => length (dma_addr b) = 3%nat) (bufs w') ->
  buffers (csi w') = buffers (csi w) ->
  plane_count (csi w') = plane_count (csi w) ->
  dummy (csi w') = dummy (csi w) ->
  Forall (fun b => (b < length (bufs w))%nat) (buffer_list (csi w')) ->
  wf w'.
Proof.
  intros (Hs & Hn & Hv & Hd & Hp & Hsl & Hb) Hlen Hdma Hbuf Hpc Hdm Hpl.
  unfold wf. rewrite Hlen, Hbuf, Hpc, Hdm. repeat split; assumption || lia.
Qed.

Lemma vb2_core_qbuf_inv (b : nat) (w w' : world) (r : Z) :
  session_inv w ->
  vb2_core_qbuf b w = Some (r, w') ->
  session_inv w'
  /\ sequence (csi w') = sequence (csi w)
  /\ exists tr, trace w' = trace w ++ tr /\ delivered_sequences tr = [].
Proof.
  intros (Hwf & Hnd & Hact) H.
  destruct (vb2_core_qbuf_effect b w w' r H)
    as [-> | (vb & Hl & Hs & Hcsi & Hbufs & Htr & Hm & Hk)].
  { split; [exact (conj Hwf (conj Hnd Hact))|]. split; [reflexivity|].
    exists []. rewrite app_nil_r. split; reflexivity. }
  destruct (wf_length_bufs w w' b vb _ Hbufs Hl eq_refl) as [Hlen Hdma].
  assert (Hnot : b ∉ owned (csi w)).
  { intros Hin. destruct (proj1 (Forall_forall _ _) Hact b Hin) as (v & Hv & Hst).
    rewrite Hl in Hv. injection Hv as <-. rewrite Hs in Hst. discriminate. }
  assert (Hlt : (b < length (bufs w))%nat)
    by (apply lookup_lt_is_Some_1; eauto).
  split; [|split].
  - split; [|split].
    + apply (wf_same_shape w w' Hwf Hlen); try (rewrite Hcsi; reflexivity).
      * destruct Hwf as (_ & _ & _ & _ & _ & _ & Hb). apply Hdma, Hb.
      * rewrite Hcsi. cbn [buffer_list set_buffer_list].
        destruct Hwf as (_ & _ & _ & _ & Hp & _).
        apply Forall_app. split; [exact Hp|]. apply Forall_singleton, Hlt.
    + unfold owned in *. rewrite Hcsi. cbn [buffer_list buffers set_buffer_list].
      rewrite <- app_assoc.
      apply NoDup_app in Hnd as (Hn1 & Hn2 & Hn3).
      apply NoDup_app. split; [exact Hn1|]. split.
      * intros x Hx. cbn [app]. rewrite elem_of_cons. intros [-> | Hx'].
        -- apply Hnot. apply elem_of_app. left. exact Hx.
        -- revert Hx'. apply Hn2, Hx.
      * cbn [app]. apply NoDup_cons. split; [|exact Hn3].
        intros Hx. apply Hnot. apply elem_of_app. right. exact Hx.
    + unfold owned in *. rewrite Hcsi. cbn [buffer_list buffers set_buffer_list].
      apply Forall_forall. intros x Hx.
      destruct (decide (x = b)) as [-> | Hne].
      * eexists. split; [rewrite Hbufs; apply (list_lookup_insert_eq _ _ _ Hlt)|].
        reflexivity.
      * apply (active_insert_ne w w' b x _ Hbufs Hne).
        apply (proj1 (Forall_forall _ _) Hact x). set_solver.
  - rewrite Hcsi. reflexivity.
  - eexists. split; [exact Htr|reflexivity].
Qed.

Lemma vb2_core_dqbuf_inv (b : nat) (w w' : world) (r : Z) :
  session_inv w ->
  vb2_core_dqbuf b w = Some (r, w') ->
  session_inv w'
  /\ sequence (csi w') = sequence (csi w)
  /\ exists tr, trace w' = trace w ++ tr /\ delivered_sequences tr = [].
Proof.
  intros (Hwf & Hnd & Hact) H.
  destruct (vb2_core_dqbuf_effect b w w' r H)
    as [-> | (vb & Hl & Hs & Hcsi & Hbufs & Htr & Hm & Hk)].
  { split; [exact (conj Hwf (conj Hnd Hact))|]. split; [reflexivity|].
    exists []. rewrite app_nil_r. split; reflexivity. }
  destruct (wf_length_bufs w w' b vb _ Hbufs Hl eq_refl) as [Hlen Hdma].
  assert (Hnot : b ∉ owned (csi w)).
  { intros Hin. destruct (proj1 (Forall_forall _ _) Hact b Hin) as (v & Hv & Hst).
    rewrite Hl in Hv. injection Hv as <-. contradiction. }
  split; [|split].
  - split; [|split].
    + apply (wf_same_shape w w' Hwf Hlen); try (rewrite Hcsi; reflexivity).
      * destruct Hwf as (_ & _ & _ & _ & _ & _ & Hb). apply Hdma, Hb.
      * rewrite Hcsi. destruct Hwf as (_ & _ & _ & _ & Hp & _). exact Hp.
    + rewrite Hcsi. exact Hnd.
    + rewrite Hcsi. apply Forall_forall. intros x Hx.
      apply (active_insert_ne w w' b x _ Hbufs); [congruence|].
      apply (proj1 (Forall_forall _ _) Hact x Hx).
  - rewrite Hcsi. reflexivity.
  - exists []. rewrite app_nil_r. split; [exact Htr|reflexivity].
Qed.

Lemma run_bind_inv {A B} (m : M A) (k : A -> M B) (w : world) (x : B * world) :
  (m ≫= k) w = Some x -> exists a w1, m w = Some (a, w1) /\ k a w1 = Some x.
Proof.
  unfold mbind, M_bind. destruct (m w) as [[a w1]|]; [eauto|discriminate].
Qed.

(** Starting the engine establishes the contract, with the counter at 0. *)
Lemma engine_start_inv (w w' : world) :
  start_inv w ->
  sun4i_csi1_engine_start w = Some (tt, w') ->
  session_inv w' /\ sequence (csi w') = 0.
Proof.
  intros (Hwf & Hnd & Hact) H.
  destruct (engine_start_effect w w' Hwf H)
    as (b0 & b1 & rest & vb0 & vb1 & Hpl & Hl0 & Hl1 & Hcsi & Hbufs & _).
  rewrite Hpl in Hnd, Hact.
  split; [|rewrite Hcsi; reflexivity].
  destruct Hwf as (Hs & Hn & Hv & Hd & Hp & Hsl & Hb). rewrite Hpl in Hp.
  apply Forall_cons in Hp as [Hp0 Hp]. apply Forall_cons in Hp as [Hp1 Hp].
  split; [|split].
  - unfold wf. rewrite Hbufs, Hcsi.
    cbn [buffer_list buffers plane_count dummy set_buffers set_buffer_list
         set_sequence].
    repeat split; try assumption; try lia.
    apply Forall_cons_2; [intros ? [= <-]; exact Hp0|].
    apply Forall_cons_2; [intros ? [= <-]; exact Hp1|]. apply Forall_nil_2.
  - unfold owned. rewrite Hcsi.
    cbn [buffer_list buffers set_buffers set_buffer_list set_sequence omap].
    cbn. nodup; set_solver.
  - unfold owned. rewrite Hcsi.
    cbn [buffer_list buffers set_buffers set_buffer_list set_sequence omap].
    cbn. apply Forall_forall. intros x Hx.
    destruct (proj1 (Forall_forall _ _) Hact x) as (vb & Hl & Hst);
      [set_solver|].
    exists vb. rewrite Hbufs. split; assumption.
Qed.

Lemma land_1_succ (x : Z) : Z.land (wrap64 (x + 1)) 1 = 1 - Z.land x 1.
Proof.
  rewrite !land_1_mod. unfold wrap64.
  change (2 ^ 64) with 18446744073709551616.
  pose proof (Z.div_mod (x + 1) 18446744073709551616 ltac:(lia)) as H1.
  set (r := (x + 1) mod 18446744073709551616) in *.
  pose proof (Z.mod_pos_bound x 2 ltac:(lia)).
  pose proof (Z.mod_pos_bound r 2 ltac:(lia)).
  pose proof (Z.div_mod x 2 ltac:(lia)).
  pose proof (Z.div_mod r 2 ltac:(lia)).
  lia.
Qed.

Lemma wrap64_range (x : Z) : 0 <= wrap64 x < 2 ^ 64.
Proof. unfold wrap64. apply Z.mod_pos_bound. lia. Qed.

Lemma wrap64_add_l (x y : Z) : wrap64 (wrap64 x + y) = wrap64 (x + y).
Proof. unfold wrap64. apply Zplus_mod_idemp_l. Qed.

(** The 32 bit tag of a buffer is cut from the 64 bit counter. *)
Lemma wrap32_wrap64_add (x y : Z) : wrap32 (wrap64 x + y) = wrap32 (x + y).
Proof.
  unfold wrap32, wrap64.
  change (2 ^ 64) with 18446744073709551616.
  change (2 ^ 32) with 4294967296.
  pose proof (Z.div_mod x 18446744073709551616 ltac:(lia)) as H.
  set (q := x / 18446744073709551616) in *.
  set (r := x mod 18446744073709551616) in *.
  replace (r + y) with (x + y + (- q * 4294967296) * 4294967296) by lia.
  apply Z.mod_add. lia.
Qed.

Lemma frames_cons_frame (evs : list session_event) :
  frames (FrameComplete :: evs) = S (frames evs).
Proof. reflexivity. Qed.

(** The videobuf2 calls of a session always return. *)
Lemma vb2_core_qbuf_total (b : nat) (w : world) :
  exists r w', vb2_core_qbuf b w = Some (r, w').
Proof.
  destruct w as [c m bl t k nd].
  destruct c as [pw fm pc ps wd ht hs vs hp vp pl sl sq dm mb].
  unfold vb2_core_qbuf, sun4i_csi1_buffer_queue.
  destruct (bl !! b) as [vb|] eqn:Hl.
  - destruct (decide (vb2_state vb = VB2_BUF_STATE_DEQUEUED)) as [Hs|Hs];
      eexists _, _; steps_with ltac:(rewrite Hl); reflexivity.
  - eexists _, _; steps_with ltac:(rewrite Hl); reflexivity.
Qed.

Lemma vb2_core_dqbuf_total (b : nat) (w : world) :
  exists r w', vb2_core_dqbuf b w = Some (r, w').
Proof.
  destruct w as [c m bl t k nd].
  unfold vb2_core_dqbuf.
  destruct (bl !! b) as [vb|] eqn:Hl.
  - destruct (decide (vb2_state vb = VB2_BUF_STATE_DONE
                      ∨ vb2_state vb = VB2_BUF_STATE_ERROR)) as [Hs|Hs];
      eexists _, _; steps_with ltac:(rewrite Hl); reflexivity.
  - eexists _, _; steps_with ltac:(rewrite Hl); reflexivity.
Qed.

Lemma slot_cases (w : world) :
  wf w ->
  exists s, array_load (buffers (csi w)) (Z.land (sequence (csi w)) 1) = Some s.
Proof.
  intros (Hs & _). apply length_2 in Hs as (s0 & s1 & ->).
  destruct (land_1_cases (sequence (csi w))) as [-> | ->]; eauto.
Qed.

(** Through a session the contract holds, the counter counts the frames,
    and the buffers delivered carry the low 32 bits of the counter values
    in order.  The session returns unless a frame completes while the slot
    it retires holds no buffer. *)
Lemma session_delivers (evs : list session_event) :
  forall w,
    session_inv w ->
    0 <= sequence (csi w) < 2 ^ 64 ->
    (exists w' tr,
       session evs w = Some (tt, w')
       /\ session_inv w'
       /\ sequence (csi w')
          = wrap64 (sequence (csi w) + Z.of_nat (frames evs))
       /\ trace w' = trace w ++ tr
       /\ delivered_sequences tr
          = map (fun i => wrap32 (sequence (csi w) + Z.of_nat i))
              (seq 0 (frames evs)))
    \/ (exists pre post wm,
          evs = pre ++ FrameComplete :: post
          /\ session pre w = Some (tt, wm)
          /\ array_load (buffers (csi wm)) (Z.land (sequence (csi wm)) 1)
             = Some None
          /\ session evs w = None).
Proof.
  induction evs as [|e evs IH]; intros w Hinv Hrange.
  - left. exists w, []. split; [reflexivity|]. split; [exact Hinv|].
    split; [|split; [rewrite app_nil_r; reflexivity | reflexivity]].
    cbn [frames List.filter length]. rewrite Z.add_0_r.
    unfold wrap64. rewrite Z.mod_small by exact Hrange. reflexivity.
  - destruct e as [b|b|]; cbn [session].
    + destruct (vb2_core_qbuf_total b w) as (r & w1 & Hop).
      destruct (vb2_core_qbuf_inv b w w1 r Hinv Hop)
        as (Hinv1 & Hseq1 & tr1 & Htr1 & Hdel1).
      change (frames (Enqueue b :: evs)) with (frames evs).
      rewrite (run_bind_eq _ _ _ _ _ Hop).
      destruct (IH w1 Hinv1 ltac:(rewrite Hseq1; exact Hrange))
        as [(w' & tr & Hrun & Hinv' & Hseq' & Htr & Hdel)
           | (pre & post & wm & -> & Hpre & Hslot & Hnone)].
      * left. exists w', (tr1 ++ tr). rewrite Hseq1 in Hseq', Hdel.
        split; [exact Hrun|]. split; [exact Hinv'|]. split; [exact Hseq'|].
        split; [rewrite Htr, Htr1, app_assoc; reflexivity|].
        rewrite delivered_sequences_app, Hdel1, Hdel. reflexivity.
      * right. exists (Enqueue b :: pre), post, wm.
        split; [reflexivity|]. split; [|split; [exact Hslot | exact Hnone]].
        cbn [session]. rewrite (run_bind_eq _ _ _ _ _ Hop). exact Hpre.
    + destruct (vb2_core_dqbuf_total b w) as (r & w1 & Hop).
      destruct (vb2_core_dqbuf_inv b w w1 r Hinv Hop)
        as (Hinv1 & Hseq1 & tr1 & Htr1 & Hdel1).
      change (frames (Dequeue b :: evs)) with (frames evs).
      rewrite (run_bind_eq _ _ _ _ _ Hop).
      destruct (IH w1 Hinv1 ltac:(rewrite Hseq1; exact Hrange))
        as [(w' & tr & Hrun & Hinv' & Hseq' & Htr & Hdel)
           | (pre & post & wm & -> & Hpre & Hslot & Hnone)].
      * left. exists w', (tr1 ++ tr). rewrite Hseq1 in Hseq', Hdel.
        split; [exact Hrun|]. split; [exact Hinv'|]. split; [exact Hseq'|].
        split; [rewrite Htr, Htr1, app_assoc; reflexivity|].
        rewrite delivered_sequences_app, Hdel1, Hdel. reflexivity.
      * right. exists (Dequeue b :: pre), post, wm.
        split; [reflexivity|]. split; [|split; [exact Hslot | exact Hnone]].
        cbn [session]. rewrite (run_bind_eq _ _ _ _ _ Hop). exact Hpre.
    + destruct (slot_cases w (proj1 Hinv)) as [[old|] Hslot].
      2: { right. exists [], evs, w. split; [reflexivity|].
           split; [reflexivity|]. split; [exact Hslot|].
           apply run_bind_None.
           destruct (sun4i_csi1_frame_done w) as [[[] w1]|] eqn:Hop;
             [|reflexivity].
           destruct (frame_done_effect w w1 (proj1 Hinv) Hop)
             as (o & _ & _ & Ho & _).
           rewrite Hslot in Ho. discriminate. }
      destruct (frame_done_total w old (proj1 Hinv) Hslot) as [w1 Hop].
      destruct (frame_done_inv w w1 Hinv Hop)
        as (Hinv1 & Hseq1 & old' & before & Htr1 & Hdel1 & _).
      rewrite (run_bind_eq _ _ _ _ _ Hop). rewrite frames_cons_frame.
      destruct (IH w1 Hinv1 ltac:(rewrite Hseq1; apply wrap64_range))
        as [(w' & tr & Hrun & Hinv' & Hseq' & Htr & Hdel)
           | (pre & post & wm & -> & Hpre & Hslot' & Hnone)].
      * left. eexists w', _. rewrite Hseq1 in Hseq', Hdel.
        split; [exact Hrun|]. split; [exact Hinv'|].
        split.
        { rewrite Hseq', wrap64_add_l. f_equal. lia. }
        split; [rewrite Htr, Htr1, <- !app_assoc; reflexivity|].
        rewrite !delivered_sequences_app, Hdel1, Hdel.
        cbn [delivered_sequences omap list_omap app seq map].
        rewrite Z.add_0_r. f_equal.
        rewrite <- seq_shift, map_map. apply map_ext. intros i.
        rewrite wrap32_wrap64_add. f_equal. lia.
      * right. exists (FrameComplete :: pre), post, wm.
        split; [reflexivity|]. split; [|split; [exact Hslot' | exact Hnone]].
        cbn [session]. rewrite (run_bind_eq _ _ _ _ _ Hop). exact Hpre.
Qed.

(** C5 (amended).  Take a streaming session: the engine started on at
    least two distinct active buffers, then any sequence of enqueues,
    dequeues and frame-done interrupts.  Starting returns and resets the
    counter to 0.  The session returns unless a frame completes while the
    slot it retires holds no buffer; when it returns, the k-th buffer
    delivered (k = 0, 1, 2, ...) carries the number k modulo 2^32, the
    sequence field being 32 bits wide, and the 64 bit counter has counted
    the frames.  So the numbers are 0, 1, 2, ... without gap, and strictly
    increasing, through the first 2^32 frames of a session.  Every
    frame-done interrupt on a slot that holds a buffer returns, raises the
    counter by exactly one, and tags the buffer it retires with the
    counter as it was before the increment and with a timestamp read
    after the lock was released. *)
Theorem session_sequence_numbers (w0 : world) (evs : list session_event) :
  start_inv w0 ->
  (2 <= length (buffer_list (csi w0)))%nat ->
  exists w1,
    sun4i_csi1_engine_start w0 = Some (tt, w1)
    /\ sequence (csi w1) = 0
    /\ ((exists w2 tr,
           session evs w1 = Some (tt, w2)
           /\ trace w2 = trace w1 ++ tr
           /\ sequence (csi w2) = wrap64 (Z.of_nat (frames evs))
           /\ delivered_sequences tr
              = map (fun k => wrap32 (Z.of_nat k)) (seq 0 (frames evs))
           /\ (Z.of_nat (frames evs) <= 2 ^ 32 ->
               delivered_sequences tr = map Z.of_nat (seq 0 (frames evs))))
        \/ (exists pre post wm,
              evs = pre ++ FrameComplete :: post
              /\ session pre w1 = Some (tt, wm)
              /\ array_load (buffers (csi wm)) (Z.land (sequence (csi wm)) 1)
                 = Some None
              /\ session evs w1 = None))
    /\ (forall w old,
          session_inv w ->
          array_load (buffers (csi w)) (Z.land (sequence (csi w)) 1)
          = Some (Some old) ->
          exists w' before,
            sun4i_csi1_frame_done w = Some (tt, w')
            /\ sequence (csi w') = wrap64 (sequence (csi w) + 1)
            /\ trace w' = trace w ++ before
                          ++ [EvSpinUnlock false;
                              EvKtimeGetNs (ktime_ns (kernel w));
                              EvVb2BufferDone old (wrap32 (sequence (csi w)))
                                (ktime_ns (kernel w)) VB2_BUF_STATE_DONE]
            /\ delivered_sequences before = []
            /\ lock_held false before = true).
Proof.
  intros Hstart Hlen. pose proof Hstart as (Hwf & _).
  destruct (buffer_list (csi w0)) as [|b0 [|b1 rest]] eqn:Hpl;
    [cbn in Hlen; lia | cbn in Hlen; lia |].
  destruct (engine_start_total w0 b0 b1 rest Hwf Hpl) as [w1 Hengine].
  destruct (engine_start_inv w0 w1 Hstart Hengine) as [Hinv Hzero].
  exists w1. split; [exact Hengine|]. split; [exact Hzero|]. split.
  - destruct (session_delivers evs w1 Hinv ltac:(rewrite Hzero; lia))
      as [(w2 & tr & Hrun & _ & Hseq & Htr & Hdel) | Hstop];
      [left | right; exact Hstop].
    rewrite Hzero in Hseq, Hdel. cbn [Z.add] in Hseq.
    exists w2, tr. split; [exact Hrun|]. split; [exact Htr|].
    split; [exact Hseq|]. split; [exact Hdel|].
    intros Hframes. rewrite Hdel. apply map_ext_in. intros k Hk.
    apply in_seq in Hk. apply wrap32_id.
    change (2 ^ 32) with 4294967296 in *. lia.
  - intros w old Hi Hslot.
    destruct (frame_done_total w old (proj1 Hi) Hslot) as [w' Hrun].
    destruct (frame_done_inv w w' Hi Hrun)
      as (_ & Hs & old' & before & Htr & Hdel & Hlock & Hslot').
    assert (old' = old) by congruence. subst old'.
    exists w', before. split; [exact Hrun|]. split; [exact Hs|].
    split; [exact Htr|]. split; [exact Hdel | exact Hlock].
Qed.

Lemma start_invb_start_inv (w : world) : start_invb w = true -> start_inv w.
Proof.
  unfold start_invb, start_inv. rewrite !andb_true_iff.
  intros [[Hwf Hnd] Hact]. split; [apply wfb_wf, Hwf|]. split.
  - apply bool_decide_eq_true in Hnd. exact Hnd.
  - rewrite forallb_forall in Hact. apply Forall_forall. intros b Hb.
    apply list_elem_of_In in Hb. specialize (Hact b Hb).
    unfold activeb in Hact. unfold active.
    destruct (bufs w !! b) as [vb|]; [|discriminate].
    exists vb. split; [reflexivity|].
    apply bool_decide_eq_true in Hact. exact Hact.
Qed.

Lemma session_sequence_numbers_witness :
  exists w1 w2 tr,
    sun4i_csi1_engine_start world_queued = Some (tt, w1)
    /\ session [FrameComplete; Dequeue 0; Enqueue 0; FrameComplete;
                FrameComplete] w1 = Some (tt, w2)
    /\ trace w2 = trace w1 ++ tr
    /\ delivered_sequences tr = [0; 1; 2].
Proof.
  destruct (session_sequence_numbers world_queued
              [FrameComplete; Dequeue 0; Enqueue 0; FrameComplete;
               FrameComplete])
    as (w1 & Hengine & _ & Hsession & _).
  - apply start_invb_start_inv. vm_compute. reflexivity.
  - vm_compute. lia.
  - destruct Hsession
      as [(w2 & tr & Hrun & Htr & _ & _ & Hdel) | (_ & _ & _ & _ & _ & _ & Hnone)].
    + exists w1, w2, tr. split; [exact Hengine|]. split; [exact Hrun|].
      split; [exact Htr|]. apply Hdel. vm_compute. discriminate.
    + exfalso. vm_compute in Hengine. injection Hengine as <-.
      vm_compute in Hnone. discriminate.
Defined.

(** The consumer takes back a buffer that was delivered, and queues a
    buffer it holds. *)
Lemma vb2_core_dqbuf_done (b : nat) (w : world) (vb : sun4i_csi1_buffer) :
  bufs w !! b = Some vb ->
  vb2_state vb = VB2_BUF_STATE_DONE ->
  vb2_core_dqbuf b w
  = Some (0, with_bufs
               (<[b := set_vb2_state VB2_BUF_STATE_DEQUEUED vb]> (bufs w)) w).
Proof.
  destruct w as [c m bl t k nd]. cbn [bufs]. intros Hl Hs.
  unfold vb2_core_dqbuf. rewrite run_bind_gets. cbn [bufs]. rewrite Hl.
  rewrite decide_True by (left; exact Hs).
  steps_with ltac:(rewrite Hl). reflexivity.
Qed.

Lemma vb2_core_qbuf_dequeued (b : nat) (w : world) (vb : sun4i_csi1_buffer) :
  bufs w !! b = Some vb ->
  vb2_state vb = VB2_BUF_STATE_DEQUEUED ->
  vb2_core_qbuf b w
  = Some (0, with_trace (trace w ++ [EvSpinLock true; EvSpinUnlock true])
               (with_csi
                  (set_buffer_list (buffer_list (csi w) ++ [b]) (csi w))
                  (with_bufs
                     (<[b := set_vb2_state VB2_BUF_STATE_ACTIVE vb]> (bufs w))
                     w))).
Proof.
  destruct w as [c m bl t k nd].
  destruct c as [pw fm pc ps wd ht hs vs hp vp pl sl sq dm mb].
  cbn [bufs]. intros Hl Hs.
  unfold vb2_core_qbuf, sun4i_csi1_buffer_queue.
  rewrite run_bind_gets. cbn [bufs]. rewrite Hl.
  rewrite decide_True by exact Hs.
  steps_with ltac:(rewrite Hl). wnorm. rewrite <- !app_assoc. reflexivity.
Qed.

Lemma slot_owned (w : world) (index : Z) (a : nat) :
  array_load (buffers (csi w)) index = Some (Some a) -> a ∈ owned (csi w).
Proof.
  unfold array_load, owned. destruct (decide (0 <= index)); [|discriminate].
  intros Hl. apply elem_of_app. right.
  apply list_elem_of_omap. exists (Some a). split; [|reflexivity].
  apply (list_elem_of_lookup_2 _ _ _ Hl).
Qed.

(** A consumer that keeps up is never starved: every round returns, and
    the buffers delivered carry the low 32 bits of the counter. *)
Lemma keeping_up_runs (n : nat) :
  forall (w : world) (a b c : nat),
    session_inv w ->
    0 <= sequence (csi w) < 2 ^ 64 ->
    array_load (buffers (csi w)) (Z.land (sequence (csi w)) 1)
    = Some (Some a) ->
    array_load (buffers (csi w)) (1 - Z.land (sequence (csi w)) 1)
    = Some (Some b) ->
    buffer_list (csi w) = [c] ->
    exists w' tr,
      session (keeping_up n a b c) w = Some (tt, w')
      /\ trace w' = trace w ++ tr
      /\ delivered_sequences tr
         = map (fun i => wrap32 (sequence (csi w) + Z.of_nat i)) (seq 0 n).
Proof.
  induction n as [|n IH]; intros w a b c Hinv Hrange Ha Hb Hc.
  - exists w, []. split; [reflexivity|].
    split; [rewrite app_nil_r; reflexivity | reflexivity].
  - cbn [keeping_up app session].
    destruct (frame_done_total w a (proj1 Hinv) Ha) as [w1 Hfd].
    destruct (frame_done_inv w w1 Hinv Hfd)
      as (Hinv1 & Hseq1 & old & before & Htr1 & Hdel1 & _ & Hold).
    assert (old = a) by congruence. subst old.
    destruct (frame_done_effect w w1 (proj1 Hinv) Hfd)
      as (old & vb & addrs & Hslot & Hvb & _ & _ & (slots' & Hst & Hcsi1)
          & _ & _ & Hbufs1).
    assert (old = a) by congruence. subst old.
    assert (Hact : vb2_state vb = VB2_BUF_STATE_ACTIVE).
    { destruct Hinv as (_ & _ & Hall).
      destruct (proj1 (Forall_forall _ _) Hall a (slot_owned w _ a Ha))
        as (vb' & Hl & Hs).
      congruence. }
    rewrite decide_True in Hbufs1 by exact Hact.
    assert (Hl1 : bufs w1 !! a
                  = Some (mk_buffer VB2_BUF_STATE_DONE
                            (wrap32 (sequence (csi w)))
                            (ktime_ns (kernel w)) (dma_addr vb))).
    { rewrite Hbufs1. apply list_lookup_insert_eq.
      apply (lookup_lt_Some _ _ _ Hvb). }
    pose proof (vb2_core_dqbuf_done a w1 _ Hl1 eq_refl) as Hdq.
    match type of Hdq with _ = Some (_, ?x) => set (w2 := x) in * end.
    destruct (vb2_core_dqbuf_inv a w1 w2 0 Hinv1 Hdq)
      as (Hinv2 & _ & tr2 & Htr2 & Hdel2).
    assert (Hl2 : bufs w2 !! a
                  = Some (set_vb2_state VB2_BUF_STATE_DEQUEUED
                            (mk_buffer VB2_BUF_STATE_DONE
                               (wrap32 (sequence (csi w)))
                               (ktime_ns (kernel w)) (dma_addr vb)))).
    { unfold w2. cbn [bufs with_bufs]. apply list_lookup_insert_eq.
      apply (lookup_lt_Some _ _ _ Hl1). }
    pose proof (vb2_core_qbuf_dequeued a w2 _ Hl2 eq_refl) as Hq.
    match type of Hq with _ = Some (_, ?x) => set (w3 := x) in * end.
    destruct (vb2_core_qbuf_inv a w2 w3 0 Hinv2 Hq)
      as (Hinv3 & _ & tr3 & Htr3 & Hdel3).
    assert (Hcsi3 : csi w3
                    = set_buffer_list [a]
                        (set_buffers slots'
                           (set_sequence (wrap64 (sequence (csi w) + 1))
                              (csi w)))).
    { unfold w3, w2. cbn [csi with_trace with_csi with_bufs].
      rewrite Hcsi1, Hc. destruct (csi w). reflexivity. }
    assert (Hseq3 : sequence (csi w3) = wrap64 (sequence (csi w) + 1))
      by (rewrite Hcsi3; reflexivity).
    assert (Hslots3 : buffers (csi w3) = slots')
      by (rewrite Hcsi3; reflexivity).
    rewrite Hc in Hst. cbn [head] in Hst.
    destruct (IH w3 b c a Hinv3) as (w' & tr & Hrun & Htr & Hdel).
    + rewrite Hseq3. apply wrap64_range.
    + rewrite Hslots3, Hseq3, land_1_succ.
      rewrite (array_load_store_ne _ _ _ _ _ Hst); [exact Hb|].
      destruct (land_1_cases (sequence (csi w))) as [-> | ->]; lia.
    + rewrite Hslots3, Hseq3, land_1_succ.
      replace (1 - (1 - Z.land (sequence (csi w)) 1))
        with (Z.land (sequence (csi w)) 1) by lia.
      apply (array_load_store_eq _ _ _ _ Hst).
    + rewrite Hcsi3. reflexivity.
    + rewrite (run_bind_eq _ _ _ _ _ Hfd).
      rewrite (run_bind_eq _ _ _ _ _ Hdq).
      rewrite (run_bind_eq _ _ _ _ _ Hq).
      eexists w', _. split; [exact Hrun|]. split.
      { rewrite Htr, Htr3, Htr2, Htr1, <- !app_assoc. reflexivity. }
      rewrite !delivered_sequences_app, Hdel1, Hdel2, Hdel3, Hdel, Hseq3.
      cbn [delivered_sequences omap list_omap app seq map].
      rewrite Z.add_0_r. f_equal.
      rewrite <- seq_shift, map_map. apply map_ext. intros i.
      rewrite wrap32_wrap64_add. f_equal. lia.
Qed.

(** The engine started on the three queued buffers, and the consumer
    keeping up for [n] frames: the buffers delivered carry the frame
    numbers modulo 2^32. *)
Lemma keeping_up_from_start (n : nat) :
  exists w1 w2 tr,
    sun4i_csi1_engine_start world_queued = Some (tt, w1)
    /\ session (keeping_up n 0 1 2) w1 = Some (tt, w2)
    /\ trace w2 = trace w1 ++ tr
    /\ forall i, (i < n)%nat ->
         delivered_sequences tr !! i = Some (wrap32 (Z.of_nat i)).
Proof.
  assert (Hstart : start_inv world_queued)
    by (apply start_invb_start_inv; vm_compute; reflexivity).
  assert (Hpl : buffer_list (csi world_queued) = [0; 1; 2]%nat)
    by (vm_compute; reflexivity).
  destruct (engine_start_total world_queued _ _ _ (proj1 Hstart) Hpl)
    as [w1 Hengine].
  destruct (engine_start_inv world_queued w1 Hstart Hengine) as [Hinv Hzero].
  destruct (engine_start_effect world_queued w1 (proj1 Hstart) Hengine)
    as (b0 & b1 & rest & _ & _ & Hpl' & _ & _ & Hcsi & _).
  rewrite Hpl in Hpl'. injection Hpl' as <- <- <-.
  assert (Hslots : buffers (csi w1) = [Some 0%nat; Some 1%nat])
    by (rewrite Hcsi; reflexivity).
  assert (Hlist : buffer_list (csi w1) = [2%nat])
    by (rewrite Hcsi; reflexivity).
  destruct (keeping_up_runs n w1 0%nat 1%nat 2%nat Hinv)
    as (w2 & tr & Hrun & Htr & Hdel).
  - rewrite Hzero. split; [lia | reflexivity].
  - rewrite Hslots, Hzero. reflexivity.
  - rewrite Hslots, Hzero. reflexivity.
  - exact Hlist.
  - exists w1, w2, tr. split; [exact Hengine|]. split; [exact Hrun|].
    split; [exact Htr|]. intros i Hi. rewrite Hdel, Hzero.
    change (map ?f ?l) with (f <$> l). rewrite list_lookup_fmap.
    rewrite lookup_seq_lt by exact Hi. reflexivity.
Qed.

(** C5, as the specification states it, fails in a long session.  The
    engine is started on the three queued buffers and the consumer keeps
    up for 2^32 + 1 = 4294967297 frames: the buffer delivered after the
    one numbered 4294967295 is numbered 0 again, so the numbers are not
    strictly increasing. *)
Lemma session_sequence_numbers_wrap :
  exists w1 w2 tr,
    sun4i_csi1_engine_start world_queued = Some (tt, w1)
    /\ session (keeping_up (Z.to_nat 4294967297) 0 1 2) w1 = Some (tt, w2)
    /\ trace w2 = trace w1 ++ tr
    /\ delivered_sequences tr !! Z.to_nat 4294967295 = Some 4294967295
    /\ delivered_sequences tr !! Z.to_nat 4294967296 = Some 0.
Proof.
  destruct (keeping_up_from_start (Z.to_nat 4294967297))
    as (w1 & w2 & tr & Hengine & Hrun & Htr & Hdel).
  exists w1, w2, tr. split; [exact Hengine|]. split; [exact Hrun|].
  split; [exact Htr|]. split.
  - rewrite Hdel by lia. rewrite Z2Nat.id by discriminate. reflexivity.
  - rewrite Hdel by lia. rewrite Z2Nat.id by discriminate. reflexivity.
Qed.


(** * start_streaming *)

Lemma registers_print_eq (w : world) :
  sun4i_registers_print w = Some (tt, with_trace (trace w ++ print_events) w).
Proof.
  destruct w as [c m b t k nd]. unfold sun4i_registers_print.
  cbn [for_fold_from]. steps. cbn [with_trace trace csi mmio bufs kernel].
  rewrite <- !app_assoc. reflexivity.
Qed.

Lemma wf_ext (w w' : world) :
  wf w ->
  bufs w' = bufs w ->
  buffers (csi w') = buffers (csi w) ->
  buffer_list (csi w') = buffer_list (csi w) ->
  plane_count (csi w') = plane_count (csi w) ->
  dummy (csi w') = dummy (csi w) ->
  wf w'.
Proof.
  intros Hwf Hb Hs Hp Hn Hd. unfold wf in *.
  rewrite Hb, Hs, Hp, Hn, Hd. exact Hwf.
Qed.

(** Powering up returns 0 only when every step succeeded. *)
Lemma poweron_zero (w w1 : world) :
  sun4i_csi1_poweron w = Some (0, w1) ->
  forall s, s ∈ power_sequence -> step_ret (kernel w) s = 0.
Proof.
  intros Hon.
  assert (Hcase : forall n s,
            power_sequence !! n = Some s ->
            (forall s', s' ∈ take n power_sequence -> step_ret (kernel w) s' = 0) ->
            step_ret (kernel w) s = 0).
  { intros n s Hs Hok.
    destruct (decide (step_ret (kernel w) s = 0)) as [|Hne]; [assumption|].
    rewrite (sun4i_csi1_poweron_unwind w n s Hs Hok Hne) in Hon.
    injection Hon as Hret _. contradiction. }
  pose proof (Hcase 0%nat StepReset eq_refl) as H0.
  pose proof (Hcase 1%nat StepBus eq_refl) as H1.
  pose proof (Hcase 2%nat StepRam eq_refl) as H2.
  pose proof (Hcase 3%nat StepModule eq_refl) as H3.
  cbn [take power_sequence] in H0, H1, H2, H3.
  assert (E0 := H0 ltac:(set_solver)).
  assert (E1 := H1 ltac:(set_solver)).
  assert (E2 := H2 ltac:(set_solver)).
  assert (E3 := H3 ltac:(set_solver)).
  intros s Hs. unfold power_sequence in Hs.
  repeat (apply elem_of_cons in Hs as [-> | Hs]; [assumption|]).
  apply elem_of_nil in Hs as [].
Qed.

(** The world in which the engine is started, once power is up. *)
Lemma streaming_start_split (w w' : world) (ret : Z) :
  sun4i_csi1_streaming_start w = Some (ret, w') ->
  (ret ≠ 0 /\ sun4i_csi1_poweron w = Some (ret, w'))
  \/ (ret = 0
      /\ (forall s, s ∈ power_sequence -> step_ret (kernel w) s = 0)
      /\ exists w1 w2 stored,
           Z.testbit stored 0 = true
           /\ w1 = with_trace (trace w
                               ++ concat (map (step_events (kernel w))
                                            power_sequence)
                               ++ [EvSpinLock true;
                                   EvWritel SUN4I_CSI1_ENABLE stored;
                                   EvSpinUnlock true]
                               ++ print_events)
                     (with_csi (set_powered true (csi w))
                        (with_mmio (<[SUN4I_CSI1_ENABLE := stored]> (mmio w)) w))
           /\ sun4i_csi1_engine_start w1 = Some (tt, w2)
           /\ w' = with_trace (trace w2 ++ print_events) w2).
Proof.
  intros H. unfold sun4i_csi1_streaming_start in H.
  apply run_bind_inv in H as (r & w0 & Hon & H).
  destruct (decide (r = 0)) as [-> | Hne].
  - right.
    pose proof (poweron_zero w w0 Hon) as Hok.
    rewrite (sun4i_csi1_poweron_ok w Hok) in Hon. injection Hon as <-.
    apply run_bind_inv in H as ([] & wa & Ha & H).
    apply run_bind_inv in H as ([] & wb & Hb & H).
    apply run_bind_inv in H as ([] & wc & Hc & H).
    apply run_bind_inv in H as ([] & wd & Hd & H).
    injection H as <- <-.
    injection Ha as <-.
    rewrite registers_print_eq in Hb, Hd. injection Hb as <-. injection Hd as <-.
    split; [reflexivity|]. split; [exact Hok|].
    eexists _, wc,
      (Z.lor (Z.land (wrap32 1) (wrap32 1))
         (Z.land (reg w SUN4I_CSI1_ENABLE) (not32 (wrap32 1)))).
    split; [|split; [reflexivity|split; [|reflexivity]]].
    + rewrite Z.lor_spec, Z.land_spec. reflexivity.
    + rewrite <- Hc. f_equal.
      destruct w as [c m b t k nd]. cbn. rewrite <- !app_assoc. reflexivity.
  - left. injection H as <- <-. split; [exact Hne | exact Hon].
Qed.

(** A failed power-up changes neither the driver state nor a register. *)
Lemma poweron_nonzero (w w' : world) (ret : Z) :
  sun4i_csi1_poweron w = Some (ret, w') ->
  ret ≠ 0 ->
  csi w' = csi w /\ mmio w' = mmio w /\ bufs w' = bufs w.
Proof.
  intros Hon Hret.
  assert (Hcase : forall n s,
            power_sequence !! n = Some s ->
            (forall s', s' ∈ take n power_sequence -> step_ret (kernel w) s' = 0) ->
            step_ret (kernel w) s ≠ 0 ->
            csi w' = csi w /\ mmio w' = mmio w /\ bufs w' = bufs w).
  { intros n s Hs Hok Hne.
    rewrite (sun4i_csi1_poweron_unwind w n s Hs Hok Hne) in Hon.
    injection Hon as _ <-. repeat split. }
  destruct (decide (step_ret (kernel w) StepReset = 0)) as [E0|E0];
    [|apply (Hcase 0%nat StepReset eq_refl); [set_solver|exact E0]].
  destruct (decide (step_ret (kernel w) StepBus = 0)) as [E1|E1];
    [|apply (Hcase 1%nat StepBus eq_refl); [|exact E1];
      cbn; intros s' Hs'; apply list_elem_of_singleton in Hs' as ->; exact E0].
  destruct (decide (step_ret (kernel w) StepRam = 0)) as [E2|E2].
  2: { apply (Hcase 2%nat StepRam eq_refl); [|exact E2].
       cbn. intros s' Hs'.
       repeat (apply elem_of_cons in Hs' as [-> | Hs']; [assumption|]).
       apply elem_of_nil in Hs' as []. }
  destruct (decide (step_ret (kernel w) StepModule = 0)) as [E3|E3].
  2: { apply (Hcase 3%nat StepModule eq_refl); [|exact E3].
       cbn. intros s' Hs'.
       repeat (apply elem_of_cons in Hs' as [-> | Hs']; [assumption|]).
       apply elem_of_nil in Hs' as []. }
  rewrite sun4i_csi1_poweron_ok in Hon.
  - injection Hon as Hz _. congruence.
  - intros s Hs. unfold power_sequence in Hs.
    repeat (apply elem_of_cons in Hs as [-> | Hs]; [assumption|]).
    apply elem_of_nil in Hs as [].
Qed.

Lemma streaming_start_total (w : world) (b0 b1 : nat) (rest : list nat) :
  wf w ->
  buffer_list (csi w) = b0 :: b1 :: rest ->
  (forall s, s ∈ power_sequence -> step_ret (kernel w) s = 0) ->
  exists w', sun4i_csi1_streaming_start w = Some (0, w').
Proof.
  intros Hwf Hpl Hok. unfold sun4i_csi1_streaming_start.
  rewrite (run_bind_eq _ _ _ _ _ (sun4i_csi1_poweron_ok w Hok)).
  rewrite decide_True by reflexivity.
  rewrite run_bind_modify_csi.
  rewrite (run_bind_eq _ _ _ _ _ (registers_print_eq _)).
  match goal with
  | |- exists w', (sun4i_csi1_engine_start ≫= _) ?w1 = _ =>
      destruct (engine_start_total w1 b0 b1 rest) as [w2 Hstart];
        [apply (wf_ext w _ Hwf); reflexivity | exact Hpl |]
  end.
  rewrite (run_bind_eq _ _ _ _ _ Hstart).
  rewrite (run_bind_eq _ _ _ _ _ (registers_print_eq _)).
  eexists. reflexivity.
Qed.

(** C8.  [start_streaming] needs three queued buffers: with fewer it
    fails with InsufficientBuffers and the world is untouched, and any
    other failure leaves the driver state as it was.  When it succeeds the
    first queued buffer is in slot A and the second in slot B, their
    planes are in the registers of those slots, the rest of the queue,
    which is not empty, stays pending in order, and capture is on.  With
    three buffers queued and working clocks it does succeed. *)
Theorem start_streaming_needs_three (w : world) :
  wf w ->
  min_buffers_needed (csi w) = 3 ->
  ((length (buffer_list (csi w)) < 3)%nat ->
   start_streaming w = Some (Some InsufficientBuffers, w))
  /\ (forall err w',
        start_streaming w = Some (Some err, w') ->
        csi w' = csi w /\ mmio w' = mmio w /\ bufs w' = bufs w)
  /\ (forall w',
        start_streaming w = Some (None, w') ->
        exists b0 b1 rest vb0 vb1,
          buffer_list (csi w) = b0 :: b1 :: rest
          /\ rest ≠ []
          /\ bufs w !! b0 = Some vb0
          /\ bufs w !! b1 = Some vb1
          /\ buffers (csi w') = [Some b0; Some b1]
          /\ buffer_list (csi w') = rest
          /\ powered (csi w') = true
          /\ sequence (csi w') = 0
          /\ map (reg w') (slot_registers 0) = map wrap32 (dma_addr vb0)
          /\ map (reg w') (slot_registers 1) = map wrap32 (dma_addr vb1)
          /\ Z.testbit (reg w' SUN4I_CSI1_CAPTURE) 1 = true)
  /\ ((3 <= length (buffer_list (csi w)))%nat ->
      (forall s, s ∈ power_sequence -> step_ret (kernel w) s = 0) ->
      exists w', start_streaming w = Some (None, w')).
Proof.
  intros Hwf Hmin. unfold start_streaming. rewrite run_bind_gets, Hmin.
  split; [|split; [|split]].
  - intros Hlt. rewrite decide_True by lia. reflexivity.
  - intros err w' H.
    destruct (decide (Z.of_nat (length (buffer_list (csi w))) < 3)) as [Hlt|Hge].
    + injection H as _ <-. repeat split.
    + apply run_bind_inv in H as (ret & w1 & Hstart & H).
      destruct (decide (ret = 0)) as [-> | Hne]; [discriminate|].
      injection H as _ <-.
      destruct (streaming_start_split w w1 ret Hstart) as [[_ Hon] | [Hz _]];
        [|contradiction].
      apply (poweron_nonzero w w1 ret Hon Hne).
  - intros w' H.
    destruct (decide (Z.of_nat (length (buffer_list (csi w))) < 3)) as [Hlt|Hge];
      [discriminate|].
    apply run_bind_inv in H as (ret & w1 & Hstart & H).
    destruct (decide (ret = 0)) as [-> | Hne]; [|discriminate].
    injection H as <-.
    destruct (streaming_start_split w w1 0 Hstart)
      as [[Hne _] | (_ & Hok & wa & wb & stored & Hbit & -> & Hengine & ->)];
      [contradiction|].
    match type of Hengine with
    | sun4i_csi1_engine_start ?wa = _ =>
        assert (Hwfa : wf wa) by (apply (wf_ext w _ Hwf); reflexivity);
        destruct (engine_start_effect wa wb Hwfa Hengine)
          as (b0 & b1 & rest & vb0 & vb1 & Hpl & Hl0 & Hl1 & Hcsi & Hbufs & Hk
              & Hr0 & Hr1 & Hcap & _)
    end.
    cbn [csi with_trace with_csi with_mmio buffer_list set_powered bufs] in Hpl,
      Hl0, Hl1.
    exists b0, b1, rest, vb0, vb1.
    split; [exact Hpl|]. split.
    { intros ->. rewrite Hpl in Hge. cbn in Hge. lia. }
    split; [exact Hl0|]. split; [exact Hl1|].
    cbn [csi with_trace]. rewrite Hcsi.
    repeat split; try assumption.
  - intros Hlen Hok. rewrite decide_False by lia.
    destruct (buffer_list (csi w)) as [|b0 [|b1 rest]] eqn:Hpl;
      [cbn in Hlen; lia | cbn in Hlen; lia |].
    destruct (streaming_start_total w b0 b1 rest Hwf Hpl Hok) as [w' Hstart].
    exists w'. rewrite (run_bind_eq _ _ _ _ _ Hstart).
    rewrite decide_True by reflexivity. reflexivity.
Qed.

Lemma world_queued_wf : wf world_queued.
Proof. wf_solve. Qed.

Lemma start_streaming_needs_three_witness :
  exists w',
    start_streaming world_queued = Some (None, w')
    /\ buffers (csi w') = [Some 0%nat; Some 1%nat]
    /\ buffer_list (csi w') = [2%nat]
  /\ start_streaming (with_csi (set_buffer_list [0; 1]%nat (csi world_queued))
                        world_queued)
     = Some (Some InsufficientBuffers,
             with_csi (set_buffer_list [0; 1]%nat (csi world_queued))
               world_queued).
Proof.
  destruct (start_streaming_needs_three world_queued world_queued_wf eq_refl)
    as (_ & _ & Hok & Htotal).
  destruct Htotal as [w' Hrun].
  - vm_compute. lia.
  - intros s Hs. destruct s; reflexivity.
  - exists w'. split; [exact Hrun|].
    destruct (Hok w' Hrun)
      as (b0 & b1 & rest & vb0 & vb1 & Hpl & _ & _ & _ & Hslots & Hrest & _).
    vm_compute in Hpl. injection Hpl as <- <- <-.
    split; [exact Hslots|]. split; [exact Hrest|].
    vm_compute. reflexivity.
Defined.

(** * Stopping *)

Lemma engine_stop_eq (w : world) :
  sun4i_csi1_engine_stop w
  = Some (tt,
          with_trace (trace w ++ [EvSpinLock true;
                                  EvWritel SUN4I_CSI1_CAPTURE (wrap32 0);
                                  EvSpinUnlock true])
            (with_mmio (<[SUN4I_CSI1_CAPTURE := wrap32 0]> (mmio w)) w)).
Proof.
  destruct w as [c m b t k nd]. unfold sun4i_csi1_engine_stop. steps.
  wnorm. rewrite <- !app_assoc. reflexivity.
Qed.

Lemma filter_ne_not_elem (b : nat) (l : list nat) :
  b ∉ l -> filter (fun x => x ≠ b) l = l.
Proof.
  induction l as [|a l IH]; intros Hn; [reflexivity|].
  apply not_elem_of_cons in Hn as [Hne Hn].
  rewrite filter_cons_True by congruence. rewrite IH by exact Hn. reflexivity.
Qed.

(** [list_del] on a node it can unlink, and on one it cannot. *)
Lemma list_del_eq (w : world) (b : nat) :
  unlinkable w b ->
  list_del b w
  = Some (tt,
          with_nodes (<[b := LIST_POISON]> (nodes w))
            (with_csi
               (set_buffer_list
                  (filter (fun x => x ≠ b) (buffer_list (csi w))) (csi w))
               w)).
Proof.
  intros Hu. unfold list_del. rewrite !run_bind_gets.
  destruct (decide (b ∈ buffer_list (csi w))) as [Hin|Hout]; [reflexivity|].
  destruct Hu as [Hin | Hself]; [contradiction|].
  rewrite Hself. rewrite (filter_ne_not_elem b _ Hout).
  destruct w as [c m bl t k nd].
  destruct c as [pw fmt pc ps wd ht hs vs hp vp pl sl sq dm mn]. reflexivity.
Qed.

Lemma list_del_fault (w : world) (b : nat) :
  ~ unlinkable w b -> list_del b w = None.
Proof.
  intros Hu. unfold list_del. rewrite !run_bind_gets.
  destruct (decide (b ∈ buffer_list (csi w))) as [Hin|Hout];
    [exfalso; apply Hu; left; exact Hin|].
  destruct (node w b) eqn:Hn; [reflexivity| |reflexivity].
  exfalso. apply Hu. right. exact Hn.
Qed.

Lemma unlinkable_dec (w : world) (b : nat) :
  unlinkable w b \/ ~ unlinkable w b.
Proof.
  unfold unlinkable.
  destruct (decide (b ∈ buffer_list (csi w))) as [Hin|Hout]; [left; left; exact Hin|].
  destruct (decide (node w b = LIST_SELF)) as [Hs|Hs]; [left; right; exact Hs|].
  right. intros [H | H]; contradiction.
Qed.

(** One turn of the loop, on the buffer that follows [pre] in the queue. *)
Lemma buffers_mark_done_turn_eq (pre suf : list sun4i_csi1_buffer)
    (b : sun4i_csi1_buffer) (c : sun4i_csi1) m t k nd :
  unlinkable (mk_world c m (pre ++ b :: suf) t k nd) (length pre) ->
  buffers_mark_done_turn (Z.of_nat (length pre)) tt
    (mk_world c m (pre ++ b :: suf) t k nd)
  = Some (tt,
          mk_world
            (set_buffer_list
               (filter (fun x => x ≠ length pre) (buffer_list c)) c)
            m (pre ++ mark_done b :: suf)
            (t ++ mark_done_events (length pre) b) k
            (<[length pre := LIST_POISON]> nd)).
Proof.
  intros Hu.
  assert (Hl : (pre ++ b :: suf) !! length pre = Some b)
    by (apply list_lookup_middle; reflexivity).
  assert (Hi : forall x, <[length pre := x]> (pre ++ b :: suf) = pre ++ x :: suf).
  { intros x. rewrite insert_app_r_alt, Nat.sub_diag by lia. reflexivity. }
  unfold buffers_mark_done_turn. rewrite Nat2Z.id.
  unfold spin_lock_irqsave at 1. rewrite run_bind_emit.
  match goal with
  | |- (list_del _ ≫= _) ?w1 = _ =>
      rewrite (run_bind_eq _ _ _ _ _ (list_del_eq w1 (length pre) Hu))
  end.
  unfold mark_done, mark_done_events.
  destruct c as [pw fmt pc ps wd ht hs vs hp vp pl sl sq dm mn].
  destruct b as [st sq' ts da].
  destruct (decide (vb2_state (mk_buffer st sq' ts da) = VB2_BUF_STATE_ACTIVE))
    as [Ha|Ha]; cbn [vb2_state] in Ha.
  - subst st. steps. wnorm. rewrite Hi. rewrite <- !app_assoc. reflexivity.
  - steps. wnorm. rewrite <- !app_assoc. reflexivity.
Qed.

Lemma buffers_mark_done_turn_fault (w : world) (i : nat) :
  ~ unlinkable w i -> buffers_mark_done_turn (Z.of_nat i) tt w = None.
Proof.
  intros Hu. unfold buffers_mark_done_turn. rewrite Nat2Z.id.
  unfold spin_lock_irqsave at 1. rewrite run_bind_emit.
  apply run_bind_None. apply list_del_fault. exact Hu.
Qed.

(** A turn of the loop leaves the other buffers as easy or as hard to
    unlink as they were. *)
Lemma unlinkable_after_turn (c : sun4i_csi1) m bs bs' t t' k nd (i j : nat) :
  j ≠ i ->
  unlinkable
    (mk_world (set_buffer_list (filter (fun x => x ≠ i) (buffer_list c)) c)
       m bs' t' k (<[i := LIST_POISON]> nd)) j
  <-> unlinkable (mk_world c m bs t k nd) j.
Proof.
  intros Hne. unfold unlinkable, node.
  destruct c as [pw fmt pc ps wd ht hs vs hp vp pl sl sq dm mn].
  cbn [csi nodes buffer_list set_buffer_list].
  rewrite list_elem_of_filter, lookup_insert_ne by congruence. tauto.
Qed.

(** The loop over the rest [suf] of the queue, when every buffer of it
    can be unlinked: each buffer is marked and its node poisoned, and what
    stays on the pending list was there and is not one of them. *)
Lemma buffers_mark_done_loop (suf : list sun4i_csi1_buffer) :
  forall (pre : list sun4i_csi1_buffer) (c : sun4i_csi1) m t k nd,
    (forall j, (length pre <= j < length pre + length suf)%nat ->
               unlinkable (mk_world c m (pre ++ suf) t k nd) j) ->
    exists pending,
      for_fold_from (Z.of_nat (length pre)) (length suf)
        buffers_mark_done_turn tt (mk_world c m (pre ++ suf) t k nd)
      = Some (tt,
              mk_world (set_buffer_list pending c) m
                (pre ++ map mark_done suf)
                (t ++ mark_done_trace (length pre) suf) k
                (poison_from (length pre) (length suf) nd))
      /\ (forall x, x ∈ pending ->
            x ∈ buffer_list c
            /\ (x < length pre \/ length pre + length suf <= x)%nat).
Proof.
  induction suf as [|b suf IH]; intros pre c m t k nd Hu.
  - exists (buffer_list c). split.
    + cbn. rewrite !app_nil_r. destruct c; reflexivity.
    + intros x Hx. split; [exact Hx|]. cbn. lia.
  - cbn [for_fold_from length map mark_done_trace poison_from].
    assert (Hu0 : unlinkable (mk_world c m (pre ++ b :: suf) t k nd) (length pre))
      by (apply Hu; cbn [length]; lia).
    rewrite (run_bind_eq _ _ _ _ _
               (buffers_mark_done_turn_eq pre suf b c m t k nd Hu0)).
    destruct (IH (pre ++ [mark_done b])
                (set_buffer_list
                   (filter (fun x => x ≠ length pre) (buffer_list c)) c)
                m (t ++ mark_done_events (length pre) b) k
                (<[length pre := LIST_POISON]> nd))
      as (pending & Hrun & Hp).
    { intros j Hj. rewrite length_app in Hj. cbn [length] in Hj.
      apply (unlinkable_after_turn c m (pre ++ b :: suf) _ t _ k nd);
        [lia|].
      apply Hu. cbn [length]. lia. }
    exists pending. split.
    + rewrite length_app in Hrun. cbn [length] in Hrun.
      rewrite Nat2Z.inj_add in Hrun. change (Z.of_nat 1) with 1 in Hrun.
      rewrite <- !app_assoc in Hrun. cbn [app] in Hrun. rewrite Hrun.
      rewrite Nat.add_1_r. destruct c; reflexivity.
    + intros x Hx. destruct (Hp x Hx) as [Hin Hr].
      destruct c as [pw fmt pc ps wd ht hs vs hp vp pl sl sq dm mn].
      cbn [buffer_list set_buffer_list] in Hin |- *.
      apply list_elem_of_filter in Hin as [Hne Hin]. split; [exact Hin|].
      rewrite length_app in Hr. cbn [length] in Hr |- *. lia.
Qed.

(** The loop when some buffer of [suf] cannot be unlinked: [list_del]
    dereferences an invalid pointer at the first such buffer. *)
Lemma buffers_mark_done_loop_fault (suf : list sun4i_csi1_buffer) :
  forall (pre : list sun4i_csi1_buffer) (c : sun4i_csi1) m t k nd (j : nat),
    (length pre <= j < length pre + length suf)%nat ->
    ~ unlinkable (mk_world c m (pre ++ suf) t k nd) j ->
    for_fold_from (Z.of_nat (length pre)) (length suf)
      buffers_mark_done_turn tt (mk_world c m (pre ++ suf) t k nd)
    = None.
Proof.
  induction suf as [|b suf IH]; intros pre c m t k nd j Hj Hu;
    [cbn [length] in Hj; lia|].
  cbn [for_fold_from length].
  destruct (unlinkable_dec (mk_world c m (pre ++ b :: suf) t k nd) (length pre))
    as [Hu0|Hu0].
  - rewrite (run_bind_eq _ _ _ _ _
               (buffers_mark_done_turn_eq pre suf b c m t k nd Hu0)).
    assert (Hne : j ≠ length pre) by (intros ->; contradiction).
    pose proof (IH (pre ++ [mark_done b])
                  (set_buffer_list
                     (filter (fun x => x ≠ length pre) (buffer_list c)) c)
                  m (t ++ mark_done_events (length pre) b) k
                  (<[length pre := LIST_POISON]> nd) j) as Hrun.
    rewrite length_app in Hrun. cbn [length] in Hrun, Hj.
    rewrite Nat2Z.inj_add in Hrun. change (Z.of_nat 1) with 1 in Hrun.
    rewrite <- !app_assoc in Hrun. cbn [app] in Hrun. apply Hrun; [lia|].
    intros Hx. apply Hu.
    apply (unlinkable_after_turn c m (pre ++ b :: suf) _ t _ k nd _ j Hne) in Hx.
    exact Hx.
  - apply run_bind_None. apply buffers_mark_done_turn_fault. exact Hu0.
Qed.

Lemma buffers_mark_done_eq (w : world) :
  Forall (fun b => (b < length (bufs w))%nat) (buffer_list (csi w)) ->
  queue_unlinkable w ->
  sun4i_csi1_buffers_mark_done w
  = Some (tt,
          with_trace (trace w ++ mark_done_trace 0 (bufs w))
            (with_bufs (map mark_done (bufs w))
               (with_nodes (poison_from 0 (length (bufs w)) (nodes w))
                  (with_csi (set_buffer_list [] (csi w)) w)))).
Proof.
  destruct w as [c m b t k nd]. cbn [bufs csi]. intros Hin Hu.
  unfold sun4i_csi1_buffers_mark_done. rewrite run_bind_gets.
  unfold for_fold. cbn [bufs]. rewrite Nat2Z.id.
  destruct (buffers_mark_done_loop b [] c m t k nd) as (pending & Hrun & Hp).
  { intros j Hj. apply Hu. cbn [length bufs app] in *. lia. }
  cbn [length app] in Hrun, Hp. change (Z.of_nat 0) with 0 in Hrun.
  rewrite Hrun. destruct pending as [|x pending]; [reflexivity|].
  destruct (Hp x ltac:(left)) as [Hx Hr].
  rewrite Forall_forall in Hin. specialize (Hin x Hx). lia.
Qed.

Lemma buffers_mark_done_fault (w : world) :
  ~ queue_unlinkable w -> sun4i_csi1_buffers_mark_done w = None.
Proof.
  intros Hu.
  assert (Hj : exists j, (j < length (bufs w))%nat /\ ~ unlinkable w j).
  { destruct (decide (Forall (fun j => unlinkableb w j = true)
                        (seq 0 (length (bufs w))))) as [Hall|Hnot].
    - exfalso. apply Hu. intros j Hlt.
      rewrite Forall_forall in Hall.
      assert (Hjin : j ∈ seq 0 (length (bufs w))) by (apply elem_of_seq; lia).
      specialize (Hall j Hjin). unfold unlinkableb in Hall.
      apply orb_prop in Hall as [Hall|Hall].
      + left. exact (bool_decide_eq_true_1 _ Hall).
      + right. exact (bool_decide_eq_true_1 _ Hall).
    - apply not_Forall_Exists in Hnot; [|intros x; apply _].
      apply Exists_exists in Hnot as (j & Hjin & Hjn).
      apply elem_of_seq in Hjin. exists j. split; [lia|].
      intros [Hm | Hs]; apply Hjn; unfold unlinkableb.
      + rewrite (bool_decide_eq_true_2 _ Hm). reflexivity.
      + rewrite (bool_decide_eq_true_2 _ Hs). apply orb_true_r. }
  destruct Hj as (j & Hlt & Hjn).
  destruct w as [c m b t k nd]. cbn [bufs] in Hlt.
  unfold sun4i_csi1_buffers_mark_done. rewrite run_bind_gets.
  unfold for_fold. cbn [bufs]. rewrite Nat2Z.id.
  apply (buffers_mark_done_loop_fault b [] c m t k nd j);
    [cbn [length]; lia | exact Hjn].
Qed.

Lemma buffer_list_clear_empty (w : world) :
  buffer_list (csi w) = [] ->
  sun4i_csi1_buffer_list_clear w
  = Some (tt, with_trace (trace w ++ [EvSpinLock true; EvSpinUnlock true]) w).
Proof.
  destruct w as [c m b t k nd].
  destruct c as [pw fmt pc ps wd ht hs vs hp vp pl sl sq dm mn].
  cbn [csi buffer_list]. intros ->.
  unfold sun4i_csi1_buffer_list_clear. steps.
  cbn [length buffer_list_clear_loop].
  steps_with ltac:(progress cbn [head tail]).
  wnorm. rewrite <- !app_assoc. reflexivity.
Qed.

Lemma queue_unlinkable_ext (w w' : world) :
  length (bufs w') = length (bufs w) ->
  buffer_list (csi w') = buffer_list (csi w) ->
  nodes w' = nodes w ->
  queue_unlinkable w' <-> queue_unlinkable w.
Proof.
  intros Hb Hp Hn. unfold queue_unlinkable, unlinkable, node.
  rewrite Hb, Hp, Hn. reflexivity.
Qed.

Lemma queue_unlinkableb_queue_unlinkable (w : world) :
  queue_unlinkableb w = true -> queue_unlinkable w.
Proof.
  unfold queue_unlinkableb. intros Hall b Hlt.
  rewrite forallb_forall in Hall.
  specialize (Hall b ltac:(apply in_seq; lia)). unfold unlinkableb in Hall.
  apply orb_prop in Hall as [Hall|Hall].
  - left. exact (bool_decide_eq_true_1 _ Hall).
  - right. exact (bool_decide_eq_true_1 _ Hall).
Qed.


(** The events stopping adds to the trace of [w], when every buffer of
    the queue can be unlinked. *)
Lemma streaming_stop_eq (w : world) :
  wf w ->
  queue_unlinkable w ->
  sun4i_csi1_streaming_stop w
  = Some (tt,
          let stored := module_disabled (reg w SUN4I_CSI1_ENABLE) in
          with_trace
            (trace w
             ++ [EvSpinLock true; EvWritel SUN4I_CSI1_CAPTURE (wrap32 0);
                 EvSpinUnlock true]
             ++ print_events
             ++ mark_done_trace 0 (bufs w)
             ++ [EvSpinLock true; EvSpinUnlock true]
             ++ [EvSpinLock true; EvWritel SUN4I_CSI1_ENABLE stored;
                 EvSpinUnlock true]
             ++ map step_undo (rev power_sequence))
            (with_bufs (map mark_done (bufs w))
               (with_nodes (poison_from 0 (length (bufs w)) (nodes w))
                  (with_csi (set_powered false (set_buffer_list [] (csi w)))
                     (with_mmio
                        (<[SUN4I_CSI1_ENABLE := stored]>
                           (<[SUN4I_CSI1_CAPTURE := wrap32 0]> (mmio w)))
                        w))))).
Proof.
  intros (_ & _ & _ & _ & Hin & _) Hu. unfold sun4i_csi1_streaming_stop.
  rewrite (run_bind_eq _ _ _ _ _ (engine_stop_eq w)).
  rewrite (run_bind_eq _ _ _ _ _ (registers_print_eq _)).
  match goal with
  | |- (_ ≫= _) ?w1 = _ =>
      assert (Hu1 : queue_unlinkable w1)
        by (apply (queue_unlinkable_ext w w1); [reflexivity..|exact Hu]);
      rewrite (run_bind_eq _ _ _ _ _ (buffers_mark_done_eq w1 Hin Hu1))
  end.
  match goal with
  | |- (_ ≫= _) ?w1 = _ =>
      rewrite (run_bind_eq _ _ _ _ _ (buffer_list_clear_empty w1 eq_refl))
  end.
  rewrite (run_bind_eq _ _ _ _ _ (sun4i_csi1_poweroff_eq _)).
  rewrite run_modify_csi.
  destruct w as [c m b t k nd].
  destruct c as [pw fmt pc ps wd ht hs vs hp vp pl sl sq dm mn].
  unfold reg. cbn. rewrite lookup_insert_ne by (vm_compute; discriminate).
  rewrite <- !app_assoc. reflexivity.
Qed.

(** Stopping when some buffer of the queue cannot be unlinked. *)
Lemma streaming_stop_fault (w : world) :
  ~ queue_unlinkable w -> sun4i_csi1_streaming_stop w = None.
Proof.
  intros Hu. unfold sun4i_csi1_streaming_stop.
  rewrite (run_bind_eq _ _ _ _ _ (engine_stop_eq w)).
  rewrite (run_bind_eq _ _ _ _ _ (registers_print_eq _)).
  apply run_bind_None. apply buffers_mark_done_fault.
  intros H. apply Hu. revert H. apply queue_unlinkable_ext; reflexivity.
Qed.

Lemma failed_buffers_app (tr1 tr2 : list event) :
  failed_buffers (tr1 ++ tr2) = failed_buffers tr1 ++ failed_buffers tr2.
Proof. apply omap_app. Qed.

Lemma power_events_app (tr1 tr2 : list event) :
  power_events (tr1 ++ tr2) = power_events tr1 ++ power_events tr2.
Proof. apply List.filter_app. Qed.

Lemma dma_frees_app (tr1 tr2 : list event) :
  dma_frees (tr1 ++ tr2) = dma_frees tr1 ++ dma_frees tr2.
Proof. apply List.filter_app. Qed.

Lemma mark_done_trace_quiet (queue : list sun4i_csi1_buffer) :
  forall i,
    power_events (mark_done_trace i queue) = []
    /\ dma_frees (mark_done_trace i queue) = [].
Proof.
  induction queue as [|b queue IH]; intros i; [split; reflexivity|].
  cbn [mark_done_trace]. rewrite power_events_app, dma_frees_app.
  destruct (IH (S i)) as [-> ->]. unfold mark_done_events.
  destruct (decide (vb2_state b = VB2_BUF_STATE_ACTIVE)); split; reflexivity.
Qed.

(** The loop reports the active buffers of the queue, each once, in the
    order of the queue. *)
Lemma mark_done_trace_failed (w : world) (suf : list sun4i_csi1_buffer) :
  forall pre,
    bufs w = pre ++ suf ->
    failed_buffers (mark_done_trace (length pre) suf)
    = List.filter (activeb w) (seq (length pre) (length suf)).
Proof.
  induction suf as [|b suf IH]; intros pre Hb; [reflexivity|].
  cbn [mark_done_trace length seq List.filter].
  rewrite failed_buffers_app.
  assert (Hl : bufs w !! length pre = Some b)
    by (rewrite Hb; apply list_lookup_middle; reflexivity).
  specialize (IH (pre ++ [b])). rewrite length_app, Nat.add_1_r in IH.
  rewrite IH by (rewrite <- app_assoc; exact Hb).
  unfold activeb at 2. rewrite Hl. unfold mark_done_events.
  destruct (decide (vb2_state b = VB2_BUF_STATE_ACTIVE)) as [Ha|Ha].
  - rewrite (bool_decide_eq_true_2 _ Ha). reflexivity.
  - rewrite (bool_decide_eq_false_2 _ Ha). reflexivity.
Qed.

Lemma active_activeb (w : world) (b : nat) :
  active w b <-> activeb w b = true.
Proof.
  unfold active, activeb. split.
  - intros (vb & -> & Ha). exact (bool_decide_eq_true_2 _ Ha).
  - destruct (bufs w !! b) as [vb|]; [|discriminate].
    intros Ha. exists vb. split; [reflexivity|].
    exact (bool_decide_eq_true_1 _ Ha).
Qed.





(** * Format negotiation *)

Lemma wrap32_wrap32 (x : Z) : wrap32 (wrap32 x) = wrap32 x.
Proof. unfold wrap32. apply Z.mod_mod. lia. Qed.

(** The plane loop ends, with [false] exactly when one of the planes it
    looks at departs from what the driver tracks. *)
Lemma format_test_planes_spec (c : sun4i_csi1) (new : v4l2_format)
    (count : nat) :
  forall start,
    0 <= start ->
    (Z.to_nat start + count <= length (plane_fmt new))%nat ->
    (format_test_planes c new start count = Some false
     /\ exists i q, start <= i < start + Z.of_nat count
          /\ plane_fmt new !! Z.to_nat i = Some q
          /\ (wrap32 (width c) ≠ bytesperline q \/ plane_size c ≠ sizeimage q))
    \/ (format_test_planes c new start count = Some true
        /\ forall i q, start <= i < start + Z.of_nat count ->
             plane_fmt new !! Z.to_nat i = Some q ->
             wrap32 (width c) = bytesperline q /\ plane_size c = sizeimage q).
Proof.
  induction count as [|count IH]; intros start Hs Hlen.
  - right. split; [reflexivity|]. intros i q Hi. lia.
  - cbn [format_test_planes]. unfold array_load.
    rewrite decide_True by exact Hs.
    destruct (lookup_lt_is_Some_2 (plane_fmt new) (Z.to_nat start)
                ltac:(lia)) as [q Hq].
    rewrite Hq. cbn [mbind option_bind].
    destruct (decide (wrap32 (width c) ≠ bytesperline q
                      ∨ plane_size c ≠ sizeimage q)) as [Hd|Hd].
    + left. split; [reflexivity|]. exists start, q.
      split; [lia|]. split; [exact Hq | exact Hd].
    + destruct (IH (start + 1) ltac:(lia) ltac:(lia))
        as [(Hf & i & q' & Hi & Hq' & Hd') | (Ht & Hall)].
      * left. split; [exact Hf|]. exists i, q'.
        split; [lia|]. split; [exact Hq' | exact Hd'].
      * right. split; [exact Ht|]. intros i q' Hi Hq'.
        destruct (decide (i = start)) as [-> | Hne].
        -- rewrite Hq in Hq'. injection Hq' as <-. lia.
        -- apply (Hall i q'); [lia | exact Hq'].
Qed.

(** [sun4i_csi1_format_initialize] leaves the stored format and the
    tracked sizes in agreement. *)
Lemma format_initialize_consistent (width height : Z) (hp vp : bool)
    (c : sun4i_csi1) :
  format_consistent (sun4i_csi1_format_initialize width height hp vp c).
Proof.
  unfold format_consistent, sun4i_csi1_format_initialize.
  cbn [csi_v4l2_format plane_fmt pix_width pix_height num_planes plane_count
       plane_size].
  split; [reflexivity|]. split; [reflexivity|]. split; [reflexivity|].
  split; [reflexivity|]. split; [unfold VIDEO_MAX_PLANES; lia|].
  intros i p Hi Hp.
  assert (Hcases : i = 0 \/ i = 1 \/ i = 2) by lia.
  destruct Hcases as [-> | [-> | ->]]; cbn in Hp; injection Hp as <-;
    cbn [bytesperline sizeimage]; rewrite wrap32_wrap32; split; reflexivity.
Qed.

Lemma csi_probed_consistent : format_consistent csi_probed.
Proof.
  unfold csi_probed, sun4i_csi1_v4l2_initialize.
  pose proof (format_initialize_consistent 1920 1080 false false csi_zero) as H.
  exact H.
Qed.

(** C9.  When the stored format and the sizes the driver tracks agree, as
    they do from [sun4i_csi1_format_initialize] on, a requested format that
    departs from the stored one in type, width, height, plane count,
    bytes per line or size of a plane in use, pixel format, field,
    colorspace, quantization or transfer function makes
    [sun4i_csi1_ioctl_format_set] return [-EINVAL] and leaves the whole
    world as it was; a request that departs in none of them is answered
    with [0], the world unchanged as well. *)
Theorem format_set_rejects_mismatch (w : world) (new : v4l2_format) :
  format_consistent (csi w) ->
  length (plane_fmt new) = Z.to_nat VIDEO_MAX_PLANES ->
  (format_differs (csi_v4l2_format (csi w)) new ->
   sun4i_csi1_ioctl_format_set new w = Some (- EINVAL, w))
  /\ (~ format_differs (csi_v4l2_format (csi w)) new ->
      sun4i_csi1_ioctl_format_set new w = Some (0, w)).
Proof.
  intros (Hlen & Hw & Hh & Hn & Hpc & Hplanes) Hnew.
  unfold sun4i_csi1_ioctl_format_set, sun4i_csi1_format_test.
  rewrite run_bind_gets. unfold VIDEO_MAX_PLANES in *.
  set (c := csi w) in *. set (old := csi_v4l2_format c) in *.
  destruct (decide (fmt_type old ≠ fmt_type new)) as [Ht|Ht].
  { split; [reflexivity|]. intros Hsame. exfalso. apply Hsame. left. exact Ht. }
  destruct (decide (wrap32 (width c) ≠ pix_width new
                    ∨ wrap32 (height c) ≠ pix_height new
                    ∨ plane_count c ≠ num_planes new)) as [Hs|Hs].
  { split; [reflexivity|]. intros Hsame. exfalso. apply Hsame.
    rewrite <- Hw, <- Hh, <- Hn in Hs. unfold format_differs. tauto. }
  destruct (format_test_planes_spec c new (Z.to_nat (plane_count c)) 0
              ltac:(lia) ltac:(lia))
    as [(Hrun & i & q & Hi & Hq & Hd) | (Hrun & Hall)]; rewrite Hrun.
  { rewrite run_bind_deref. cbn [negb]. split; [reflexivity|].
    intros Hsame. exfalso. apply Hsame.
    destruct (lookup_lt_is_Some_2 (plane_fmt old) (Z.to_nat i) ltac:(lia))
      as [p Hp].
    destruct (Hplanes i p ltac:(lia) Hp) as [Hb Hsz].
    right. right. right. right. left. exists i, p, q.
    split; [lia|]. split; [exact Hp|]. split; [exact Hq|].
    rewrite Hb, Hsz. exact Hd. }
  rewrite run_bind_deref. cbn [negb].
  destruct (decide (pixelformat old ≠ pixelformat new
                    ∨ field old ≠ field new
                    ∨ colorspace old ≠ colorspace new
                    ∨ quantization old ≠ quantization new
                    ∨ xfer_func old ≠ xfer_func new)) as [Hr|Hr].
  { split; [reflexivity|]. intros Hsame. exfalso. apply Hsame.
    unfold format_differs. tauto. }
  split; [|reflexivity].
  intros [Hd | [Hd | [Hd | [Hd | [(i & p & q & Hi & Hp & Hq & Hd) | Hd]]]]];
    exfalso.
  - apply Ht, Hd.
  - apply Hs. left. rewrite <- Hw. exact Hd.
  - apply Hs. right. left. rewrite <- Hh. exact Hd.
  - apply Hs. right. right. rewrite <- Hn. exact Hd.
  - destruct (Hplanes i p ltac:(lia) Hp) as [Hb Hsz].
    destruct (Hall i q ltac:(lia) Hq) as [Hb' Hsz'].
    rewrite Hb, Hsz in Hd. tauto.
  - apply Hr. tauto.
Qed.

Lemma format_differs_irrefl (f : v4l2_format) : ~ format_differs f f.
Proof.
  intros [H | [H | [H | [H | [(i & p & q & _ & Hp & Hq & H) | H]]]]].
  1-4: apply H; reflexivity.
  - rewrite Hp in Hq. injection Hq as <-. tauto.
  - tauto.
Qed.

Lemma format_set_rejects_mismatch_witness :
  let stored := csi_v4l2_format csi_probed in
  let narrow :=
    mk_format (fmt_type stored) 1280 (pix_height stored) (pixelformat stored)
      (field stored) (colorspace stored) (plane_fmt stored)
      (num_planes stored) (ycbcr_enc stored) (quantization stored)
      (xfer_func stored) in
  sun4i_csi1_ioctl_format_set narrow world_probed
  = Some (- EINVAL, world_probed)
  /\ sun4i_csi1_ioctl_format_set stored world_probed = Some (0, world_probed).
Proof.
  intros stored narrow. split.
  - apply (format_set_rejects_mismatch world_probed narrow
             csi_probed_consistent eq_refl).
    right. left. vm_compute. discriminate.
  - apply (format_set_rejects_mismatch world_probed stored
             csi_probed_consistent eq_refl).
    apply format_differs_irrefl.
Defined.

(** * Register fields *)

Lemma wrap32_bits (x i : Z) :
  0 <= i -> Z.testbit (wrap32 x) i = (i <? 32) && Z.testbit x i.
Proof.
  intros Hi. unfold wrap32. destruct (Z.ltb_spec i 32).
  - rewrite Z.mod_pow2_bits_low by lia. reflexivity.
  - rewrite Z.mod_pow2_bits_high by lia. reflexivity.
Qed.

Lemma not32_bits (x i : Z) :
  0 <= i -> Z.testbit (not32 x) i = (i <? 32) && negb (Z.testbit x i).
Proof.
  intros Hi. unfold not32. rewrite wrap32_bits, Z.lnot_spec by exact Hi.
  reflexivity.
Qed.

(** The bits a masked write stores: inside the 32 bits of the register,
    those of the value where the mask is set and those the register held
    elsewhere. *)
Lemma mask_stored_bits (old value mask i : Z) :
  0 <= i ->
  Z.testbit (Z.lor (Z.land (wrap32 value) (wrap32 mask))
               (Z.land old (not32 (wrap32 mask)))) i
  = (i <? 32) && (if Z.testbit mask i then Z.testbit value i
                  else Z.testbit old i).
Proof.
  intros Hi.
  rewrite Z.lor_spec, !Z.land_spec, not32_bits, !wrap32_bits by exact Hi.
  destruct (i <? 32), (Z.testbit mask i), (Z.testbit value i),
    (Z.testbit old i); reflexivity.
Qed.

Lemma testbit_0x1FFF (i : Z) : 0 <= i -> Z.testbit 0x1FFF i = (i <? 13).
Proof.
  intros Hi. change 0x1FFF with (Z.ones 13). destruct (Z.ltb_spec i 13).
  - apply Z.ones_spec_low. lia.
  - apply Z.ones_spec_high. lia.
Qed.

Lemma testbit_0x1FFF0000 (i : Z) :
  0 <= i -> Z.testbit 0x1FFF0000 i = (16 <=? i) && (i <? 29).
Proof.
  intros Hi. change 0x1FFF0000 with (Z.shiftl (Z.ones 13) 16).
  rewrite Z.shiftl_spec by exact Hi.
  destruct (Z.leb_spec 16 i); destruct (Z.ltb_spec i 29); cbn [andb].
  - apply Z.ones_spec_low. lia.
  - apply Z.ones_spec_high. lia.
  - apply Z.testbit_neg_r. lia.
  - apply Z.testbit_neg_r. lia.
Qed.

Lemma unlocked_writes_app (held : bool) (a b : list event) :
  unlocked_writes held (a ++ b)
  = unlocked_writes held a ++ unlocked_writes (lock_held held a) b.
Proof.
  revert held. induction a as [|e a IH]; intros held; [reflexivity|].
  destruct e; cbn [app unlocked_writes lock_held]; rewrite ?IH;
    rewrite ?app_assoc; reflexivity.
Qed.

(** * Controls and runtime power management *)

Lemma ctrl_set_hdisplay_eq (w : world) (val : Z) :
  sun4i_csi1_ctrl_set SUN4I_CSI1_HDISPLAY_START val w
  = let w1 := with_csi (set_hdisplay_start val (csi w)) w in
    if powered (csi w)
    then Some (0,
               let stored :=
                 Z.lor (Z.land (wrap32 val) (wrap32 0x1FFF))
                   (Z.land (reg w SUN4I_CSI1_HSIZE) (not32 (wrap32 0x1FFF))) in
               with_trace (trace w ++ [EvWritel SUN4I_CSI1_HSIZE stored])
                 (with_mmio (<[SUN4I_CSI1_HSIZE := stored]> (mmio w)) w1))
    else Some (0, w1).
Proof.
  unfold sun4i_csi1_ctrl_set. rewrite decide_True by reflexivity.
  destruct w as [c m b t k nd].
  destruct c as [pw fmt pc ps wd ht hs vs hp vp pl sl sq dm mn].
  destruct pw; reflexivity.
Qed.

Lemma ctrl_set_vdisplay_eq (w : world) (val : Z) :
  sun4i_csi1_ctrl_set SUN4I_CSI1_VDISPLAY_START val w
  = let w1 := with_csi (set_vdisplay_start val (csi w)) w in
    if powered (csi w)
    then Some (0,
               let stored :=
                 Z.lor (Z.land (wrap32 val) (wrap32 0x1FFF))
                   (Z.land (reg w SUN4I_CSI1_VSIZE) (not32 (wrap32 0x1FFF))) in
               with_trace (trace w ++ [EvWritel SUN4I_CSI1_VSIZE stored])
                 (with_mmio (<[SUN4I_CSI1_VSIZE := stored]> (mmio w)) w1))
    else Some (0, w1).
Proof.
  unfold sun4i_csi1_ctrl_set.
  rewrite decide_False by (vm_compute; discriminate).
  rewrite decide_True by reflexivity.
  destruct w as [c m b t k nd].
  destruct c as [pw fmt pc ps wd ht hs vs hp vp pl sl sq dm mn].
  destruct pw; reflexivity.
Qed.

Lemma ctrl_set_unknown_eq (w : world) (id val : Z) :
  id ≠ SUN4I_CSI1_HDISPLAY_START ->
  id ≠ SUN4I_CSI1_VDISPLAY_START ->
  sun4i_csi1_ctrl_set id val w = Some (- EINVAL, w).
Proof.
  intros Hh Hv. unfold sun4i_csi1_ctrl_set.
  rewrite !decide_False by assumption. reflexivity.
Qed.

(** X1.  While the engine is not powered, [sun4i_csi1_ctrl_set] reaches
    no register and makes no kernel call: a known control only stores its
    value in the driver structure and returns 0, any other id returns
    [-EINVAL] and changes nothing. *)
Theorem ctrl_set_while_stopped (w : world) (id val : Z) :
  powered (csi w) = false ->
  exists ret w',
    sun4i_csi1_ctrl_set id val w = Some (ret, w')
    /\ mmio w' = mmio w /\ trace w' = trace w
    /\ bufs w' = bufs w /\ kernel w' = kernel w
    /\ (id = SUN4I_CSI1_HDISPLAY_START ->
        ret = 0 /\ csi w' = set_hdisplay_start val (csi w))
    /\ (id = SUN4I_CSI1_VDISPLAY_START ->
        ret = 0 /\ csi w' = set_vdisplay_start val (csi w))
    /\ (id ≠ SUN4I_CSI1_HDISPLAY_START ->
        id ≠ SUN4I_CSI1_VDISPLAY_START ->
        ret = - EINVAL /\ csi w' = csi w).
Proof.
  intros Hp.
  destruct (decide (id = SUN4I_CSI1_HDISPLAY_START)) as [-> | Hh].
  { eexists _, _. rewrite ctrl_set_hdisplay_eq, Hp. cbn zeta.
    split; [reflexivity|]. repeat split; try reflexivity.
    all: intros; exfalso;
      first [ congruence
            | match goal with H : _ = _ |- _ => vm_compute in H; discriminate end ]. }
  destruct (decide (id = SUN4I_CSI1_VDISPLAY_START)) as [-> | Hv].
  { eexists _, _. rewrite ctrl_set_vdisplay_eq, Hp. cbn zeta.
    split; [reflexivity|]. repeat split; try reflexivity.
    all: intros; exfalso; congruence. }
  exists (- EINVAL), w. rewrite (ctrl_set_unknown_eq w id val Hh Hv).
  split; [reflexivity|]. repeat split; intros; congruence.
Qed.

Lemma ctrl_set_while_stopped_witness :
  exists w',
    sun4i_csi1_ctrl_set SUN4I_CSI1_HDISPLAY_START 192 world_queued
    = Some (0, w')
    /\ hdisplay_start (csi w') = 192
    /\ mmio w' = mmio world_queued.
Proof.
  destruct (ctrl_set_while_stopped world_queued SUN4I_CSI1_HDISPLAY_START 192)
    as (ret & w' & Hrun & Hm & _ & _ & _ & Hh & _).
  - vm_compute. reflexivity.
  - destruct (Hh eq_refl) as [-> Hcsi]. exists w'.
    split; [exact Hrun|]. split; [rewrite Hcsi; reflexivity | exact Hm].
Defined.

(** X2.  While the engine is powered, setting one of the two controls
    stores the value and rewrites the start field of the size register:
    bits 0 to 12 of HSIZE (or VSIZE) take the low 13 bits of the value
    and bits 13 to 31 keep what the register held, so the width or
    height field above is not disturbed.  The read-modify-write is made
    without taking the buffer lock.  No other register changes. *)
Theorem ctrl_set_while_powered (w : world) (id val : Z) :
  powered (csi w) = true ->
  id = SUN4I_CSI1_HDISPLAY_START \/ id = SUN4I_CSI1_VDISPLAY_START ->
  let address :=
    if decide (id = SUN4I_CSI1_HDISPLAY_START)
    then SUN4I_CSI1_HSIZE else SUN4I_CSI1_VSIZE in
  exists w' stored,
    sun4i_csi1_ctrl_set id val w = Some (0, w')
    /\ csi w' = (if decide (id = SUN4I_CSI1_HDISPLAY_START)
                 then set_hdisplay_start val (csi w)
                 else set_vdisplay_start val (csi w))
    /\ mmio w' = <[address := stored]> (mmio w)
    /\ trace w' = trace w ++ [EvWritel address stored]
    /\ unlocked_writes false [EvWritel address stored] = [(address, stored)]
    /\ (forall i, 0 <= i < 13 -> Z.testbit stored i = Z.testbit val i)
    /\ (forall i, 13 <= i < 32 ->
          Z.testbit stored i = Z.testbit (reg w address) i)
    /\ bufs w' = bufs w.
Proof.
  intros Hp Hid address.
  assert (Hbits : forall old,
            let stored := Z.lor (Z.land (wrap32 val) (wrap32 0x1FFF))
                            (Z.land old (not32 (wrap32 0x1FFF))) in
            (forall i, 0 <= i < 13 -> Z.testbit stored i = Z.testbit val i)
            /\ (forall i, 13 <= i < 32 ->
                  Z.testbit stored i = Z.testbit old i)).
  { intros old stored. split; intros i Hi; unfold stored;
      rewrite mask_stored_bits, testbit_0x1FFF by lia.
    - replace (i <? 32) with true by (symmetry; apply Z.ltb_lt; lia).
      replace (i <? 13) with true by (symmetry; apply Z.ltb_lt; lia).
      reflexivity.
    - replace (i <? 32) with true by (symmetry; apply Z.ltb_lt; lia).
      replace (i <? 13) with false by (symmetry; apply Z.ltb_ge; lia).
      reflexivity. }
  destruct Hid as [-> | ->]; subst address.
  - rewrite decide_True by reflexivity.
    eexists _, _. rewrite ctrl_set_hdisplay_eq, Hp. cbn zeta.
    split; [reflexivity|]. split; [reflexivity|]. split; [reflexivity|].
    split; [reflexivity|]. split; [reflexivity|].
    destruct (Hbits (reg w SUN4I_CSI1_HSIZE)) as [Hlow Hhigh].
    split; [exact Hlow|]. split; [exact Hhigh | reflexivity].
  - rewrite decide_False by (vm_compute; discriminate).
    eexists _, _. rewrite ctrl_set_vdisplay_eq, Hp. cbn zeta.
    split; [reflexivity|]. split; [reflexivity|]. split; [reflexivity|].
    split; [reflexivity|]. split; [reflexivity|].
    destruct (Hbits (reg w SUN4I_CSI1_VSIZE)) as [Hlow Hhigh].
    split; [exact Hlow|]. split; [exact Hhigh | reflexivity].
Qed.

Lemma ctrl_set_while_powered_witness :
  exists w',
    sun4i_csi1_ctrl_set SUN4I_CSI1_HDISPLAY_START 192 world_streaming
    = Some (0, w')
    /\ reg w' SUN4I_CSI1_HSIZE = 0x078000C0.
Proof.
  destruct (ctrl_set_while_powered world_streaming
              SUN4I_CSI1_HDISPLAY_START 192)
    as (w' & stored & Hrun & _ & Hm & _).
  - vm_compute. reflexivity.
  - left. reflexivity.
  - exists w'. split; [exact Hrun|].
    vm_compute in Hrun. injection Hrun as <-. vm_compute. reflexivity.
Defined.

Lemma suspend_eq (w : world) :
  sun4i_csi1_suspend w
  = if powered (csi w) then sun4i_csi1_poweroff w else Some (0, w).
Proof.
  unfold sun4i_csi1_suspend. rewrite run_bind_gets.
  destruct (powered (csi w)); reflexivity.
Qed.

Lemma resume_eq (w : world) :
  sun4i_csi1_resume w
  = if powered (csi w) then sun4i_csi1_poweron w else Some (0, w).
Proof.
  unfold sun4i_csi1_resume. rewrite run_bind_gets.
  destruct (powered (csi w)); reflexivity.
Qed.

Lemma enable_on_bit (old : Z) :
  Z.testbit (Z.lor (Z.land (wrap32 1) (wrap32 1))
               (Z.land old (not32 (wrap32 1)))) 0 = true.
Proof. rewrite mask_stored_bits by lia. reflexivity. Qed.

(** X3.  Suspend followed by resume, on working clocks.  A device that
    is not powered is left exactly as it was by both.  A powered device
    is powered off and on again: the module-enable bit goes to 0 and back
    to 1, the power sequence is undone in reverse and then redone in
    order, every register write is made under the buffer lock, and
    nothing but the ENABLE register is written: the driver structure, the
    buffers and every other register, capture and buffer pointers
    included, are as before, so resume does not start the engine again. *)
Theorem suspend_then_resume (w : world) :
  (forall s, s ∈ power_sequence -> step_ret (kernel w) s = 0) ->
  exists w1 w2 tr,
    sun4i_csi1_suspend w = Some (0, w1)
    /\ sun4i_csi1_resume w1 = Some (0, w2)
    /\ csi w2 = csi w /\ bufs w2 = bufs w /\ kernel w2 = kernel w
    /\ trace w2 = trace w ++ tr
    /\ (forall a, a ≠ SUN4I_CSI1_ENABLE -> reg w2 a = reg w a)
    /\ (powered (csi w) = false -> w2 = w)
    /\ (powered (csi w) = true ->
        power_events tr
        = map step_undo (rev power_sequence)
          ++ concat (map (step_events (kernel w)) power_sequence)
        /\ Z.testbit (reg w1 SUN4I_CSI1_ENABLE) 0 = false
        /\ Z.testbit (reg w2 SUN4I_CSI1_ENABLE) 0 = true
        /\ unlocked_writes false tr = []).
Proof.
  intros Hok. destruct (powered (csi w)) eqn:Hp.
  - pose proof (sun4i_csi1_poweroff_eq w) as Hoff. cbn zeta in Hoff.
    match type of Hoff with _ = Some (0, ?x) => set (w1 := x) in * end.
    assert (Hok1 : forall s, s ∈ power_sequence -> step_ret (kernel w1) s = 0)
      by exact Hok.
    pose proof (sun4i_csi1_poweron_ok w1 Hok1) as Hon. cbn zeta in Hon.
    match type of Hon with _ = Some (0, ?x) => set (w2 := x) in * end.
    exists w1, w2. eexists.
    split; [rewrite suspend_eq, Hp; exact Hoff|].
    split; [rewrite resume_eq; change (powered (csi w1)) with (powered (csi w));
            rewrite Hp; exact Hon|].
    split; [reflexivity|]. split; [reflexivity|]. split; [reflexivity|].
    split.
    { unfold w2, w1. cbn [trace with_trace with_mmio].
      rewrite <- app_assoc. reflexivity. }
    split.
    { intros a Ha. unfold w2, w1, reg. cbn [mmio with_trace with_mmio].
      rewrite !lookup_insert_ne by congruence. reflexivity. }
    split; [discriminate|]. intros _.
    split; [reflexivity|].
    split.
    { unfold w1, reg at 1. cbn [mmio with_trace with_mmio].
      rewrite lookup_insert_eq. apply module_disabled_bit. }
    split.
    { unfold w2, reg at 1. cbn [mmio with_trace with_mmio].
      rewrite lookup_insert_eq. apply enable_on_bit. }
    reflexivity.
  - exists w, w, []. rewrite suspend_eq, resume_eq, Hp.
    split; [reflexivity|]. split; [reflexivity|].
    split; [reflexivity|]. split; [reflexivity|]. split; [reflexivity|].
    split; [rewrite app_nil_r; reflexivity|].
    split; [reflexivity|]. split; [reflexivity | discriminate].
Qed.

Lemma suspend_then_resume_witness :
  exists w1 w2,
    sun4i_csi1_suspend world_streaming = Some (0, w1)
    /\ sun4i_csi1_resume w1 = Some (0, w2)
    /\ csi w2 = csi world_streaming
    /\ reg w2 SUN4I_CSI1_CAPTURE = reg world_streaming SUN4I_CSI1_CAPTURE.
Proof.
  destruct (suspend_then_resume world_streaming)
    as (w1 & w2 & tr & Hs & Hr & Hcsi & _ & _ & _ & Hregs & _).
  - intros s Hs. destruct s; vm_compute; reflexivity.
  - exists w1, w2. split; [exact Hs|]. split; [exact Hr|].
    split; [exact Hcsi|]. apply Hregs. vm_compute. discriminate.
Defined.

(** X4.  A resume that fails leaves the device marked as powered although
    the steps it had completed were undone; a suspend that follows then
    runs the whole power-down again, disabling clocks that are not
    enabled: the clock and reset calls of the two are the steps up to the
    failing one, the undo of the completed ones in reverse, and then the
    undo of all four. *)
Theorem failed_resume_then_suspend (w : world) (n : nat) (s : power_step) :
  powered (csi w) = true ->
  power_sequence !! n = Some s ->
  (forall s', s' ∈ take n power_sequence -> step_ret (kernel w) s' = 0) ->
  step_ret (kernel w) s ≠ 0 ->
  exists w1 w2 tr,
    sun4i_csi1_resume w = Some (step_ret (kernel w) s, w1)
    /\ csi w1 = csi w /\ mmio w1 = mmio w
    /\ powered (csi w1) = true
    /\ sun4i_csi1_suspend w1 = Some (0, w2)
    /\ trace w2 = trace w ++ tr
    /\ power_events tr
       = concat (map (step_events (kernel w)) (take (S n) power_sequence))
         ++ map step_undo (reverse (take n power_sequence))
         ++ map step_undo (rev power_sequence).
Proof.
  intros Hp Hs Hok Hfail.
  pose proof (sun4i_csi1_poweron_unwind w n s Hs Hok Hfail) as Hon.
  match type of Hon with _ = Some (_, ?x) => set (w1 := x) in * end.
  pose proof (sun4i_csi1_poweroff_eq w1) as Hoff. cbn zeta in Hoff.
  match type of Hoff with _ = Some (0, ?x) => set (w2 := x) in * end.
  exists w1, w2. eexists.
  split; [rewrite resume_eq, Hp; exact Hon|].
  split; [reflexivity|]. split; [reflexivity|]. split; [exact Hp|].
  split; [rewrite suspend_eq; change (powered (csi w1)) with (powered (csi w));
          rewrite Hp; exact Hoff|].
  split.
  { unfold w2, w1. cbn [trace with_trace with_mmio].
    rewrite <- !app_assoc. reflexivity. }
  rewrite !power_events_app.
  assert (Hsteps : forall l,
            power_events (concat (map (step_events (kernel w)) l))
            = concat (map (step_events (kernel w)) l)).
  { induction l as [|x l IH]; [reflexivity|]. cbn [map concat].
    rewrite power_events_app, IH. destruct x; reflexivity. }
  assert (Hundo : forall l, power_events (map step_undo l) = map step_undo l).
  { induction l as [|x l IH]; [reflexivity|]. cbn [map].
    change (step_undo x :: map step_undo l)
      with ([step_undo x] ++ map step_undo l).
    rewrite power_events_app, IH. destruct x; reflexivity. }
  rewrite Hsteps, Hundo. reflexivity.
Qed.

Lemma failed_resume_then_suspend_witness :
  exists w1 w2,
    sun4i_csi1_resume
      (with_csi (set_powered true (csi world_module_clock_broken))
         world_module_clock_broken) = Some (-5, w1)
    /\ powered (csi w1) = true
    /\ sun4i_csi1_suspend w1 = Some (0, w2)
    /\ power_events (trace w2)
       = [EvResetDeassert 0; EvClkPrepareEnable clk_bus 0;
          EvClkPrepareEnable clk_ram 0; EvClkSetRate clk_module 24000000;
          EvClkPrepareEnable clk_module (-5);
          EvClkDisableUnprepare clk_ram; EvClkDisableUnprepare clk_bus;
          EvResetAssert;
          EvClkDisableUnprepare clk_module; EvClkDisableUnprepare clk_ram;
          EvClkDisableUnprepare clk_bus; EvResetAssert].
Proof.
  destruct (failed_resume_then_suspend
              (with_csi (set_powered true (csi world_module_clock_broken))
                 world_module_clock_broken) 3%nat StepModule)
    as (w1 & w2 & tr & Hr & _ & _ & Hp & Hs & Htr & Hev).
  - vm_compute. reflexivity.
  - reflexivity.
  - intros s' Hs'. cbn in Hs'.
    repeat (apply elem_of_cons in Hs' as [-> | Hs']; [vm_compute; reflexivity|]).
    apply elem_of_nil in Hs' as [].
  - vm_compute. discriminate.
  - exists w1, w2. split; [exact Hr|]. split; [exact Hp|].
    split; [exact Hs|]. rewrite Htr, power_events_app, Hev.
    vm_compute. reflexivity.
Defined.

(** * The interrupt path, frame after frame *)

Lemma completed_buffers_app (a b : list event) :
  completed_buffers (a ++ b) = completed_buffers a ++ completed_buffers b.
Proof. apply omap_app. Qed.

Lemma completed_buffers_program (rs addrs : list Z) :
  completed_buffers (program_events rs addrs) = [].
Proof.
  revert addrs. induction rs as [|r rs IH]; intros [|a addrs]; try reflexivity.
  apply IH.
Qed.

Lemma unlocked_writes_program (rs addrs : list Z) :
  unlocked_writes true (program_events rs addrs) = [].
Proof.
  revert addrs. induction rs as [|r rs IH]; intros [|a addrs]; try reflexivity.
  apply IH.
Qed.

Lemma sleeps_in_atomic_program (held : bool) (rs addrs : list Z) :
  sleeps_in_atomic held (program_events rs addrs) = false.
Proof.
  revert addrs. induction rs as [|r rs IH]; intros [|a addrs]; try reflexivity.
  cbn [program_events zip_with sleeps_in_atomic may_sleep lock_held].
  rewrite andb_false_r. apply IH.
Qed.

(** Retiring [old] and refilling its slot: the driver owns what it owned
    except [old], and the order of capture loses its head. *)
Lemma owned_after_swap_iff (pl : list nat) (s0 s1 : option nat) (index : Z)
    (old : nat) (slots' : list (option nat)) :
  index = 0 \/ index = 1 ->
  array_load [s0; s1] index = Some (Some old) ->
  array_store [s0; s1] index (head pl) = Some slots' ->
  NoDup (pl ++ omap id [s0; s1]) ->
  forall x, x ∈ tail pl ++ omap id slots'
            <-> x ∈ pl ++ omap id [s0; s1] /\ x ≠ old.
Proof.
  intros [-> | ->] Hslot Hst Hnd; cbn in Hslot, Hst;
    injection Hslot as Hslot; injection Hst as <-;
    destruct pl as [|new rest], s0, s1; cbn in *; try discriminate;
    repeat match goal with
           | H : Some _ = Some _ |- _ => injection H as H
           end; subst.
  all: nodup.
  all: intros x; rewrite ?elem_of_app, ?elem_of_cons, ?elem_of_nil.
  all: set_solver.
Qed.

Lemma capture_order_after_swap (pl : list nat) (s0 s1 : option nat)
    (seq : Z) (old : nat) (slots' : list (option nat)) :
  array_load [s0; s1] (Z.land seq 1) = Some (Some old) ->
  array_store [s0; s1] (Z.land seq 1) (head pl) = Some slots' ->
  match array_load slots' (1 - Z.land seq 1) with
  | Some (Some a) =>
      a :: match array_load slots' (1 - (1 - Z.land seq 1)) with
           | Some (Some b) => b :: tail pl
           | _ => []
           end
  | _ => []
  end
  = match array_load [s0; s1] (1 - Z.land seq 1) with
    | Some (Some b) => b :: pl
    | _ => []
    end.
Proof.
  destruct (land_1_cases seq) as [-> | ->]; cbn; intros Hslot Hst;
    injection Hslot as Hslot; injection Hst as <-;
    destruct pl as [|new rest], s0, s1; cbn in *; try discriminate;
    reflexivity.
Qed.

(** One frame-done interrupt on a slot that holds [a], under the
    videobuf2 contract. *)
Lemma frame_done_step (w : world) (a : nat) :
  session_inv w ->
  array_load (buffers (csi w)) (Z.land (sequence (csi w)) 1) = Some (Some a) ->
  let seq := sequence (csi w) in
  let index := Z.land seq 1 in
  let now := ktime_ns (kernel w) in
  exists w' vb addrs,
    sun4i_csi1_frame_done w = Some (tt, w')
    /\ session_inv w'
    /\ bufs w !! a = Some vb
    /\ vb2_state vb = VB2_BUF_STATE_ACTIVE
    /\ trace w'
       = trace w
         ++ [EvSpinLock false]
         ++ match buffer_list (csi w) with
            | [] => [EvWritel SUN4I_CSI1_ENABLE
                       (module_disabled (reg w SUN4I_CSI1_ENABLE))]
            | _ :: _ => []
            end
         ++ program_events (slot_registers index) addrs
         ++ [EvSpinUnlock false; EvKtimeGetNs now;
             EvVb2BufferDone a (wrap32 seq) now VB2_BUF_STATE_DONE]
    /\ bufs w' = <[a := mk_buffer VB2_BUF_STATE_DONE (wrap32 seq) now
                          (dma_addr vb)]> (bufs w)
    /\ capture_order (csi w') = tail (capture_order (csi w))
    /\ (forall x, x ∈ owned (csi w') <-> x ∈ owned (csi w) /\ x ≠ a).
Proof.
  intros Hinv Hslot seq index now.
  pose proof Hinv as (Hwf & Hnd & Hact).
  destruct (frame_done_total w a Hwf Hslot) as [w' Hrun].
  destruct (frame_done_inv w w' Hinv Hrun) as (Hinv' & _).
  destruct (frame_done_effect w w' Hwf Hrun)
    as (old & b & addrs & Hslot' & Hb & Hlen & Hk & (slots' & Hst & Hcsi)
        & Hregs & Htr & Hbufs).
  fold seq index now in Hslot, Hslot', Hst, Hcsi, Htr, Hbufs.
  assert (old = a) by congruence. subst old.
  assert (Hsl : exists s0 s1, buffers (csi w) = [s0; s1])
    by (apply length_2; destruct Hwf as (Hs & _); exact Hs).
  destruct Hsl as (s0 & s1 & Hsl).
  assert (Hin : a ∈ owned (csi w)).
  { unfold owned. rewrite Hsl. rewrite Hsl in Hslot.
    destruct (land_1_cases seq) as [Hi|Hi]; fold index in Hi;
      rewrite Hi in Hslot; cbn in Hslot; injection Hslot as Hslot;
      destruct s0, s1; cbn; try discriminate; set_solver. }
  assert (Hstate : vb2_state b = VB2_BUF_STATE_ACTIVE).
  { destruct (proj1 (Forall_forall _ _) Hact a Hin) as (vb & Hl & Hs).
    congruence. }
  rewrite decide_True in Htr by exact Hstate.
  rewrite decide_True in Hbufs by exact Hstate.
  exists w', b, addrs.
  split; [exact Hrun|]. split; [exact Hinv'|]. split; [exact Hb|].
  split; [exact Hstate|]. split; [exact Htr|]. split; [exact Hbufs|].
  split.
  - unfold capture_order. rewrite Hcsi.
    cbn [sequence buffers buffer_list set_buffers set_buffer_list set_sequence].
    fold seq. rewrite land_1_succ. fold index.
    rewrite Hsl in *. rewrite Hslot.
    apply (capture_order_after_swap _ s0 s1 seq a slots' Hslot Hst).
  - unfold owned in *. rewrite Hcsi.
    cbn [buffer_list buffers set_buffers set_buffer_list set_sequence].
    rewrite Hsl in *.
    apply (owned_after_swap_iff _ s0 s1 index a slots');
      [apply land_1_cases | exact Hslot | exact Hst | exact Hnd].
Qed.

(** With no buffer in the slot it retires, the handler dereferences a
    null pointer. *)
Lemma frame_done_empty_slot (w : world) :
  wf w ->
  capture_order (csi w) = [] ->
  sun4i_csi1_frame_done w = None.
Proof.
  intros Hwf Hempty.
  destruct (sun4i_csi1_frame_done w) as [[[] w']|] eqn:Hrun; [|reflexivity].
  destruct (frame_done_effect w w' Hwf Hrun) as (old & b & addrs & Hslot & _).
  unfold capture_order in Hempty. rewrite Hslot in Hempty. discriminate.
Qed.

Lemma capture_order_head (w : world) (a : nat) (rest : list nat) :
  capture_order (csi w) = a :: rest ->
  array_load (buffers (csi w)) (Z.land (sequence (csi w)) 1) = Some (Some a).
Proof.
  unfold capture_order.
  destruct (array_load (buffers (csi w)) (Z.land (sequence (csi w)) 1))
    as [[x|]|]; try discriminate.
  intros H. injection H as -> _. reflexivity.
Qed.

Lemma frames_done_S (n : nat) (w : world) :
  frames_done (S n) w = (sun4i_csi1_frame_done ;; frames_done n) w.
Proof. reflexivity. Qed.

Lemma frames_done_order (n : nat) :
  forall w,
    session_inv w ->
    (n <= length (capture_order (csi w)))%nat ->
    exists w' tr,
      frames_done n w = Some (tt, w')
      /\ trace w' = trace w ++ tr
      /\ completed_buffers tr = take n (capture_order (csi w))
      /\ session_inv w'
      /\ capture_order (csi w') = drop n (capture_order (csi w)).
Proof.
  induction n as [|n IH]; intros w Hinv Hn.
  - exists w, []. rewrite app_nil_r.
    split; [reflexivity|]. split; [reflexivity|]. split; [reflexivity|].
    split; [exact Hinv | reflexivity].
  - destruct (capture_order (csi w)) as [|a rest] eqn:Horder;
      [cbn in Hn; lia|].
    pose proof (capture_order_head w a rest Horder) as Hslot.
    destruct (frame_done_step w a Hinv Hslot)
      as (w1 & vb & addrs & Hrun & Hinv1 & _ & _ & Htr & _ & Hord1 & _).
    rewrite Horder in Hord1. cbn [tail] in Hord1.
    destruct (IH w1 Hinv1) as (w' & tr & Hrun' & Htr' & Hdone & Hinv' & Hord').
    { rewrite Hord1. cbn in Hn. lia. }
    exists w'. eexists.
    split; [rewrite frames_done_S, (run_bind_eq _ _ _ _ _ Hrun); exact Hrun'|].
    split; [rewrite Htr', Htr, <- !app_assoc; reflexivity|].
    split; [|split; [exact Hinv'|rewrite Hord', Hord1; reflexivity]].
    rewrite !completed_buffers_app, completed_buffers_program, Hdone, Hord1.
    destruct (buffer_list (csi w)); reflexivity.
Qed.

Lemma frames_done_fault (n : nat) :
  forall w,
    session_inv w ->
    length (capture_order (csi w)) = n ->
    frames_done (S n) w = None.
Proof.
  induction n as [|n IH]; intros w Hinv Hn.
  - rewrite frames_done_S. apply run_bind_None.
    apply frame_done_empty_slot; [apply Hinv|].
    destruct (capture_order (csi w)); [reflexivity|discriminate].
  - destruct (capture_order (csi w)) as [|a rest] eqn:Horder;
      [discriminate|].
    pose proof (capture_order_head w a rest Horder) as Hslot.
    destruct (frame_done_step w a Hinv Hslot)
      as (w1 & vb & addrs & Hrun & Hinv1 & _ & _ & _ & _ & Hord1 & _).
    rewrite Horder in Hord1. cbn [tail] in Hord1.
    rewrite frames_done_S, (run_bind_eq _ _ _ _ _ Hrun).
    apply (IH w1 Hinv1). rewrite Hord1. cbn in Hn. lia.
Qed.

Lemma session_invb_session_inv (w : world) :
  session_invb w = true -> session_inv w.
Proof.
  unfold session_invb, session_inv. rewrite !andb_true_iff.
  intros [[Hwf Hnd] Hact]. split; [apply wfb_wf, Hwf|]. split.
  - apply bool_decide_eq_true in Hnd. exact Hnd.
  - rewrite forallb_forall in Hact. apply Forall_forall. intros b Hb.
    apply list_elem_of_In in Hb. apply active_activeb, Hact, Hb.
Qed.

(** X5.  Under the videobuf2 contract, with nothing queued meanwhile,
    frame-done interrupts retire the buffers in the order of capture: the
    slot the counter points at, the other slot, then the pending list from
    its head.  As many interrupts as that order is long return, each
    delivering the next buffer as done; one more finds no buffer in the
    slot it retires and dereferences a null pointer. *)
Theorem frames_done_in_capture_order (w : world) :
  session_inv w ->
  let order := capture_order (csi w) in
  (forall n, (n <= length order)%nat ->
     exists w' tr,
       frames_done n w = Some (tt, w')
       /\ trace w' = trace w ++ tr
       /\ completed_buffers tr = take n order
       /\ capture_order (csi w') = drop n order)
  /\ frames_done (S (length order)) w = None.
Proof.
  intros Hinv order. split.
  - intros n Hn.
    destruct (frames_done_order n w Hinv Hn)
      as (w' & tr & Hrun & Htr & Hdone & _ & Hord).
    exists w', tr. repeat split; assumption.
  - apply (frames_done_fault _ w Hinv eq_refl).
Qed.

Lemma frames_done_in_capture_order_witness :
  (exists w' tr,
     frames_done 3 world_streaming = Some (tt, w')
     /\ trace w' = tr
     /\ completed_buffers tr = [0; 1; 2]%nat)
  /\ frames_done 4 world_streaming = None.
Proof.
  assert (Hinv : session_inv world_streaming)
    by (apply session_invb_session_inv; vm_compute; reflexivity).
  destruct (frames_done_in_capture_order world_streaming Hinv)
    as [Hdone Hfault].
  split.
  - destruct (Hdone 3%nat ltac:(vm_compute; lia))
      as (w' & tr & Hrun & Htr & Hc & _).
    exists w', tr. split; [exact Hrun|]. split; [exact Htr|].
    rewrite Hc. vm_compute. reflexivity.
  - replace 4%nat with (S (length (capture_order (csi world_streaming))))
      by (vm_compute; reflexivity).
    exact Hfault.
Defined.

(** X6.  [sun4i_csi1_buffer_queue] only appends to the pending list, under
    the lock, and reaches no register.  While both slots hold a buffer the
    queued buffer comes last in the order of capture.  Once a slot has
    run empty the order of capture does not grow: queuing does not start
    the engine again. *)
Theorem buffer_queue_appends (w : world) (b : nat) :
  length (buffers (csi w)) = 2%nat ->
  exists w',
    sun4i_csi1_buffer_queue b w = Some (tt, w')
    /\ buffer_list (csi w') = buffer_list (csi w) ++ [b]
    /\ buffers (csi w') = buffers (csi w)
    /\ sequence (csi w') = sequence (csi w)
    /\ mmio w' = mmio w /\ bufs w' = bufs w
    /\ trace w' = trace w ++ [EvSpinLock true; EvSpinUnlock true]
    /\ ((2 <= length (capture_order (csi w)))%nat ->
        capture_order (csi w') = capture_order (csi w) ++ [b])
    /\ ((length (capture_order (csi w)) < 2)%nat ->
        capture_order (csi w') = capture_order (csi w)).
Proof.
  intros Hs. destruct w as [c m bl t k nd].
  destruct c as [pw fmt pc ps wd ht hs vs hp vp pl sl sq dm mn].
  cbn [csi buffers] in Hs. apply length_2 in Hs as (s0 & s1 & ->).
  eexists. split; [unfold sun4i_csi1_buffer_queue; steps; reflexivity|].
  cbn [csi mmio bufs trace buffer_list buffers sequence].
  split; [reflexivity|]. split; [reflexivity|]. split; [reflexivity|].
  split; [reflexivity|]. split; [reflexivity|].
  split; [rewrite <- app_assoc; reflexivity|].
  unfold capture_order. cbn [sequence buffers buffer_list].
  destruct (land_1_cases sq) as [-> | ->];
    change (1 - 0) with 1; change (1 - 1) with 0;
    rewrite !array_load_0, !array_load_1; destruct s0, s1; cbn;
    split; intros; try reflexivity; lia.
Qed.

Lemma buffer_queue_appends_witness :
  exists w',
    sun4i_csi1_buffer_queue 7 world_streaming = Some (tt, w')
    /\ capture_order (csi w') = [0; 1; 2; 7]%nat.
Proof.
  destruct (buffer_queue_appends world_streaming 7)
    as (w' & Hrun & _ & _ & _ & _ & _ & _ & Hgrow & _).
  - vm_compute. reflexivity.
  - exists w'. split; [exact Hrun|].
    rewrite Hgrow by (vm_compute; lia). vm_compute. reflexivity.
Defined.

(** X7.  Starting the engine on a queue of at least two buffers returns,
    establishes the videobuf2 contract for the interrupt path, and makes
    the order of capture the order in which the buffers were queued. *)
Theorem engine_start_capture_order (w : world) :
  start_inv w ->
  (2 <= length (buffer_list (csi w)))%nat ->
  exists w',
    sun4i_csi1_engine_start w = Some (tt, w')
    /\ session_inv w'
    /\ sequence (csi w') = 0
    /\ capture_order (csi w') = buffer_list (csi w)
    /\ bufs w' = bufs w.
Proof.
  intros Hstart Hlen. pose proof Hstart as (Hwf & _).
  destruct (buffer_list (csi w)) as [|b0 [|b1 rest]] eqn:Hpl;
    [cbn in Hlen; lia | cbn in Hlen; lia |].
  destruct (engine_start_total w b0 b1 rest Hwf Hpl) as [w' Hrun].
  destruct (engine_start_inv w w' Hstart Hrun) as [Hinv Hseq].
  destruct (engine_start_effect w w' Hwf Hrun)
    as (c0 & c1 & rest' & vb0 & vb1 & Hpl' & _ & _ & Hcsi & Hbufs & _).
  rewrite Hpl in Hpl'. injection Hpl' as <- <- <-.
  exists w'. split; [exact Hrun|]. split; [exact Hinv|].
  split; [exact Hseq|]. split; [|exact Hbufs].
  unfold capture_order. rewrite Hcsi. reflexivity.
Qed.

Lemma engine_start_capture_order_witness :
  exists w',
    sun4i_csi1_engine_start world_queued = Some (tt, w')
    /\ capture_order (csi w') = [0; 1; 2]%nat.
Proof.
  destruct (engine_start_capture_order world_queued)
    as (w' & Hrun & _ & _ & Hord & _).
  - apply start_invb_start_inv. vm_compute. reflexivity.
  - vm_compute. lia.
  - exists w'. split; [exact Hrun|]. rewrite Hord. vm_compute. reflexivity.
Defined.

(** X8.  A frame-done interrupt that returns, under the videobuf2
    contract, gives up exactly the buffer it delivers: that buffer was in
    the retired slot, it is marked done, and afterwards neither a slot nor
    the pending list refers to it; every other buffer the driver owned it
    still owns, untouched, and it owns no new one.  The contract holds
    again afterwards. *)
Theorem frame_done_gives_up_buffer (w w' : world) :
  session_inv w ->
  sun4i_csi1_frame_done w = Some (tt, w') ->
  exists old vb,
    array_load (buffers (csi w)) (Z.land (sequence (csi w)) 1)
    = Some (Some old)
    /\ completed_buffers (drop (length (trace w)) (trace w')) = [old]
    /\ bufs w' !! old = Some vb
    /\ vb2_state vb = VB2_BUF_STATE_DONE
    /\ (old ∉ owned (csi w'))
    /\ (forall x, x ∈ owned (csi w') <-> x ∈ owned (csi w) /\ x ≠ old)
    /\ (forall x, x ≠ old -> bufs w' !! x = bufs w !! x)
    /\ session_inv w'.
Proof.
  intros Hinv Hrun. pose proof Hinv as (Hwf & _).
  destruct (frame_done_effect w w' Hwf Hrun) as (old & b & addrs & Hslot & _).
  destruct (frame_done_step w old Hinv Hslot)
    as (w1 & vb & addrs' & Hrun1 & Hinv1 & Hvb & _ & Htr & Hbufs & _ & Hown).
  rewrite Hrun in Hrun1. injection Hrun1 as <-.
  exists old. eexists.
  split; [exact Hslot|].
  split.
  { rewrite Htr, drop_app_length.
    rewrite !completed_buffers_app, completed_buffers_program.
    destruct (buffer_list (csi w)); reflexivity. }
  split.
  { rewrite Hbufs. apply list_lookup_insert_eq.
    apply lookup_lt_Some in Hvb. exact Hvb. }
  split; [reflexivity|].
  split; [intros Hin; apply Hown in Hin as [_ Hne]; congruence|].
  split; [exact Hown|].
  split; [|exact Hinv1].
  intros x Hne. rewrite Hbufs. apply list_lookup_insert_ne. congruence.
Qed.

Lemma frame_done_gives_up_buffer_witness :
  exists w',
    sun4i_csi1_frame_done world_streaming = Some (tt, w')
    /\ owned (csi world_streaming) = [2; 0; 1]%nat
    /\ (0%nat ∉ owned (csi w')).
Proof.
  assert (Hinv : session_inv world_streaming)
    by (apply session_invb_session_inv; vm_compute; reflexivity).
  destruct (sun4i_csi1_frame_done world_streaming) as [[[] w']|] eqn:Hrun;
    [|vm_compute in Hrun; discriminate].
  destruct (frame_done_gives_up_buffer world_streaming w' Hinv Hrun)
    as (old & vb & Hslot & _ & _ & _ & Hout & _).
  vm_compute in Hslot. injection Hslot as <-.
  exists w'. split; [reflexivity|]. split; [vm_compute; reflexivity|].
  exact Hout.
Defined.

(** * The interrupt service routine *)

Lemma isr_eq (w : world) :
  let value := reg w SUN4I_CSI1_INT_STATUS in
  let acked :=
    with_trace (trace w ++ [EvSpinLock false;
                            EvWritel SUN4I_CSI1_INT_STATUS (wrap32 value);
                            EvSpinUnlock false])
      (with_mmio (<[SUN4I_CSI1_INT_STATUS := wrap32 value]> (mmio w)) w) in
  sun4i_csi1_isr w
  = if decide (Z.land value 0x02 = 0) then Some (tt, acked)
    else sun4i_csi1_frame_done acked.
Proof.
  destruct w as [c m b t k nd]. cbn zeta.
  unfold reg, SUN4I_CSI1_INT_STATUS. cbn [mmio trace with_trace with_mmio].
  unfold sun4i_csi1_isr.
  destruct (decide (Z.land (default 0 (m !! 52)) 2 = 0)) as [Hz|Hz].
  - steps. rewrite <- !app_assoc. reflexivity.
  - steps. rewrite <- !app_assoc. reflexivity.
Qed.

Lemma session_inv_ext (w w' : world) :
  session_inv w -> bufs w' = bufs w -> csi w' = csi w -> session_inv w'.
Proof.
  intros (Hwf & Hnd & Hact) Hb Hc. split; [|split].
  - apply (wf_ext w w' Hwf Hb); rewrite Hc; reflexivity.
  - rewrite Hc. exact Hnd.
  - rewrite Hc. eapply Forall_impl; [exact Hact|].
    intros x (vb & Hl & Hs). exists vb. rewrite Hb. split; assumption.
Qed.

(** The events of one frame-done pass keep the lock discipline. *)
Lemma frame_trace_discipline (mid : list event) (rs addrs : list Z)
    (last : event) :
  mid = [] \/ (exists a v, mid = [EvWritel a v]) ->
  (forall a v, last ≠ EvWritel a v) ->
  (forall i, last ≠ EvSpinLock i) ->
  forall now,
    let tr := [EvSpinLock false] ++ mid ++ program_events rs addrs
              ++ [EvSpinUnlock false; EvKtimeGetNs now; last] in
    unlocked_writes false tr = []
    /\ sleeps_in_atomic false tr = false
    /\ lock_held false tr = false.
Proof.
  intros Hmid Hw Hl now tr. subst tr.
  assert (Hlast : unlocked_writes false [last] = []
                  /\ lock_held false [last] = false).
  { destruct last; try (split; reflexivity).
    - exfalso. exact (Hl _ eq_refl).
    - exfalso. exact (Hw _ _ eq_refl). }
  destruct Hlast as [Hlw Hll].
  destruct Hmid as [-> | (a & v & ->)]; cbn [app].
  - split; [|split].
    + cbn [unlocked_writes lock_held].
      rewrite unlocked_writes_app, unlocked_writes_program, lock_held_program.
      cbn [app unlocked_writes lock_held]. exact Hlw.
    + cbn [sleeps_in_atomic may_sleep lock_held andb orb].
      rewrite sleeps_in_atomic_app, sleeps_in_atomic_program, lock_held_program.
      cbn. rewrite ?orb_false_r. reflexivity.
    + cbn [lock_held]. rewrite lock_held_app, lock_held_program.
      cbn [lock_held]. exact Hll.
  - split; [|split].
    + cbn [unlocked_writes lock_held app].
      rewrite unlocked_writes_app, unlocked_writes_program, lock_held_program.
      cbn [app unlocked_writes lock_held]. exact Hlw.
    + cbn [sleeps_in_atomic may_sleep lock_held andb orb].
      rewrite sleeps_in_atomic_app, sleeps_in_atomic_program, lock_held_program.
      cbn. rewrite ?orb_false_r. reflexivity.
    + cbn [lock_held]. rewrite lock_held_app, lock_held_program.
      cbn [lock_held]. exact Hll.
Qed.

(** X9.  The interrupt service routine first acknowledges every status
    bit it read, inside one locked section.  With the frame-done bit
    clear that is all it does: the driver structure, the buffers and every
    other register are untouched.  With the bit set, under the videobuf2
    contract and with a buffer in the slot the counter points at, it then
    delivers that buffer and advances the counter by one; all its register
    writes are made under the lock, the clock is read and the buffer
    handed back with the lock released, and the lock is free when it
    returns.  With the bit set and no buffer in that slot it dereferences
    a null pointer. *)
Theorem isr_acks_then_dispatches (w : world) :
  session_inv w ->
  let value := reg w SUN4I_CSI1_INT_STATUS in
  let ack := [EvSpinLock false;
              EvWritel SUN4I_CSI1_INT_STATUS (wrap32 value);
              EvSpinUnlock false] in
  (Z.land value 0x02 = 0 ->
   sun4i_csi1_isr w
   = Some (tt, with_trace (trace w ++ ack)
                 (with_mmio (<[SUN4I_CSI1_INT_STATUS := wrap32 value]> (mmio w))
                    w)))
  /\ (Z.land value 0x02 ≠ 0 ->
      forall a,
        array_load (buffers (csi w)) (Z.land (sequence (csi w)) 1)
        = Some (Some a) ->
        exists w' rest,
          sun4i_csi1_isr w = Some (tt, w')
          /\ trace w' = trace w ++ ack ++ rest
          /\ completed_buffers rest = [a]
          /\ sequence (csi w') = wrap64 (sequence (csi w) + 1)
          /\ unlocked_writes false (ack ++ rest) = []
          /\ sleeps_in_atomic false (ack ++ rest) = false
          /\ lock_held false (ack ++ rest) = false)
  /\ (Z.land value 0x02 ≠ 0 ->
      capture_order (csi w) = [] ->
      sun4i_csi1_isr w = None).
Proof.
  intros Hinv value ack. pose proof (isr_eq w) as Heq. cbn zeta in Heq.
  fold value in Heq. fold ack in Heq.
  set (acked := with_trace (trace w ++ ack)
                  (with_mmio (<[SUN4I_CSI1_INT_STATUS := wrap32 value]> (mmio w))
                     w)) in *.
  assert (Hinv' : session_inv acked)
    by (apply (session_inv_ext w); [exact Hinv | reflexivity | reflexivity]).
  split; [|split].
  - intros Hz. rewrite Heq, decide_True by exact Hz. reflexivity.
  - intros Hnz a Hslot. rewrite Heq, decide_False by exact Hnz.
    destruct (frame_done_step acked a Hinv' Hslot)
      as (w' & vb & addrs & Hrun & _ & _ & _ & Htr & _).
    destruct (frame_done_inv acked w' Hinv' Hrun) as (_ & Hseq & _).
    exists w'. eexists.
    split; [exact Hrun|].
    split; [rewrite Htr; unfold acked; cbn [trace with_trace];
            rewrite <- !app_assoc; reflexivity|].
    split.
    { rewrite !completed_buffers_app, completed_buffers_program.
      unfold acked. cbn [csi with_trace with_mmio].
      destruct (buffer_list (csi w)); reflexivity. }
    split; [exact Hseq|].
    match goal with
    | |- unlocked_writes false (ack ++ ?rest) = [] /\ _ =>
        assert (Hd : unlocked_writes false rest = []
                     /\ sleeps_in_atomic false rest = false
                     /\ lock_held false rest = false)
    end.
    { apply frame_trace_discipline; [|discriminate|discriminate].
      unfold acked. cbn [csi with_trace with_mmio].
      destruct (buffer_list (csi w)); [right; eauto | left; reflexivity]. }
    destruct Hd as (Hd1 & Hd2 & Hd3).
    rewrite unlocked_writes_app, sleeps_in_atomic_app, lock_held_app.
    change (lock_held false ack) with false.
    change (unlocked_writes false ack) with (@nil (Z * Z)).
    change (sleeps_in_atomic false ack) with false.
    rewrite Hd1, Hd2, Hd3. repeat split.
  - intros Hnz Hempty. rewrite Heq, decide_False by exact Hnz.
    apply frame_done_empty_slot; [apply Hinv'|exact Hempty].
Qed.

Lemma isr_acks_then_dispatches_witness :
  (exists w',
     sun4i_csi1_isr world_streaming = Some (tt, w')
     /\ csi w' = csi world_streaming)
  /\ exists w' rest,
       sun4i_csi1_isr
         (with_mmio (<[SUN4I_CSI1_INT_STATUS := 2]> (mmio world_streaming))
            world_streaming) = Some (tt, w')
       /\ completed_buffers rest = [0%nat]
       /\ sequence (csi w') = 1.
Proof.
  split.
  - assert (Hinv : session_inv world_streaming)
      by (apply session_invb_session_inv; vm_compute; reflexivity).
    destruct (isr_acks_then_dispatches world_streaming Hinv) as (Hquiet & _).
    eexists. split; [apply Hquiet; vm_compute; reflexivity|].
    vm_compute. reflexivity.
  - set (w := with_mmio (<[SUN4I_CSI1_INT_STATUS := 2]> (mmio world_streaming))
                world_streaming).
    assert (Hinv : session_inv w)
      by (apply session_invb_session_inv; vm_compute; reflexivity).
    destruct (isr_acks_then_dispatches w Hinv) as (_ & Hframe & _).
    destruct (Hframe ltac:(vm_compute; discriminate) 0%nat
                ltac:(vm_compute; reflexivity))
      as (w' & rest & Hrun & _ & Hdone & Hseq & _).
    exists w', rest. split; [exact Hrun|]. split; [exact Hdone|].
    rewrite Hseq. vm_compute. reflexivity.
Defined.

(** * Draining the pending list *)

Lemma buffer_list_clear_turn (c : sun4i_csi1) m bs t k nd (b : nat)
    (rest : list nat) (vb : sun4i_csi1_buffer) (fuel : nat) :
  buffer_list c = b :: rest ->
  bs !! b = Some vb ->
  buffer_list_clear_loop (S fuel) (mk_world c m bs t k nd)
  = buffer_list_clear_loop fuel
      (mk_world (set_buffer_list rest c) m (<[b := mark_done vb]> bs)
         (t ++ [EvSpinLock true; EvSpinUnlock true;
                if decide (vb2_state vb = VB2_BUF_STATE_ACTIVE)
                then EvVb2BufferDone b (v4l2_sequence vb) (vb2_timestamp vb)
                       VB2_BUF_STATE_ERROR
                else EvWarnOn b]) k (<[b := LIST_POISON]> nd)).
Proof.
  destruct c as [pw fmt pc ps wd ht hs vs hp vp pl sl sq dm mn].
  cbn [buffer_list]. intros -> Hl.
  destruct vb as [st sq' ts da]. unfold mark_done. cbn [vb2_state] in *.
  cbn [buffer_list_clear_loop].
  destruct (decide (st = VB2_BUF_STATE_ACTIVE)) as [Ha|Ha].
  - subst st.
    steps_with ltac:(progress cbn [head tail]).
    wnorm. rewrite <- !app_assoc. reflexivity.
  - steps_with ltac:(progress cbn [head tail]).
    wnorm. rewrite <- !app_assoc. rewrite list_insert_id by exact Hl.
    reflexivity.
Qed.

Lemma buffer_list_clear_last (c : sun4i_csi1) m bs t k nd (fuel : nat) :
  buffer_list c = [] ->
  buffer_list_clear_loop (S fuel) (mk_world c m bs t k nd)
  = Some (tt, mk_world c m bs (t ++ [EvSpinLock true; EvSpinUnlock true]) k nd).
Proof.
  destruct c as [pw fmt pc ps wd ht hs vs hp vp pl sl sq dm mn].
  cbn [buffer_list]. intros ->. cbn [buffer_list_clear_loop].
  steps_with ltac:(progress cbn [head tail]).
  wnorm. rewrite <- !app_assoc. reflexivity.
Qed.


Lemma buffer_list_clear_loop_eq (pending : list nat) :
  forall (c : sun4i_csi1) m bs t k nd (fuel : nat),
    buffer_list c = pending ->
    (length pending < fuel)%nat ->
    Forall (fun b => (b < length bs)%nat) pending ->
    buffer_list_clear_loop fuel (mk_world c m bs t k nd)
    = Some (tt, mk_world (set_buffer_list [] c) m (cleared bs pending)
                  (t ++ clear_events bs pending) k (unlinked nd pending)).
Proof.
  induction pending as [|b rest IH]; intros c m bs t k nd fuel Hpl Hfuel Hin.
  - destruct fuel as [|fuel]; [cbn in Hfuel; lia|].
    rewrite (buffer_list_clear_last c m bs t k nd fuel Hpl).
    destruct c as [pw fmt pc ps wd ht hs vs hp vp pl sl sq dm mn].
    cbn in Hpl. subst pl. reflexivity.
  - destruct fuel as [|fuel]; [cbn in Hfuel; lia|].
    apply Forall_cons in Hin as [Hb Hin].
    destruct (lookup_lt_is_Some_2 bs b Hb) as [vb Hl].
    rewrite (buffer_list_clear_turn c m bs t k nd b rest vb fuel Hpl Hl).
    rewrite (IH (set_buffer_list rest c) m (<[b := mark_done vb]> bs) _ k
               (<[b := LIST_POISON]> nd) fuel).
    + cbn [cleared clear_events]. rewrite Hl, <- app_assoc.
      destruct c as [pw fmt pc ps wd ht hs vs hp vp pl sl sq dm mn].
      reflexivity.
    + destruct c as [pw fmt pc ps wd ht hs vs hp vp pl sl sq dm mn].
      reflexivity.
    + cbn in Hfuel. lia.
    + rewrite length_insert. exact Hin.
Qed.

Lemma buffer_list_clear_eq (w : world) :
  Forall (fun b => (b < length (bufs w))%nat) (buffer_list (csi w)) ->
  sun4i_csi1_buffer_list_clear w
  = Some (tt,
          with_trace (trace w ++ clear_events (bufs w) (buffer_list (csi w)))
            (with_bufs (cleared (bufs w) (buffer_list (csi w)))
               (with_nodes (unlinked (nodes w) (buffer_list (csi w)))
                  (with_csi (set_buffer_list [] (csi w)) w)))).
Proof.
  intros Hin. destruct w as [c m bs t k nd].
  unfold sun4i_csi1_buffer_list_clear. rewrite run_bind_gets.
  cbn [csi bufs trace] in *.
  apply buffer_list_clear_loop_eq; [reflexivity | lia | exact Hin].
Qed.

Lemma cleared_length (pending : list nat) :
  forall bs, length (cleared bs pending) = length bs.
Proof.
  induction pending as [|b rest IH]; intros bs; [reflexivity|].
  cbn [cleared]. rewrite IH.
  destruct (bs !! b); [apply length_insert | reflexivity].
Qed.

Lemma mark_done_dma_addr (vb : sun4i_csi1_buffer) :
  dma_addr (mark_done vb) = dma_addr vb.
Proof. unfold mark_done. destruct (decide _); reflexivity. Qed.

Lemma cleared_dma_addr (pending : list nat) :
  forall bs,
    Forall (fun b => length (dma_addr b) = 3%nat) bs ->
    Forall (fun b => length (dma_addr b) = 3%nat) (cleared bs pending).
Proof.
  induction pending as [|b rest IH]; intros bs Hbs; [exact Hbs|].
  cbn [cleared]. apply IH.
  destruct (bs !! b) as [vb|] eqn:Hl; [|exact Hbs].
  apply Forall_insert; [exact Hbs|].
  rewrite mark_done_dma_addr. apply (Forall_lookup_1 _ _ _ _ Hbs Hl).
Qed.

Lemma cleared_other (pending : list nat) :
  forall bs i, i ∉ pending -> cleared bs pending !! i = bs !! i.
Proof.
  induction pending as [|b rest IH]; intros bs i Hi; [reflexivity|].
  apply not_elem_of_cons in Hi as [Hne Hi].
  cbn [cleared]. rewrite IH by exact Hi.
  destruct (bs !! b); [apply list_lookup_insert_ne; congruence | reflexivity].
Qed.

(** The events of the loop keep the lock discipline: the queue is told
    of each buffer with the lock released. *)
Lemma clear_events_discipline (pending : list nat) :
  forall bs,
    Forall (fun b => (b < length bs)%nat) pending ->
    let tr := clear_events bs pending in
    lock_held false tr = false
    /\ sleeps_in_atomic false tr = false
    /\ unlocked_writes false tr = []
    /\ power_events tr = []
    /\ dma_frees tr = [].
Proof.
  induction pending as [|b rest IH]; intros bs Hin; [repeat split|].
  apply Forall_cons in Hin as [Hb Hin].
  destruct (lookup_lt_is_Some_2 bs b Hb) as [vb Hl].
  cbn [clear_events]. rewrite Hl.
  destruct (IH (<[b := mark_done vb]> bs)) as (H1 & H2 & H3 & H4 & H5);
    [rewrite length_insert; exact Hin|].
  rewrite lock_held_app, sleeps_in_atomic_app, unlocked_writes_app,
    power_events_app, dma_frees_app.
  destruct (decide (vb2_state vb = VB2_BUF_STATE_ACTIVE));
    cbn [lock_held sleeps_in_atomic unlocked_writes may_sleep andb orb app];
    rewrite H1, H2, H3, H4, H5; repeat split.
Qed.

(** On distinct active buffers the loop reports each of them, in the
    order of the list, and leaves each in the error state. *)
Lemma clear_events_failed (pending : list nat) :
  forall bs,
    NoDup pending ->
    Forall (fun b => exists vb, bs !! b = Some vb
                                /\ vb2_state vb = VB2_BUF_STATE_ACTIVE)
      pending ->
    failed_buffers (clear_events bs pending) = pending
    /\ forall b, b ∈ pending ->
         exists vb, cleared bs pending !! b = Some vb
                    /\ vb2_state vb = VB2_BUF_STATE_ERROR.
Proof.
  induction pending as [|b rest IH]; intros bs Hnd Hact.
  - split; [reflexivity|]. intros b Hb. apply elem_of_nil in Hb as [].
  - apply NoDup_cons in Hnd as [Hnotin Hnd].
    apply Forall_cons in Hact as [(vb & Hl & Ha) Hact].
    cbn [clear_events cleared]. rewrite Hl.
    destruct (IH (<[b := mark_done vb]> bs) Hnd) as [Hfailed Hstate].
    { apply Forall_forall. intros x Hx.
      destruct (proj1 (Forall_forall _ _) Hact x Hx) as (vx & Hlx & Hax).
      exists vx. split; [|exact Hax].
      rewrite list_lookup_insert_ne; [exact Hlx|].
      intros ->. contradiction. }
    split.
    + rewrite failed_buffers_app, Hfailed.
      rewrite decide_True by exact Ha. reflexivity.
    + intros x Hx. apply elem_of_cons in Hx as [-> | Hx]; [|exact (Hstate x Hx)].
      exists (mark_done vb). split.
      * rewrite cleared_other by exact Hnotin.
        apply list_lookup_insert_eq. apply lookup_lt_Some in Hl. exact Hl.
      * unfold mark_done. rewrite decide_True by exact Ha. reflexivity.
Qed.

Lemma wf_cleared (w : world) :
  wf w ->
  wf (with_trace (trace w ++ clear_events (bufs w) (buffer_list (csi w)))
        (with_bufs (cleared (bufs w) (buffer_list (csi w)))
           (with_nodes (unlinked (nodes w) (buffer_list (csi w)))
              (with_csi (set_buffer_list [] (csi w)) w)))).
Proof.
  intros (Hs & Hn & Hv & Hd & Hp & Hsl & Hb). unfold wf.
  cbn [csi bufs with_trace with_bufs with_csi with_nodes].
  rewrite cleared_length.
  destruct (csi w) as [pw fmt pc ps wd ht hs vs hp vp pl sl sq dm mn].
  cbn [buffers plane_count dummy buffer_list set_buffer_list] in *.
  split; [exact Hs|]. split; [exact Hn|]. split; [exact Hv|].
  split; [exact Hd|]. split; [apply Forall_nil_2|]. split; [exact Hsl|].
  apply cleared_dma_addr, Hb.
Qed.

(** X10.  [sun4i_csi1_buffer_list_clear] returns on every well-formed
    state and leaves the pending list empty; nothing else of the driver
    structure and no register changes.  It hands each buffer back with
    the lock released and holds no lock when it returns.  Buffers that are
    not on the list are untouched.  When the list holds distinct active
    buffers, each of them is reported once with an error status, in the
    order of the list. *)
Theorem buffer_list_clear_drains (w : world) :
  wf w ->
  exists w' tr,
    sun4i_csi1_buffer_list_clear w = Some (tt, w')
    /\ trace w' = trace w ++ tr
    /\ csi w' = set_buffer_list [] (csi w)
    /\ mmio w' = mmio w
    /\ wf w'
    /\ lock_held false tr = false
    /\ sleeps_in_atomic false tr = false
    /\ (forall i, i ∉ buffer_list (csi w) -> bufs w' !! i = bufs w !! i)
    /\ (NoDup (buffer_list (csi w)) ->
        Forall (active w) (buffer_list (csi w)) ->
        failed_buffers tr = buffer_list (csi w)
        /\ forall b, b ∈ buffer_list (csi w) ->
             exists vb, bufs w' !! b = Some vb
                        /\ vb2_state vb = VB2_BUF_STATE_ERROR).
Proof.
  intros Hwf. pose proof Hwf as (_ & _ & _ & _ & Hp & _).
  eexists _, _. split; [apply (buffer_list_clear_eq w Hp)|].
  split; [reflexivity|]. split; [reflexivity|]. split; [reflexivity|].
  split; [apply wf_cleared, Hwf|].
  destruct (clear_events_discipline (buffer_list (csi w)) (bufs w) Hp)
    as (H1 & H2 & _).
  split; [exact H1|]. split; [exact H2|].
  split; [intros i Hi; apply cleared_other, Hi|].
  intros Hnd Hact.
  apply (clear_events_failed (buffer_list (csi w)) (bufs w) Hnd Hact).
Qed.

Lemma buffer_list_clear_drains_witness :
  exists w' tr,
    sun4i_csi1_buffer_list_clear world_queued = Some (tt, w')
    /\ trace w' = trace world_queued ++ tr
    /\ failed_buffers tr = [0; 1; 2]%nat
    /\ buffer_list (csi w') = [].
Proof.
  destruct (buffer_list_clear_drains world_queued world_queued_wf)
    as (w' & tr & Hrun & Htr & Hcsi & _ & _ & _ & _ & _ & Hfailed).
  destruct (start_invb_start_inv world_queued ltac:(vm_compute; reflexivity))
    as (_ & Hnd & Hact).
  destruct (Hfailed Hnd Hact) as [Hf _].
  exists w', tr. split; [exact Hrun|]. split; [exact Htr|].
  split; [rewrite Hf; vm_compute; reflexivity|].
  rewrite Hcsi. reflexivity.
Defined.

(** * The dummy buffer, from allocation to release *)

Lemma freed_planes_app (a b : list event) :
  freed_planes (a ++ b) = freed_planes a ++ freed_planes b.
Proof. apply omap_app. Qed.
Lemma allocated_planes_app (a b : list event) :
  allocated_planes (a ++ b) = allocated_planes a ++ allocated_planes b.
Proof. apply omap_app. Qed.
Lemma freed_planes_free_events (size : Z) (planes : list (Z * Z)) :
  freed_planes (free_events size planes) = planes.
Proof.
  induction planes as [|[v d] planes IH]; [reflexivity|].
  cbn. unfold freed_planes, free_events in IH. rewrite IH. reflexivity.
Qed.
Lemma allocated_planes_free_events (size : Z) (planes : list (Z * Z)) :
  allocated_planes (free_events size planes) = [].
Proof.
  induction planes as [|[v d] planes IH]; [reflexivity|]. exact IH.
Qed.

Ltac decide_all :=
  repeat match goal with
         | |- context [decide ?P] =>
             first [ rewrite (decide_True (P := P))
                       by (first [reflexivity | assumption])
                   | rewrite (decide_False (P := P))
                       by (first [assumption | (vm_compute; discriminate)]) ]
         end.

Ltac alloc_case :=
  match goal with
  | |- context [held_planes ?c] =>
      let held0 := fresh "held0" in
      let E := fresh "Eheld0" in
      remember (held_planes c) as held0 eqn:E;
      eexists _, _, _; split;
      [ call_free; unfold released; wnorm; to_nat_consts; list_consts;
        steps_with ltac:(first [ index_consts | call_free
                               | progress (to_nat_consts;
                                           cbn [dummy_buffer_alloc_loop];
                                           prims) ]);
        reflexivity | ];
      (split; [wnorm; rewrite <- ?app_assoc; reflexivity|]);
      rewrite <- ?E
  end;
  to_nat_consts; cbn [granted]; decide_all;
  cbn [csi trace mmio bufs kernel dummy];
  repeat match goal with
         | |- context [?a :: ?b :: free_events ?s ?h] =>
             change (a :: b :: free_events s h)
               with ([a; b] ++ free_events s h)
         end;
  rewrite ?freed_planes_app, ?allocated_planes_app,
    ?freed_planes_free_events, ?allocated_planes_free_events,
    ?lock_held_app, ?lock_held_free_events;
  unfold held_planes; cbn [plane_count dummy virtual dummy_dma_addr];
  to_nat_consts; list_consts;
  rewrite ?filter_cons, ?filter_nil; decide_consts; list_consts;
  cbn [freed_planes allocated_planes omap list_omap app lock_held length];
  decide_all; rewrite ?app_nil_r;
  repeat match goal with |- _ /\ _ => split end;
  first [ reflexivity
        | left; reflexivity
        | right; reflexivity
        | solve [wf_dummy_solve]
        | solve [split; intros H;
                 first [ reflexivity | lia | discriminate H
                       | (vm_compute in H; discriminate H) ]] ].

Lemma dummy_buffer_alloc_effect (w : world) :
  wf_dummy (csi w) ->
  let n := Z.to_nat (plane_count (csi w)) in
  let got := granted n (dma_pool (kernel w)) in
  exists r w' tr,
    sun4i_csi1_dummy_buffer_alloc w = Some (r, w')
    /\ trace w' = trace w ++ tr
    /\ freed_planes tr
       = held_planes (csi w) ++ (if decide (r = 0) then [] else got)
    /\ allocated_planes tr = got
    /\ held_planes (csi w') = (if decide (r = 0) then got else [])
    /\ (r = 0 <-> length got = n)
    /\ (r = 0 \/ r = - ENOMEM)
    /\ wf_dummy (csi w')
    /\ csi w' = set_dummy (dummy (csi w')) (csi w)
    /\ mmio w' = mmio w /\ bufs w' = bufs w
    /\ lock_held false tr = false.
Proof.
  intros Hwf n got. pose proof Hwf as (Hn & Hv & Hd).
  unfold sun4i_csi1_dummy_buffer_alloc.
  destruct w as [c m b t k nd].
  destruct c as [pw fm pc ps wd ht hs vs hp vp bl sl sq [vv dd] mb].
  destruct k as [rd ce pool kt].
  subst n got.
  cbn [csi dummy virtual dummy_dma_addr plane_count plane_size trace kernel
       dma_pool mmio bufs] in *.
  apply length_3 in Hv as (v0 & v1 & v2 & ->).
  apply length_3 in Hd as (d0 & d1 & d2 & ->).
  assert (pc = 0 \/ pc = 1 \/ pc = 2 \/ pc = 3)
    as [-> | [-> | [-> | ->]]] by lia.
  - alloc_case.
  - destruct pool as [|[a0 e0] pool]; try split_null a0; alloc_case.
  - destruct pool as [|[a0 e0] [|[a1 e1] pool]];
      try split_null a0; try split_null a1; alloc_case.
  - destruct pool as [|[a0 e0] [|[a1 e1] [|[a2 e2] pool]]];
      try split_null a0; try split_null a1; try split_null a2; alloc_case.
Qed.

Lemma clear_events_no_planes (pending : list nat) :
  forall bs,
    allocated_planes (clear_events bs pending) = []
    /\ freed_planes (clear_events bs pending) = [].
Proof.
  induction pending as [|b rest IH]; intros bs; [split; reflexivity|].
  cbn [clear_events]. destruct (bs !! b) as [vb|]; [|split; reflexivity].
  rewrite allocated_planes_app, freed_planes_app.
  destruct (IH (<[b := mark_done vb]> bs)) as [-> ->].
  destruct (decide (vb2_state vb = VB2_BUF_STATE_ACTIVE)); split; reflexivity.
Qed.

Lemma wf_set_dummy (w w' : world) :
  wf w ->
  wf_dummy (csi w') ->
  csi w' = set_dummy (dummy (csi w')) (csi w) ->
  bufs w' = bufs w ->
  wf w'.
Proof.
  intros (Hs & Hn & Hv & Hd & Hp & Hsl & Hb) (Hn' & Hv' & Hd') Hc Hbufs.
  unfold wf. rewrite Hbufs.
  split; [rewrite Hc; exact Hs|]. split; [exact Hn'|].
  split; [exact Hv'|]. split; [exact Hd'|].
  split; [rewrite Hc; exact Hp|]. split; [rewrite Hc; exact Hsl|]. exact Hb.
Qed.

(** X11.  [sun4i_csi1_dummy_buffer_alloc] loses no memory.  It asks the
    allocator for one plane after the other and stops at the first
    refusal.  It returns 0 exactly when every plane was granted, and then
    holds the granted planes; otherwise it returns [-ENOMEM], holds
    nothing, and has given back the planes it was granted.  In both cases
    the planes it held before the call have been given back, so what was
    held before or granted during the call is, afterwards, either held or
    freed, each plane once. *)
Theorem dummy_buffer_alloc_no_leak (w : world) :
  wf_dummy (csi w) ->
  let n := Z.to_nat (plane_count (csi w)) in
  let got := granted n (dma_pool (kernel w)) in
  exists r w' tr,
    sun4i_csi1_dummy_buffer_alloc w = Some (r, w')
    /\ trace w' = trace w ++ tr
    /\ allocated_planes tr = got
    /\ (r = 0 \/ r = - ENOMEM)
    /\ (r = 0 <-> length got = n)
    /\ (r = 0 ->
        held_planes (csi w') = got /\ freed_planes tr = held_planes (csi w))
    /\ (r ≠ 0 ->
        held_planes (csi w') = []
        /\ freed_planes tr = held_planes (csi w) ++ got)
    /\ held_planes (csi w) ++ allocated_planes tr
       = freed_planes tr ++ held_planes (csi w')
    /\ wf_dummy (csi w')
    /\ lock_held false tr = false.
Proof.
  intros Hwf n got.
  destruct (dummy_buffer_alloc_effect w Hwf)
    as (r & w' & tr & Hrun & Htr & Hfreed & Halloc & Hheld & Hiff & Hr & Hwf'
        & _ & _ & _ & Hlock).
  fold n got in Hfreed, Halloc, Hheld, Hiff.
  exists r, w', tr.
  split; [exact Hrun|]. split; [exact Htr|]. split; [exact Halloc|].
  split; [exact Hr|]. split; [exact Hiff|].
  destruct (decide (r = 0)) as [Hz|Hnz].
  - rewrite app_nil_r in Hfreed.
    split; [intros _; split; assumption|]. split; [intros H; contradiction|].
    split; [rewrite Halloc, Hfreed, Hheld; reflexivity|].
    split; assumption.
  - split; [intros H; contradiction|]. split; [intros _; split; assumption|].
    split; [rewrite Halloc, Hfreed, Hheld, app_nil_r; reflexivity|].
    split; assumption.
Qed.

Lemma dummy_buffer_alloc_no_leak_witness :
  (exists w',
     sun4i_csi1_dummy_buffer_alloc world_probed = Some (0, w')
     /\ held_planes (csi w')
        = [(0xC0000000, 0x50000000); (0xC0200000, 0x50200000);
           (0xC0400000, 0x50400000)])
  /\ exists w' tr,
       sun4i_csi1_dummy_buffer_alloc world_queued = Some (- ENOMEM, w')
       /\ trace w' = trace world_queued ++ tr
       /\ held_planes (csi w') = []
       /\ freed_planes tr = held_planes (csi world_queued).
Proof.
  split.
  - destruct (dummy_buffer_alloc_no_leak world_probed)
      as (r & w' & tr & Hrun & _ & _ & _ & Hiff & Hok & _).
    + vm_compute. repeat split; discriminate.
    + assert (Hr : r = 0) by (apply Hiff; vm_compute; reflexivity).
      subst r. exists w'. split; [exact Hrun|].
      destruct (Hok eq_refl) as [-> _]. vm_compute. reflexivity.
  - destruct (dummy_buffer_alloc_no_leak world_queued)
      as (r & w' & tr & Hrun & Htr & _ & Hr & Hiff & _ & Hfail & _).
    + vm_compute. repeat split; discriminate.
    + assert (Hnz : r ≠ 0).
      { intros Hz. apply Hiff in Hz. vm_compute in Hz. discriminate. }
      destruct Hr as [Hr|Hr]; [contradiction|]. subst r.
      destruct (Hfail Hnz) as [Hheld Hfreed].
      exists w', tr. split; [exact Hrun|]. split; [exact Htr|].
      split; [exact Hheld|]. rewrite Hfreed. vm_compute. reflexivity.
Defined.

Lemma queue_setup_eq (w : world) :
  wf w ->
  let w1 :=
    with_trace (trace w ++ clear_events (bufs w) (buffer_list (csi w)))
      (with_bufs (cleared (bufs w) (buffer_list (csi w)))
         (with_nodes (unlinked (nodes w) (buffer_list (csi w)))
            (with_csi (set_buffer_list [] (csi w)) w))) in
  sun4i_csi1_queue_setup w
  = match sun4i_csi1_dummy_buffer_alloc w1 with
    | Some (ret, w') =>
        Some ((ret, plane_count (csi w),
               replicate (Z.to_nat (plane_count (csi w)))
                 (plane_size (csi w))), w')
    | None => None
    end.
Proof.
  intros (_ & _ & _ & _ & Hp & _) w1. unfold sun4i_csi1_queue_setup.
  rewrite !run_bind_gets.
  rewrite (run_bind_eq _ _ _ _ _ (buffer_list_clear_eq w Hp)). fold w1.
  unfold mbind, M_bind.
  destruct (sun4i_csi1_dummy_buffer_alloc w1) as [[ret w']|]; reflexivity.
Qed.

(** X12.  [sun4i_csi1_queue_setup] reports the plane count and one size
    per plane, empties the pending list, and allocates the dummy buffer
    anew: it returns 0 when the allocator grants every plane and
    [-ENOMEM], holding nothing, when it does not, and what it held before
    has been given back either way.  The buffer count it is passed plays
    no part. *)
Theorem queue_setup_effect (w : world) :
  wf w ->
  let n := Z.to_nat (plane_count (csi w)) in
  let got := granted n (dma_pool (kernel w)) in
  exists ret w' tr,
    sun4i_csi1_queue_setup w
    = Some ((ret, plane_count (csi w), replicate n (plane_size (csi w))), w')
    /\ trace w' = trace w ++ tr
    /\ buffer_list (csi w') = []
    /\ (ret = 0 \/ ret = - ENOMEM)
    /\ (ret = 0 <-> length got = n)
    /\ held_planes (csi w') = (if decide (ret = 0) then got else [])
    /\ allocated_planes tr = got
    /\ freed_planes tr
       = held_planes (csi w) ++ (if decide (ret = 0) then [] else got)
    /\ mmio w' = mmio w
    /\ wf w'.
Proof.
  intros Hwf n got. rewrite (queue_setup_eq w Hwf). cbn zeta.
  pose proof (wf_cleared w Hwf) as Hwf1.
  match type of Hwf1 with wf ?x => set (w1 := x) in * end.
  destruct (dummy_buffer_alloc_effect w1 (wf_wf_dummy w1 Hwf1))
    as (r & w' & tr & Hrun & Htr & Hfreed & Halloc & Hheld & Hiff & Hr & Hwfd
        & Hcsi & Hm & Hb & _).
  rewrite Hrun. exists r, w'. eexists.
  split; [reflexivity|].
  split; [rewrite Htr; unfold w1; cbn [trace with_trace];
          rewrite <- app_assoc; reflexivity|].
  split; [rewrite Hcsi; reflexivity|].
  split; [exact Hr|]. split; [exact Hiff|]. split; [exact Hheld|].
  destruct (clear_events_no_planes (buffer_list (csi w)) (bufs w)) as [Ha Hf].
  split; [rewrite allocated_planes_app, Ha, Halloc; reflexivity|].
  split; [rewrite freed_planes_app, Hf, Hfreed; reflexivity|].
  split; [exact Hm|].
  apply (wf_set_dummy w1 w' Hwf1 Hwfd Hcsi Hb).
Qed.

Lemma queue_setup_effect_witness :
  exists w',
    sun4i_csi1_queue_setup world_probed
    = Some ((0, 3, [2073600; 2073600; 2073600]), w')
    /\ held_planes (csi w')
       = [(0xC0000000, 0x50000000); (0xC0200000, 0x50200000);
          (0xC0400000, 0x50400000)].
Proof.
  assert (Hwf : wf world_probed) by (apply wfb_wf; vm_compute; reflexivity).
  destruct (queue_setup_effect world_probed Hwf)
    as (ret & w' & tr & Hrun & _ & _ & _ & Hiff & Hheld & _).
  assert (Hr : ret = 0) by (apply Hiff; vm_compute; reflexivity).
  subst ret. exists w'. split; [rewrite Hrun; vm_compute; reflexivity|].
  rewrite Hheld. vm_compute. reflexivity.
Defined.

Lemma vb2_queue_free_eq (w : world) :
  wf_dummy (csi w) ->
  sun4i_csi1_vb2_queue_free w
  = Some (tt, with_trace
                (trace w ++ [EvSpinLock true; EvSpinUnlock true]
                 ++ free_events (plane_size (csi w)) (held_planes (csi w)))
                (with_csi (set_dummy (released (csi w)) (csi w)) w)).
Proof.
  intros Hwf. unfold sun4i_csi1_vb2_queue_free.
  rewrite (run_bind_eq _ _ _ _ _ (dummy_buffer_free_eq w Hwf)). reflexivity.
Qed.

(** X13.  From queue setup to queue release no plane is lost: after
    [sun4i_csi1_queue_setup] followed by [sun4i_csi1_vb2_queue_free] the
    driver holds no plane, and the planes given back over the two calls
    are those it held at first followed by those the allocator granted,
    each once. *)
Theorem queue_setup_then_free (w : world) :
  wf w ->
  exists ret n sizes w1 w2 tr,
    sun4i_csi1_queue_setup w = Some ((ret, n, sizes), w1)
    /\ sun4i_csi1_vb2_queue_free w1 = Some (tt, w2)
    /\ trace w2 = trace w ++ tr
    /\ held_planes (csi w2) = []
    /\ freed_planes tr = held_planes (csi w) ++ allocated_planes tr.
Proof.
  intros Hwf. rewrite (queue_setup_eq w Hwf). cbn zeta.
  pose proof (wf_cleared w Hwf) as Hwf0.
  match type of Hwf0 with wf ?x => set (w0 := x) in * end.
  destruct (dummy_buffer_alloc_effect w0 (wf_wf_dummy w0 Hwf0))
    as (ret & w1 & tr1 & Hrun & Htr & Hfreed & Halloc & Hheld & _ & _ & Hwfd
        & _).
  rewrite Hrun.
  destruct (clear_events_no_planes (buffer_list (csi w)) (bufs w)) as [Ha Hf].
  eexists ret, _, _, w1, _, _.
  split; [reflexivity|].
  split; [apply (vb2_queue_free_eq w1 Hwfd)|].
  split; [cbn [trace with_trace]; rewrite Htr; unfold w0;
          cbn [trace with_trace]; rewrite <- !app_assoc; reflexivity|].
  split; [apply released_holds_nothing, Hwfd|].
  rewrite !freed_planes_app, !allocated_planes_app,
    freed_planes_free_events, allocated_planes_free_events.
  cbn [freed_planes allocated_planes omap list_omap].
  rewrite Ha, Hf, Hfreed, Halloc, Hheld, !app_nil_r. cbn [app].
  destruct (decide (ret = 0)); rewrite ?app_nil_r; reflexivity.
Qed.

Lemma queue_setup_then_free_witness :
  exists w1 w2,
    sun4i_csi1_queue_setup world_probed
    = Some ((0, 3, [2073600; 2073600; 2073600]), w1)
    /\ sun4i_csi1_vb2_queue_free w1 = Some (tt, w2)
    /\ held_planes (csi w2) = []
    /\ freed_planes (trace w2)
       = [(0xC0000000, 0x50000000); (0xC0200000, 0x50200000);
          (0xC0400000, 0x50400000)].
Proof.
  assert (Hwf : wf world_probed) by (apply wfb_wf; vm_compute; reflexivity).
  destruct (queue_setup_then_free world_probed Hwf)
    as (ret & n & sizes & w1 & w2 & tr & Hrun & Hfree & Htr & Hheld & Hfreed).
  exists w1, w2.
  assert (Hsetup : sun4i_csi1_queue_setup world_probed
                   = Some ((0, 3, [2073600; 2073600; 2073600]), w1)).
  { rewrite Hrun. vm_compute in Hrun. injection Hrun as <- <- <- <-.
    vm_compute. reflexivity. }
  split; [exact Hsetup|]. split; [exact Hfree|]. split; [exact Hheld|].
  rewrite Htr. change (trace world_probed) with (@nil event). cbn [app].
  rewrite Hfreed.
  rewrite Hsetup in Hrun. injection Hrun as <- <- <-.
  vm_compute in Hsetup. injection Hsetup as <-.
  vm_compute in Hfree. injection Hfree as <-.
  vm_compute in Htr. subst tr. vm_compute. reflexivity.
Defined.

(** * What starting the engine programs *)

Lemma masked_bits (old value mask i : Z) :
  0 <= i ->
  Z.testbit (masked old value mask) i
  = (i <? 32) && (if Z.testbit mask i then Z.testbit value i
                  else Z.testbit old i).
Proof. apply mask_stored_bits. Qed.

Lemma testbit_small (n k i : Z) :
  0 <= n < 2 ^ k -> 0 <= k <= i -> Z.testbit n i = false.
Proof.
  intros Hn Hk. rewrite <- (Z.mod_small n (2 ^ k)) by exact Hn.
  apply Z.mod_pow2_bits_high. lia.
Qed.

Lemma engine_start_registers (w w' : world) :
  wf w ->
  sun4i_csi1_engine_start w = Some (tt, w') ->
  let c := csi w in
  reg w' SUN4I_CSI1_CONFIG
  = masked (masked (masked (masked (masked (reg w SUN4I_CSI1_CONFIG)
                                      0x00400000 0x00700000)
                              0x000C0000 0x000F0000)
                      (if vsync_polarity c then 0x04 else 0) 0x04)
              (if hsync_polarity c then 0x02 else 0) 0x02) 0 0x01
  /\ reg w' SUN4I_CSI1_BUFFER_CONTROL = wrap32 0x01
  /\ reg w' SUN4I_CSI1_INT_ENABLE
     = masked (reg w SUN4I_CSI1_INT_ENABLE) 0x02 0x02
  /\ reg w' SUN4I_CSI1_HSIZE
     = masked (masked (reg w SUN4I_CSI1_HSIZE) (Z.shiftl (width c) 16)
                 0x1FFF0000) (hdisplay_start c) 0x1FFF
  /\ reg w' SUN4I_CSI1_VSIZE
     = masked (masked (reg w SUN4I_CSI1_VSIZE) (Z.shiftl (height c) 16)
                 0x1FFF0000) (vdisplay_start c) 0x1FFF
  /\ reg w' SUN4I_CSI1_STRIDE
     = masked (reg w SUN4I_CSI1_STRIDE) (width c) 0x1FFF
  /\ reg w' SUN4I_CSI1_CAPTURE
     = masked (reg w SUN4I_CSI1_CAPTURE) 0x02 0x02
  /\ exists tr,
       trace w' = trace w ++ tr
       /\ map fst (register_writes tr) = engine_start_writes
       /\ unlocked_writes false tr = []
       /\ lock_held false tr = false
       /\ sleeps_in_atomic false tr = false.
Proof.
  intros Hwf H.
  pose proof (wf_pending_two w) as Htwo. specialize (fun a b c => Htwo a b c Hwf).
  destruct Hwf as (Hs & Hn & Hv & Hd & Hp & Hsl & Hb).
  destruct w as [c m bl t k nd].
  destruct c as [pw fm pc ps wd ht hs vs hp vp pl sl sq dm mb].
  cbn [csi bufs kernel buffers buffer_list sequence dummy trace mmio] in *.
  apply length_2 in Hs as (s0 & s1 & ->).
  unfold sun4i_csi1_engine_start in H.
  destruct pl as [|b0 [|b1 rest]].
  1,2: eval_in H; discriminate.
  destruct (Htwo b0 b1 rest eq_refl)
    as (st0 & sq0 & ts0 & a0 & a1 & a2 & st1 & sq1 & ts1 & c0 & c1 & c2
        & Hl0 & Hl1).
  eval_in H.
  injection H as <-.
  cbn zeta. unfold reg, masked.
  cbn [mmio trace hsync_polarity vsync_polarity width height hdisplay_start
       vdisplay_start].
  split; [unfold_registers; lookups; reflexivity|].
  split; [unfold_registers; lookups; reflexivity|].
  split; [unfold_registers; lookups; reflexivity|].
  split; [unfold_registers; lookups; reflexivity|].
  split; [unfold_registers; lookups; reflexivity|].
  split; [unfold_registers; lookups; reflexivity|].
  split; [unfold_registers; lookups; reflexivity|].
  eexists. split; [rewrite <- ?app_assoc; reflexivity|].
  cbn [app]. repeat split.
Qed.

Ltac bool_cmp :=
  repeat match goal with
         | |- context [?a <? ?b] =>
             first [ replace (a <? b) with true
                       by (symmetry; apply Z.ltb_lt; lia)
                   | replace (a <? b) with false
                       by (symmetry; apply Z.ltb_ge; lia) ]
         | |- context [?a <=? ?b] =>
             first [ replace (a <=? b) with true
                       by (symmetry; apply Z.leb_le; lia)
                   | replace (a <=? b) with false
                       by (symmetry; apply Z.leb_gt; lia) ]
         end;
  cbn [andb].

(** The start field and the size field of a size register after the two
    masked writes of [sun4i_csi1_engine_start]. *)
Lemma size_register_fields (old size start : Z) :
  let stored := masked (masked old (Z.shiftl size 16) 0x1FFF0000) start 0x1FFF in
  (forall i, 0 <= i < 13 -> Z.testbit stored i = Z.testbit start i)
  /\ (forall i, 16 <= i < 29 -> Z.testbit stored i = Z.testbit size (i - 16)).
Proof.
  cbn zeta. split; intros i Hi.
  - rewrite masked_bits, testbit_0x1FFF by lia. bool_cmp. reflexivity.
  - rewrite !masked_bits, testbit_0x1FFF, testbit_0x1FFF0000 by lia.
    bool_cmp. apply Z.shiftl_spec. lia.
Qed.

(** The configuration the engine is started with: input format yuv444
    (bits 22 to 20), output format field planar yuv444 (bits 19 to 16),
    the two sync polarities (bits 2 and 1) and a low pixel clock (bit 0). *)
Lemma config_fields (old : Z) (hp vp : bool) :
  Z.land
    (masked (masked (masked (masked (masked old 0x00400000 0x00700000)
                               0x000C0000 0x000F0000)
                       (if vp then 0x04 else 0) 0x04)
               (if hp then 0x02 else 0) 0x02) 0 0x01) 0x007F0007
  = 0x004C0000 + (if vp then 4 else 0) + (if hp then 2 else 0).
Proof.
  apply Z.bits_inj'. intros n Hn. rewrite Z.land_spec.
  destruct (Z.lt_ge_cases n 23) as [Hlt|Hge].
  - rewrite !masked_bits by lia.
    assert (Hk : n = Z.of_nat (Z.to_nat n)) by lia.
    assert (Hb : (Z.to_nat n < 23)%nat) by lia.
    revert Hk Hb. generalize (Z.to_nat n). intros k -> Hb.
    do 23 (destruct k as [|k]; [destruct hp, vp; cbn;
                                rewrite ?andb_false_r, ?andb_true_r;
                                reflexivity|]).
    lia.
  - rewrite (testbit_small 0x007F0007 23 n) by lia.
    rewrite andb_false_r. symmetry.
    destruct hp, vp; apply (testbit_small _ 23 n); lia.
Qed.

(** X14.  Starting the engine on at least two pending buffers programs
    the capture geometry from the driver structure: the start fields of
    HSIZE and VSIZE (bits 0 to 12) take [hdisplay_start] and
    [vdisplay_start], their size fields (bits 16 to 28) take the width and
    the height, the stride takes the width; the configuration register
    selects yuv444 in and planar yuv444 out with the two sync polarities;
    double buffering and the frame-done interrupt are switched on.  The
    nineteen register writes are made inside one locked section and the
    write that starts the capture comes last. *)
Theorem engine_start_programs_geometry (w : world) :
  wf w ->
  (2 <= length (buffer_list (csi w)))%nat ->
  let c := csi w in
  exists w' tr,
    sun4i_csi1_engine_start w = Some (tt, w')
    /\ (forall i, 0 <= i < 13 ->
          Z.testbit (reg w' SUN4I_CSI1_HSIZE) i
          = Z.testbit (hdisplay_start c) i)
    /\ (forall i, 16 <= i < 29 ->
          Z.testbit (reg w' SUN4I_CSI1_HSIZE) i = Z.testbit (width c) (i - 16))
    /\ (forall i, 0 <= i < 13 ->
          Z.testbit (reg w' SUN4I_CSI1_VSIZE) i
          = Z.testbit (vdisplay_start c) i)
    /\ (forall i, 16 <= i < 29 ->
          Z.testbit (reg w' SUN4I_CSI1_VSIZE) i
          = Z.testbit (height c) (i - 16))
    /\ (forall i, 0 <= i < 13 ->
          Z.testbit (reg w' SUN4I_CSI1_STRIDE) i = Z.testbit (width c) i)
    /\ Z.land (reg w' SUN4I_CSI1_CONFIG) 0x007F0007
       = 0x004C0000 + (if vsync_polarity c then 4 else 0)
         + (if hsync_polarity c then 2 else 0)
    /\ reg w' SUN4I_CSI1_BUFFER_CONTROL = 1
    /\ Z.testbit (reg w' SUN4I_CSI1_INT_ENABLE) 1 = true
    /\ Z.testbit (reg w' SUN4I_CSI1_CAPTURE) 1 = true
    /\ trace w' = trace w ++ tr
    /\ map fst (register_writes tr) = engine_start_writes
    /\ last engine_start_writes = Some SUN4I_CSI1_CAPTURE
    /\ unlocked_writes false tr = []
    /\ lock_held false tr = false.
Proof.
  intros Hwf Hlen c.
  destruct (buffer_list (csi w)) as [|b0 [|b1 rest]] eqn:Hpl;
    [cbn in Hlen; lia | cbn in Hlen; lia |].
  destruct (engine_start_total w b0 b1 rest Hwf Hpl) as [w' Hrun].
  destruct (engine_start_registers w w' Hwf Hrun)
    as (Hconfig & Hbc & Hie & Hh & Hv & Hst & Hcap
        & tr & Htr & Hwrites & Hunl & Hlock & _).
  fold c in Hconfig, Hh, Hv, Hst.
  exists w', tr. split; [exact Hrun|].
  destruct (size_register_fields (reg w SUN4I_CSI1_HSIZE) (width c)
              (hdisplay_start c)) as [Hh1 Hh2].
  destruct (size_register_fields (reg w SUN4I_CSI1_VSIZE) (height c)
              (vdisplay_start c)) as [Hv1 Hv2].
  rewrite Hconfig, Hbc, Hie, Hh, Hv, Hst, Hcap.
  split; [exact Hh1|]. split; [exact Hh2|].
  split; [exact Hv1|]. split; [exact Hv2|].
  split.
  { intros i Hi. rewrite masked_bits, testbit_0x1FFF by lia. bool_cmp.
    reflexivity. }
  split; [apply config_fields|].
  split; [reflexivity|].
  split; [rewrite masked_bits by lia; reflexivity|].
  split; [rewrite masked_bits by lia; reflexivity|].
  split; [exact Htr|]. split; [exact Hwrites|].
  split; [reflexivity|]. split; [exact Hunl | exact Hlock].
Qed.

Lemma engine_start_programs_geometry_witness :
  exists w',
    sun4i_csi1_engine_start world_queued = Some (tt, w')
    /\ reg w' SUN4I_CSI1_HSIZE = 0x07800094
    /\ reg w' SUN4I_CSI1_VSIZE = 0x04380024
    /\ reg w' SUN4I_CSI1_STRIDE = 0x780
    /\ reg w' SUN4I_CSI1_CONFIG = 0x004C0000.
Proof.
  destruct (engine_start_programs_geometry world_queued world_queued_wf)
    as (w' & tr & Hrun & _).
  - vm_compute. lia.
  - exists w'. split; [exact Hrun|].
    vm_compute in Hrun. injection Hrun as <-.
    vm_compute. repeat split.
Defined.

(** X15.  A control set while the engine is stopped takes effect at the
    next start: the value [sun4i_csi1_ctrl_set] stored is what
    [sun4i_csi1_engine_start] writes into the start field of the size
    register. *)
Theorem ctrl_set_then_engine_start (w : world) (val : Z) :
  wf w ->
  powered (csi w) = false ->
  (2 <= length (buffer_list (csi w)))%nat ->
  exists w1 w2,
    sun4i_csi1_ctrl_set SUN4I_CSI1_HDISPLAY_START val w = Some (0, w1)
    /\ mmio w1 = mmio w
    /\ sun4i_csi1_engine_start w1 = Some (tt, w2)
    /\ (forall i, 0 <= i < 13 ->
          Z.testbit (reg w2 SUN4I_CSI1_HSIZE) i = Z.testbit val i)
    /\ (forall i, 16 <= i < 29 ->
          Z.testbit (reg w2 SUN4I_CSI1_HSIZE) i
          = Z.testbit (width (csi w)) (i - 16)).
Proof.
  intros Hwf Hp Hlen.
  set (w1 := with_csi (set_hdisplay_start val (csi w)) w).
  assert (Hwf1 : wf w1) by (apply (wf_ext w w1 Hwf); reflexivity).
  assert (Hlen1 : (2 <= length (buffer_list (csi w1)))%nat) by exact Hlen.
  destruct (buffer_list (csi w1)) as [|b0 [|b1 rest]] eqn:Hpl;
    [cbn in Hlen1; lia | cbn in Hlen1; lia |].
  destruct (engine_start_total w1 b0 b1 rest Hwf1 Hpl) as [w2 Hrun].
  destruct (engine_start_registers w1 w2 Hwf1 Hrun)
    as (_ & _ & _ & Hh & _).
  exists w1, w2.
  split; [rewrite ctrl_set_hdisplay_eq, Hp; reflexivity|].
  split; [reflexivity|]. split; [exact Hrun|].
  rewrite Hh.
  apply (size_register_fields (reg w1 SUN4I_CSI1_HSIZE) (width (csi w)) val).
Qed.

Lemma ctrl_set_then_engine_start_witness :
  exists w1 w2,
    sun4i_csi1_ctrl_set SUN4I_CSI1_HDISPLAY_START 192 world_queued
    = Some (0, w1)
    /\ sun4i_csi1_engine_start w1 = Some (tt, w2)
    /\ reg w2 SUN4I_CSI1_HSIZE = 0x078000C0.
Proof.
  destruct (ctrl_set_then_engine_start world_queued 192 world_queued_wf)
    as (w1 & w2 & Hset & _ & Hrun & _).
  - vm_compute. reflexivity.
  - vm_compute. lia.
  - exists w1, w2. split; [exact Hset|]. split; [exact Hrun|].
    vm_compute in Hset. injection Hset as <-.
    vm_compute in Hrun. injection Hrun as <-.
    vm_compute. reflexivity.
Defined.

(** * Starting and stopping, composed *)

Lemma register_events_quiet (tr : list event) :
  Forall (fun e => match e with
                   | EvSpinLock _ | EvSpinUnlock _ | EvWritel _ _ => True
                   | _ => False
                   end) tr ->
  power_events tr = [] /\ completed_buffers tr = []
  /\ failed_buffers tr = [] /\ dma_frees tr = [].
Proof.
  induction 1 as [|e tr He _ (H1 & H2 & H3 & H4)]; [repeat split|].
  destruct e; try contradiction; cbn; repeat split; assumption.
Qed.

Lemma mark_done_trace_completes_nothing (queue : list sun4i_csi1_buffer) :
  forall i, completed_buffers (mark_done_trace i queue) = [].
Proof.
  induction queue as [|b queue IH]; intros i; [reflexivity|].
  cbn [mark_done_trace]. rewrite completed_buffers_app, IH.
  unfold mark_done_events.
  destruct (decide (vb2_state b = VB2_BUF_STATE_ACTIVE)); reflexivity.
Qed.

Lemma start_inv_ext (w w' : world) :
  start_inv w ->
  bufs w' = bufs w ->
  buffers (csi w') = buffers (csi w) ->
  buffer_list (csi w') = buffer_list (csi w) ->
  plane_count (csi w') = plane_count (csi w) ->
  dummy (csi w') = dummy (csi w) ->
  start_inv w'.
Proof.
  intros (Hwf & Hnd & Hact) Hb Hs Hp Hn Hd. split; [|split].
  - apply (wf_ext w w' Hwf Hb Hs Hp Hn Hd).
  - rewrite Hp. exact Hnd.
  - rewrite Hp. eapply Forall_impl; [exact Hact|].
    intros x (vb & Hl & Hst). exists vb. rewrite Hb. split; assumption.
Qed.

(** Starting leaves every buffer of the queue as easy to unlink as it
    was: the two that go to the slots are left pointing at themselves. *)
Lemma engine_start_unlinkable (w w' : world) :
  wf w ->
  sun4i_csi1_engine_start w = Some (tt, w') ->
  queue_unlinkable w ->
  queue_unlinkable w'.
Proof.
  intros Hwf Hrun Hu.
  destruct (engine_start_effect w w' Hwf Hrun)
    as (b0 & b1 & rest & _ & _ & Hpl & _ & _ & Hcsi & Hbufs & _ & _ & _ & _
        & _ & Hnodes & _).
  intros b Hb. rewrite Hbufs in Hb. specialize (Hu b Hb).
  unfold unlinkable, node in *. rewrite Hcsi, Hnodes.
  cbn [buffer_list set_buffers set_buffer_list]. rewrite Hpl in Hu.
  destruct (decide (b = b1)) as [-> | Hne1];
    [right; rewrite lookup_insert_eq; reflexivity|].
  rewrite lookup_insert_ne by congruence.
  destruct (decide (b = b0)) as [-> | Hne0];
    [right; rewrite lookup_insert_eq; reflexivity|].
  rewrite lookup_insert_ne by congruence.
  destruct Hu as [Hin | Hs]; [left | right; exact Hs].
  apply elem_of_cons in Hin as [-> | Hin]; [contradiction|].
  apply elem_of_cons in Hin as [-> | Hin]; [contradiction|]. exact Hin.
Qed.

(** X16.  [sun4i_csi1_streaming_start] does not itself ask for the three
    buffers the driver declares as its minimum.  With working clocks and
    exactly two pending buffers it starts the capture with both in the
    slots and nothing in reserve; the first frame-done interrupt then
    finds the pending list empty, leaves slot A without a buffer and
    switches the module off. *)
Theorem streaming_start_checks_no_depth (w : world) :
  start_inv w ->
  (forall s, s ∈ power_sequence -> step_ret (kernel w) s = 0) ->
  length (buffer_list (csi w)) = 2%nat ->
  exists w1 w2 b0 b1,
    buffer_list (csi w) = [b0; b1]
    /\ sun4i_csi1_streaming_start w = Some (0, w1)
    /\ powered (csi w1) = true
    /\ Z.testbit (reg w1 SUN4I_CSI1_CAPTURE) 1 = true
    /\ buffers (csi w1) = [Some b0; Some b1]
    /\ buffer_list (csi w1) = []
    /\ sun4i_csi1_frame_done w1 = Some (tt, w2)
    /\ buffers (csi w2) = [None; Some b1]
    /\ Z.testbit (reg w2 SUN4I_CSI1_ENABLE) 0 = false.
Proof.
  intros Hstart Hok Hlen. pose proof Hstart as (Hwf & _).
  destruct (buffer_list (csi w)) as [|b0 [|b1 [|b2 rest]]] eqn:Hpl;
    try discriminate.
  destruct (streaming_start_total w b0 b1 [] Hwf Hpl Hok) as [w1 Hrun].
  destruct (streaming_start_split w w1 0 Hrun)
    as [[Hne _] | (_ & _ & wa & wb & stored & _ & Hwa & Hengine & Hw1)];
    [contradiction|].
  assert (Hstarta : start_inv wa)
    by (apply (start_inv_ext w wa Hstart); rewrite Hwa; reflexivity).
  destruct (engine_start_inv wa wb Hstarta Hengine) as [Hinvb Hseq].
  destruct (engine_start_effect wa wb (proj1 Hstarta) Hengine)
    as (c0 & c1 & rest & _ & _ & Hpl' & _ & _ & Hcsi & Hbufs & _ & _ & _
        & Hcap & _).
  rewrite Hwa in Hpl'.
  cbn [csi with_trace with_csi with_mmio buffer_list set_powered] in Hpl'.
  rewrite Hpl in Hpl'. injection Hpl' as <- <- <-.
  assert (Hcsi1 : csi w1
                  = set_buffers [Some b0; Some b1]
                      (set_buffer_list [] (set_sequence 0 (csi wa))))
    by (rewrite Hw1; exact Hcsi).
  assert (Hinv1 : session_inv w1)
    by (apply (session_inv_ext wb w1 Hinvb); rewrite Hw1; reflexivity).
  assert (Hslot : array_load (buffers (csi w1))
                    (Z.land (sequence (csi w1)) 1) = Some (Some b0))
    by (rewrite Hcsi1; reflexivity).
  destruct (frame_done_total w1 b0 (proj1 Hinv1) Hslot) as [w2 Hfd].
  destruct (frame_done_effect w1 w2 (proj1 Hinv1) Hfd)
    as (old & b & addrs & _ & _ & Hlen3 & _ & (slots' & Hst & Hcsi2)
        & Hregs & _).
  rewrite Hcsi1 in Hst, Hcsi2, Hregs.
  cbn [buffer_list buffers sequence set_buffers set_buffer_list set_sequence
       head tail] in Hst, Hcsi2, Hregs.
  change (Z.land 0 1) with 0 in Hst, Hregs.
  cbn in Hst. injection Hst as <-.
  destruct Hregs as [_ Hmmio].
  apply length_3 in Hlen3 as (a0 & a1 & a2 & ->).
  exists w1, w2, b0, b1.
  split; [reflexivity|]. split; [exact Hrun|].
  split; [rewrite Hcsi1, Hwa; reflexivity|].
  split; [rewrite Hw1; exact Hcap|].
  split; [rewrite Hcsi1; reflexivity|].
  split; [rewrite Hcsi1; reflexivity|].
  split; [exact Hfd|].
  split; [rewrite Hcsi2; reflexivity|].
  unfold reg. rewrite Hmmio.
  destruct (program_registers_read 0 a0 a1 a2
              (<[SUN4I_CSI1_ENABLE :=
                   module_disabled (reg w1 SUN4I_CSI1_ENABLE)]> (mmio w1)))
    as [_ Hother].
  rewrite (Hother SUN4I_CSI1_ENABLE (enable_not_slot_register 0)).
  rewrite lookup_insert_eq. apply module_disabled_bit.
Qed.

Lemma streaming_start_checks_no_depth_witness :
  exists w1 w2,
    sun4i_csi1_streaming_start
      (with_csi (set_buffer_list [0; 1]%nat (csi world_queued)) world_queued)
    = Some (0, w1)
    /\ buffer_list (csi w1) = []
    /\ sun4i_csi1_frame_done w1 = Some (tt, w2)
    /\ buffers (csi w2) = [None; Some 1%nat].
Proof.
  destruct (streaming_start_checks_no_depth
              (with_csi (set_buffer_list [0; 1]%nat (csi world_queued))
                 world_queued))
    as (w1 & w2 & b0 & b1 & Hpl & Hrun & _ & _ & _ & Hempty & Hfd & Hslots & _).
  - apply start_invb_start_inv. vm_compute. reflexivity.
  - intros s Hs. destruct s; vm_compute; reflexivity.
  - vm_compute. reflexivity.
  - vm_compute in Hpl. injection Hpl as <- <-.
    exists w1, w2. split; [exact Hrun|]. split; [exact Hempty|].
    split; [exact Hfd | exact Hslots].
Defined.

(** X17.  Streaming started and then stopped, on working clocks, with at
    least two distinct active buffers pending and every buffer of the
    queue either pending or with a list node that points at itself: both
    calls return, no frame is delivered, every buffer that was queued
    comes back with an error status, the pending list ends empty, the
    power sequence is run forward and then undone in reverse, capture and
    module enable end cleared, the device ends marked as not powered, and
    the dummy buffer is held as before.  When some buffer of the queue is
    neither pending nor has such a node, the start returns and the stop
    dereferences an invalid pointer. *)
Theorem start_then_stop (w : world) :
  start_inv w ->
  (forall s, s ∈ power_sequence -> step_ret (kernel w) s = 0) ->
  (2 <= length (buffer_list (csi w)))%nat ->
  exists w1,
    sun4i_csi1_streaming_start w = Some (0, w1)
    /\ powered (csi w1) = true
    /\ (~ queue_unlinkable w -> sun4i_csi1_streaming_stop w1 = None)
    /\ (queue_unlinkable w ->
        exists w2 tr,
          sun4i_csi1_streaming_stop w1 = Some (tt, w2)
          /\ trace w2 = trace w ++ tr
          /\ powered (csi w2) = false
          /\ buffer_list (csi w2) = []
          /\ (forall b, b ∈ buffer_list (csi w) ->
                b ∈ failed_buffers tr
                /\ exists vb, bufs w2 !! b = Some vb
                              /\ vb2_state vb = VB2_BUF_STATE_ERROR)
          /\ completed_buffers tr = []
          /\ power_events tr
             = concat (map (step_events (kernel w)) power_sequence)
               ++ map step_undo (rev power_sequence)
          /\ dummy (csi w2) = dummy (csi w)
          /\ reg w2 SUN4I_CSI1_CAPTURE = 0
          /\ Z.testbit (reg w2 SUN4I_CSI1_ENABLE) 0 = false).
Proof.
  intros Hstart Hok Hlen. pose proof Hstart as (Hwf & Hnd & Hact).
  destruct (buffer_list (csi w)) as [|b0 [|b1 rest]] eqn:Hpl;
    [cbn in Hlen; lia | cbn in Hlen; lia |].
  destruct (streaming_start_total w b0 b1 rest Hwf Hpl Hok) as [w1 Hrun].
  destruct (streaming_start_split w w1 0 Hrun)
    as [[Hne _] | (_ & _ & wa & wb & stored & _ & Hwa & Hengine & Hw1)];
    [contradiction|].
  assert (Hstarta : start_inv wa)
    by (apply (start_inv_ext w wa Hstart); rewrite Hwa; reflexivity).
  destruct (engine_start_inv wa wb Hstarta Hengine) as [(Hwfb & _) _].
  destruct (engine_start_effect wa wb (proj1 Hstarta) Hengine)
    as (c0 & c1 & rest' & _ & _ & Hpl' & _ & _ & Hcsi & Hbufs & Hk & _ & _ & _
        & _ & Hnodes & tre & Htre & Hquiet).
  assert (Hpla : buffer_list (csi wa) = b0 :: b1 :: rest)
    by (rewrite Hwa; exact Hpl).
  rewrite Hpla in Hpl'. injection Hpl' as <- <- <-.
  destruct (register_events_quiet tre Hquiet) as (Hq1 & Hq2 & Hq3 & Hq4).
  assert (Hwf1 : wf w1) by (apply (wf_ext wb w1 Hwfb); rewrite Hw1; reflexivity).
  assert (Hbufs1 : bufs w1 = bufs w)
    by (rewrite Hw1; cbn [bufs with_trace]; rewrite Hbufs, Hwa; reflexivity).
  assert (Hux : queue_unlinkable w1 <-> queue_unlinkable w).
  { split.
    - intros Hu1 b Hb. rewrite <- Hbufs1 in Hb. specialize (Hu1 b Hb).
      unfold unlinkable, node in *. rewrite Hw1 in Hu1.
      cbn [csi nodes with_trace] in Hu1. rewrite Hcsi, Hnodes in Hu1.
      cbn [buffer_list set_buffers set_buffer_list] in Hu1.
      rewrite Hwa in Hu1. cbn [nodes with_trace with_csi with_mmio] in Hu1.
      rewrite Hpl.
      destruct (decide (b = b0)) as [-> | Hne0]; [left; set_solver|].
      destruct (decide (b = b1)) as [-> | Hne1]; [left; set_solver|].
      rewrite !lookup_insert_ne in Hu1 by congruence.
      destruct Hu1 as [Hin | Hs]; [left; set_solver | right; exact Hs].
    - intros Hu.
      apply (queue_unlinkable_ext wb w1);
        [rewrite Hw1; reflexivity..|].
      apply (engine_start_unlinkable wa wb (proj1 Hstarta) Hengine).
      apply (queue_unlinkable_ext w wa); [rewrite Hwa; reflexivity..|].
      exact Hu. }
  exists w1. split; [exact Hrun|].
  split; [rewrite Hw1; cbn [csi with_trace]; rewrite Hcsi, Hwa; reflexivity|].
  split.
  { intros Hnu. apply streaming_stop_fault. intros Hu1. apply Hnu, Hux, Hu1. }
  intros Hu. apply Hux in Hu.
  assert (Htr1 : trace w1
                 = trace w
                   ++ concat (map (step_events (kernel w)) power_sequence)
                   ++ [EvSpinLock true; EvWritel SUN4I_CSI1_ENABLE stored;
                       EvSpinUnlock true]
                   ++ print_events ++ tre ++ print_events).
  { rewrite Hw1. cbn [trace with_trace]. rewrite Htre, Hwa.
    cbn [trace with_trace]. rewrite <- !app_assoc. reflexivity. }
  pose proof (streaming_stop_eq w1 Hwf1 Hu) as Hstop. cbn zeta in Hstop.
  match type of Hstop with _ = Some (tt, ?x) => set (w2 := x) in * end.
  exists w2. eexists.
  split; [exact Hstop|].
  split.
  { unfold w2. cbn [trace with_trace]. rewrite Htr1, <- !app_assoc.
    reflexivity. }
  split; [reflexivity|]. split; [reflexivity|].
  assert (Hsteps : forall l,
            power_events (concat (map (step_events (kernel w)) l))
            = concat (map (step_events (kernel w)) l)
            /\ failed_buffers (concat (map (step_events (kernel w)) l)) = []
            /\ completed_buffers (concat (map (step_events (kernel w)) l)) = []).
  { induction l as [|x l (IH1 & IH2 & IH3)]; [repeat split|]. cbn [map concat].
    rewrite power_events_app, failed_buffers_app, completed_buffers_app,
      IH1, IH2, IH3.
    destruct x; repeat split. }
  destruct (Hsteps power_sequence) as (Hs1 & Hs2 & Hs3).
  split.
  { intros b Hb.
    assert (Hab : active w1 b).
    { destruct (proj1 (Forall_forall _ _) Hact b Hb) as (vb & Hl & Hs).
      exists vb. rewrite Hbufs1. split; assumption. }
    split.
    - rewrite !failed_buffers_app, Hs2, Hq3.
      change (failed_buffers print_events) with (@nil nat).
      pose proof (mark_done_trace_failed w1 (bufs w1) [] eq_refl) as Hm.
      cbn [length] in Hm. rewrite Hm. cbn [app failed_buffers omap list_omap].
      rewrite app_nil_r.
      apply list_elem_of_In, List.filter_In. split.
      + apply in_seq. destruct Hab as (vb & Hl & _).
        apply lookup_lt_Some in Hl. lia.
      + apply active_activeb, Hab.
    - destruct Hab as (vb & Hl & Ha). exists (mark_done vb).
      unfold w2. cbn [bufs with_trace with_bufs]. split.
      + change (map mark_done (bufs w1)) with (mark_done <$> bufs w1).
        rewrite list_lookup_fmap, Hl. reflexivity.
      + unfold mark_done. rewrite decide_True by exact Ha. reflexivity. }
  split.
  { rewrite !completed_buffers_app, Hs3, Hq2,
      mark_done_trace_completes_nothing. reflexivity. }
  split.
  { rewrite !power_events_app, Hs1, Hq1.
    destruct (mark_done_trace_quiet (bufs w1) 0%nat) as [-> _]. reflexivity. }
  split.
  { unfold w2. cbn [csi with_trace with_bufs with_csi with_mmio with_nodes].
    rewrite Hw1. cbn [csi with_trace]. rewrite Hcsi, Hwa. reflexivity. }
  split.
  { unfold w2, reg.
    cbn [mmio with_trace with_bufs with_csi with_mmio with_nodes].
    rewrite lookup_insert_ne by (vm_compute; discriminate).
    rewrite lookup_insert_eq. reflexivity. }
  unfold w2, reg at 1.
  cbn [mmio with_trace with_bufs with_csi with_mmio with_nodes].
  rewrite lookup_insert_eq. apply module_disabled_bit.
Qed.

Lemma start_then_stop_witness :
  exists w1 w2 tr,
    sun4i_csi1_streaming_start world_queued = Some (0, w1)
    /\ sun4i_csi1_streaming_stop w1 = Some (tt, w2)
    /\ trace w2 = trace world_queued ++ tr
    /\ (forall b, b ∈ [0; 1; 2]%nat -> b ∈ failed_buffers tr)
    /\ powered (csi w2) = false.
Proof.
  destruct (start_then_stop world_queued) as (w1 & Hstart & _ & _ & Hstop).
  - apply start_invb_start_inv. vm_compute. reflexivity.
  - intros s Hs. destruct s; vm_compute; reflexivity.
  - vm_compute. lia.
  - destruct Hstop as (w2 & tr & Hrun & Htr & Hoff & _ & Hback & _).
    + apply queue_unlinkableb_queue_unlinkable. vm_compute. reflexivity.
    + exists w1, w2, tr. split; [exact Hstart|]. split; [exact Hrun|].
      split; [exact Htr|]. split; [|exact Hoff].
      intros b Hb. apply Hback.
      replace (buffer_list (csi world_queued)) with [0; 1; 2]%nat
        by (vm_compute; reflexivity).
      exact Hb.
Defined.

(** * More of the format and input ioctls *)

(** [sun4i_csi1_format_test] decides, without touching anything. *)
Lemma format_test_decides (w : world) (new : v4l2_format) :
  (Z.to_nat (plane_count (csi w)) <= length (plane_fmt new))%nat ->
  0 <= plane_count (csi w) ->
  exists r,
    sun4i_csi1_format_test new w = Some (r, w)
    /\ (r = 0 \/ r = - EINVAL)
    /\ (r = 0 <-> format_accepted (csi w) new).
Proof.
  intros Hlen Hpc. unfold sun4i_csi1_format_test, format_accepted.
  rewrite run_bind_gets. cbn zeta.
  set (c := csi w) in *. set (old := csi_v4l2_format c) in *.
  assert (Hne : - EINVAL ≠ 0) by (vm_compute; discriminate).
  destruct (decide (fmt_type old ≠ fmt_type new)) as [Ht|Ht].
  { exists (- EINVAL). split; [reflexivity|]. split; [right; reflexivity|].
    split; [intros H; contradiction | intros (H & _); contradiction]. }
  destruct (decide (wrap32 (width c) ≠ pix_width new
                    ∨ wrap32 (height c) ≠ pix_height new
                    ∨ plane_count c ≠ num_planes new)) as [Hs|Hs].
  { exists (- EINVAL). split; [reflexivity|]. split; [right; reflexivity|].
    split; [intros H; contradiction|].
    intros (_ & H1 & H2 & H3 & _). tauto. }
  destruct (format_test_planes_spec c new (Z.to_nat (plane_count c)) 0
              ltac:(lia) ltac:(lia))
    as [(Hrun & i & q & Hi & Hq & Hd) | (Hrun & Hall)]; rewrite Hrun.
  { rewrite run_bind_deref. cbn [negb].
    exists (- EINVAL). split; [reflexivity|]. split; [right; reflexivity|].
    split; [intros H; contradiction|].
    intros (_ & _ & _ & _ & Hp & _).
    destruct (Hp i q ltac:(lia) Hq) as [H1 H2]. tauto. }
  rewrite run_bind_deref. cbn [negb].
  destruct (decide (pixelformat old ≠ pixelformat new
                    ∨ field old ≠ field new
                    ∨ colorspace old ≠ colorspace new
                    ∨ quantization old ≠ quantization new
                    ∨ xfer_func old ≠ xfer_func new)) as [Hr|Hr].
  { exists (- EINVAL). split; [reflexivity|]. split; [right; reflexivity|].
    split; [intros H; contradiction|].
    intros (_ & _ & _ & _ & _ & H1 & H2 & H3 & H4 & H5). tauto. }
  exists 0. split; [reflexivity|]. split; [left; reflexivity|].
  split; [|reflexivity]. intros _.
  split; [lia|]. split; [lia|]. split; [lia|]. split; [lia|].
  split; [intros i q Hi Hq; apply (Hall i q); [lia | exact Hq]|].
  repeat split; lia.
Qed.

Lemma format_accepted_stored (c : sun4i_csi1) :
  format_consistent c -> format_accepted c (csi_v4l2_format c).
Proof.
  intros (Hlen & Hw & Hh & Hn & Hpc & Hplanes). unfold format_accepted.
  cbn zeta.
  split; [reflexivity|]. split; [congruence|]. split; [congruence|].
  split; [congruence|].
  split; [|repeat split; reflexivity].
  intros i q Hi Hq. destruct (Hplanes i q Hi Hq) as [-> ->].
  split; reflexivity.
Qed.

(** X18.  What [sun4i_csi1_ioctl_format_get] hands out,
    [sun4i_csi1_ioctl_format_set] and [sun4i_csi1_ioctl_format_try] take
    back: when the stored format and the tracked sizes agree, getting the
    format returns the stored one with status 0, and setting or trying
    that format returns 0; none of the three changes anything. *)
Theorem format_get_then_set (w : world) (request : v4l2_format) :
  format_consistent (csi w) ->
  exists stored,
    sun4i_csi1_ioctl_format_get request w = Some ((0, stored), w)
    /\ stored = csi_v4l2_format (csi w)
    /\ sun4i_csi1_ioctl_format_set stored w = Some (0, w)
    /\ sun4i_csi1_ioctl_format_try stored w = Some (0, w).
Proof.
  intros Hc. exists (csi_v4l2_format (csi w)).
  split; [reflexivity|]. split; [reflexivity|].
  pose proof Hc as (Hlen & _ & _ & _ & Hpc & _). unfold VIDEO_MAX_PLANES in *.
  destruct (format_test_decides w (csi_v4l2_format (csi w)))
    as (r & Hrun & _ & Hiff); [lia | lia |].
  assert (r = 0) by (apply Hiff, format_accepted_stored, Hc). subst r.
  split; exact Hrun.
Qed.

Lemma format_get_then_set_witness :
  exists stored,
    sun4i_csi1_ioctl_format_get (csi_v4l2_format csi_zero) world_probed
    = Some ((0, stored), world_probed)
    /\ pix_width stored = 1920
    /\ sun4i_csi1_ioctl_format_set stored world_probed = Some (0, world_probed).
Proof.
  destruct (format_get_then_set world_probed (csi_v4l2_format csi_zero)
              csi_probed_consistent) as (stored & Hget & Hst & Hset & _).
  exists stored. split; [exact Hget|]. split; [|exact Hset].
  rewrite Hst. vm_compute. reflexivity.
Defined.

Lemma format_accepted_unread (c : sun4i_csi1) (new : v4l2_format) (enc : Z)
    (extra : list v4l2_plane_pix_format) :
  (Z.to_nat (plane_count c) <= length (plane_fmt new))%nat ->
  format_accepted c (with_unread enc extra (Z.to_nat (plane_count c)) new)
  <-> format_accepted c new.
Proof.
  intros Hlen. unfold format_accepted, with_unread. cbn zeta.
  cbn [fmt_type pix_width pix_height num_planes plane_fmt pixelformat field
       colorspace quantization xfer_func].
  assert (Hlook : forall i, 0 <= i < plane_count c ->
            (take (Z.to_nat (plane_count c)) (plane_fmt new) ++ extra)
              !! Z.to_nat i = plane_fmt new !! Z.to_nat i).
  { intros i Hi. rewrite lookup_app_l by (rewrite length_take; lia).
    apply lookup_take_lt. lia. }
  split; intros (H1 & H2 & H3 & H4 & H5 & H6);
    (split; [exact H1|]; split; [exact H2|]; split; [exact H3|];
     split; [exact H4|]; split; [|exact H6]);
    intros i q Hi Hq; apply (H5 i q Hi).
  - rewrite Hlook by exact Hi. exact Hq.
  - rewrite Hlook in Hq by exact Hi. exact Hq.
Qed.

(** X19.  The format test reads neither [ycbcr_enc] nor the planes past
    the plane count: a request that differs from another only there gets
    the same answer, so a format is accepted whatever it says in those
    members. *)
Theorem format_set_ignores_unread (w : world) (new : v4l2_format) (enc : Z)
    (extra : list v4l2_plane_pix_format) :
  (Z.to_nat (plane_count (csi w)) <= length (plane_fmt new))%nat ->
  0 <= plane_count (csi w) ->
  sun4i_csi1_ioctl_format_set
    (with_unread enc extra (Z.to_nat (plane_count (csi w))) new) w
  = sun4i_csi1_ioctl_format_set new w.
Proof.
  intros Hlen Hpc. unfold sun4i_csi1_ioctl_format_set.
  destruct (format_test_decides w new Hlen Hpc) as (r & Hrun & Hr & Hiff).
  destruct (format_test_decides w
              (with_unread enc extra (Z.to_nat (plane_count (csi w))) new))
    as (r' & Hrun' & Hr' & Hiff'); [|exact Hpc|].
  { cbn [with_unread plane_fmt]. rewrite length_app, length_take. lia. }
  rewrite Hrun, Hrun'. f_equal. f_equal.
  rewrite (format_accepted_unread _ _ _ _ Hlen) in Hiff'.
  assert (Hne : - EINVAL ≠ 0) by (vm_compute; discriminate).
  destruct Hr as [-> | ->], Hr' as [-> | ->]; try reflexivity; exfalso.
  - apply Hne. apply Hiff', Hiff. reflexivity.
  - apply Hne. apply Hiff, Hiff'. reflexivity.
Qed.

Lemma format_set_ignores_unread_witness :
  sun4i_csi1_ioctl_format_set
    (with_unread 7 (replicate 5 (mk_plane 1 1)) 3 (csi_v4l2_format csi_probed))
    world_probed
  = Some (0, world_probed).
Proof.
  pose proof (format_set_ignores_unread world_probed
                (csi_v4l2_format csi_probed) 7 (replicate 5 (mk_plane 1 1))
                ltac:(vm_compute; lia) ltac:(vm_compute; discriminate)) as H.
  change (Z.to_nat (plane_count (csi world_probed))) with 3%nat in H.
  rewrite H. vm_compute. reflexivity.
Defined.

(** X20.  The format enumeration and the format test disagree.
    [sun4i_csi1_ioctl_format_enumerate] offers one format, at index 0,
    with pixel format RGB24, and refuses every other index; but the
    format the driver stores is YUV444M, and
    [sun4i_csi1_ioctl_format_set] refuses the stored format once its pixel
    format is replaced by the enumerated one. *)
Theorem format_enumerate_offers_refused_format (w : world)
    (descriptor : v4l2_fmtdesc) :
  format_consistent (csi w) ->
  pixelformat (csi_v4l2_format (csi w)) = V4L2_PIX_FMT_YUV444M ->
  0 <= desc_index descriptor ->
  exists ret descriptor',
    sun4i_csi1_ioctl_format_enumerate descriptor w
    = Some ((ret, descriptor'), w)
    /\ (ret = 0 <-> desc_index descriptor = 0)
    /\ (ret = 0 -> desc_pixelformat descriptor' = V4L2_PIX_FMT_RGB24)
    /\ (ret ≠ 0 -> ret = - EINVAL /\ descriptor' = descriptor)
    /\ sun4i_csi1_ioctl_format_set
         (with_pixelformat V4L2_PIX_FMT_RGB24 (csi_v4l2_format (csi w))) w
       = Some (- EINVAL, w).
Proof.
  intros Hc Hpix Hidx.
  assert (Hne : - EINVAL ≠ 0) by (vm_compute; discriminate).
  assert (Hset : sun4i_csi1_ioctl_format_set
                   (with_pixelformat V4L2_PIX_FMT_RGB24
                      (csi_v4l2_format (csi w))) w = Some (- EINVAL, w)).
  { pose proof Hc as (Hlen & _ & _ & _ & Hpc & _).
    unfold VIDEO_MAX_PLANES in *. unfold sun4i_csi1_ioctl_format_set.
    destruct (format_test_decides w
                (with_pixelformat V4L2_PIX_FMT_RGB24 (csi_v4l2_format (csi w))))
      as (r & Hrun & Hr & Hiff);
      [cbn [with_pixelformat plane_fmt]; lia | lia |].
    destruct Hr as [-> | ->]; [|exact Hrun]. exfalso.
    destruct (proj1 Hiff eq_refl) as (_ & _ & _ & _ & _ & Hp & _).
    cbn [with_pixelformat pixelformat] in Hp. rewrite Hpix in Hp.
    vm_compute in Hp. discriminate. }
  unfold sun4i_csi1_ioctl_format_enumerate.
  destruct (decide (desc_index descriptor > 0)) as [Hgt|Hle].
  - exists (- EINVAL), descriptor. split; [reflexivity|].
    split; [split; [intros H; contradiction | lia]|].
    split; [intros H; contradiction|]. split; [intros _; split; reflexivity|].
    exact Hset.
  - eexists 0, _. split; [reflexivity|].
    split; [split; [lia | reflexivity]|].
    split; [reflexivity|]. split; [intros H; contradiction | exact Hset].
Qed.

Lemma format_enumerate_offers_refused_format_witness :
  sun4i_csi1_ioctl_format_enumerate (mk_fmtdesc 0 0) world_probed
  = Some ((0, mk_fmtdesc 0 V4L2_PIX_FMT_RGB24), world_probed)
  /\ sun4i_csi1_ioctl_format_set
       (with_pixelformat V4L2_PIX_FMT_RGB24 (csi_v4l2_format csi_probed))
       world_probed
     = Some (- EINVAL, world_probed).
Proof.
  destruct (format_enumerate_offers_refused_format world_probed
              (mk_fmtdesc 0 0) csi_probed_consistent eq_refl
              ltac:(vm_compute; discriminate))
    as (ret & d & Hrun & _ & _ & _ & Hset).
  split; [vm_compute; reflexivity | exact Hset].
Defined.

(** X21.  The three input ioctls agree on the one input there is:
    [sun4i_csi1_ioctl_input_get] reports input 0,
    [sun4i_csi1_ioctl_input_set] accepts exactly input 0, and
    [sun4i_csi1_ioctl_input_enumerate] describes exactly index 0, as the
    camera input named direct; every other number gets [-EINVAL], the
    structure it came in untouched.  None of them changes the driver. *)
Theorem input_ioctls_agree (w : world) (input : v4l2_input) (before : Z) :
  exists current ret ret' input',
    sun4i_csi1_ioctl_input_get before w = Some ((0, current), w)
    /\ sun4i_csi1_ioctl_input_set current w = Some (0, w)
    /\ sun4i_csi1_ioctl_input_set (input_index input) w = Some (ret, w)
    /\ sun4i_csi1_ioctl_input_enumerate input w = Some ((ret', input'), w)
    /\ ret' = ret
    /\ (ret = 0 <-> input_index input = current)
    /\ (ret = 0 ->
        input' = mk_input current "direct" V4L2_INPUT_TYPE_CAMERA)
    /\ (ret ≠ 0 -> ret = - EINVAL /\ input' = input).
Proof.
  assert (Hne : - EINVAL ≠ 0) by (vm_compute; discriminate).
  unfold sun4i_csi1_ioctl_input_get, sun4i_csi1_ioctl_input_set,
    sun4i_csi1_ioctl_input_enumerate.
  exists 0. rewrite (decide_False (P := 0 ≠ 0)) by (intros H; apply H; reflexivity).
  destruct (decide (input_index input ≠ 0)) as [Hnz|Hz].
  - exists (- EINVAL), (- EINVAL), input.
    do 5 (split; [reflexivity|]).
    split; [split; intros H; [contradiction | exfalso; apply Hnz, H]|].
    split; [intros H; contradiction | intros _; split; reflexivity].
  - assert (Hi : input_index input = 0) by lia.
    eexists 0, 0, _. do 5 (split; [reflexivity|]).
    split; [split; intros _; [exact Hi | reflexivity]|].
    split; [intros _; rewrite Hi; reflexivity | intros H; contradiction].
Qed.

(** X22.  Whatever width and height [sun4i_csi1_format_initialize] is
    given, the format it stores is one the driver's own format test
    accepts: three planes in use, each of width times height bytes (as a
    32 bit number) with the width as line length, the planes past them
    zero, pixel format YUV444M.  The queue, the slots, the controls and
    the power state are not touched. *)
Theorem format_initialize_then_set (w : world) (width height : Z)
    (hp vp : bool) :
  let c := sun4i_csi1_format_initialize width height hp vp (csi w) in
  let w' := with_csi c w in
  let stored := csi_v4l2_format c in
  sun4i_csi1_ioctl_format_set stored w' = Some (0, w')
  /\ sun4i_csi1_ioctl_format_try stored w' = Some (0, w')
  /\ num_planes stored = 3
  /\ plane_count c = 3
  /\ plane_size c = wrap32 (width * height)
  /\ pixelformat stored = V4L2_PIX_FMT_YUV444M
  /\ plane_fmt stored
     = replicate 3 (mk_plane (wrap32 (width * height)) (wrap32 width))
       ++ replicate 5 (mk_plane 0 0)
  /\ buffer_list c = buffer_list (csi w)
  /\ buffers c = buffers (csi w)
  /\ dummy c = dummy (csi w)
  /\ powered c = powered (csi w)
  /\ hdisplay_start c = hdisplay_start (csi w)
  /\ vdisplay_start c = vdisplay_start (csi w).
Proof.
  intros c w' stored.
  pose proof (format_initialize_consistent width height hp vp (csi w)) as Hc.
  fold c in Hc.
  assert (Htest : sun4i_csi1_format_test stored w' = Some (0, w')).
  { pose proof Hc as (Hlen & _ & _ & _ & Hpc & _).
    unfold VIDEO_MAX_PLANES in *.
    destruct (format_test_decides w' stored) as (r & Hrun & _ & Hiff);
      [unfold w', stored; cbn [csi with_csi]; lia
      |unfold w'; cbn [csi with_csi]; lia|].
    assert (r = 0) by (apply Hiff; unfold w'; cbn [csi with_csi];
                       apply format_accepted_stored, Hc).
    subst r. exact Hrun. }
  split; [exact Htest|]. split; [exact Htest|].
  unfold stored, c, sun4i_csi1_format_initialize.
  cbn [csi_v4l2_format num_planes plane_count plane_size pixelformat plane_fmt
       buffer_list buffers dummy powered hdisplay_start vdisplay_start].
  rewrite wrap32_wrap32.
  repeat split; reflexivity.
Qed.
